(** * Gas-EV-Prices.py: a shallow embedding and its checked properties

    The program is a linear scrape / merge / publish pipeline.  Everything
    it does goes through three libraries (requests, BeautifulSoup, pandas)
    and through in-place updates of pandas objects, so the embedding has

    - Python strings and the two [str] methods the program calls,
    - a BeautifulSoup tree with [find], [find_all] and [get_text],
    - DataFrames as heap objects (column labels and rows of cells) with the
      pandas operations the program calls,
    - a world (heap of DataFrames, chronological list of observable events)
      threaded through every function, exceptions keeping the world,
    - the functions of the file, one definition per [def].

    What the libraries compute from the outside world (network answers, the
    clock) and the text parsers of the libraries ([float], [pd.read_html],
    the HTML tokenizer) are parameters of the development. *)

From Stdlib Require Import ZArith Ascii String Lia.
From stdpp Require Import base list strings.

Local Open Scope string_scope.
Local Open Scope list_scope.

(** ** Python strings

    A Python [str] is a sequence of code points; the embedding holds its
    UTF-8 encoding, so that a character is one to four bytes: the
    no-break space U+00A0 is the two bytes C2 A0.  Equality and
    concatenation of the encodings are those of the strings. *)

Definition byte_is (c : ascii) (n : nat) : bool := Nat.eqb (nat_of_ascii c) n.

(** [c.isspace()], for the characters of one byte: U+0009..U+000D,
    U+001C..U+001F and U+0020. *)
Definition isspace (c : ascii) : bool :=
  let n := nat_of_ascii c in
  ((9 <=? n)%nat && (n <=? 13)%nat) || ((28 <=? n)%nat && (n <=? 32)%nat).

(** The white space of two bytes: U+0085 (C2 85) and U+00A0 (C2 A0). *)
Definition isspace2 (c1 c2 : ascii) : bool :=
  byte_is c1 194 && (byte_is c2 133 || byte_is c2 160).

(** The white space of three bytes: U+1680 (E1 9A 80), U+2000..U+200A
    (E2 80 80..8A), U+2028 and U+2029 (E2 80 A8, A9), U+202F (E2 80 AF),
    U+205F (E2 81 9F) and U+3000 (E3 80 80).  With the two definitions
    above, these are all the characters that [str.isspace] accepts and
    that [str.strip] removes. *)
Definition isspace3 (c1 c2 c3 : ascii) : bool :=
  let n := nat_of_ascii c3 in
  (byte_is c1 225 && byte_is c2 154 && byte_is c3 128)
  || (byte_is c1 226 && byte_is c2 128
      && (((128 <=? n)%nat && (n <=? 138)%nat)
          || Nat.eqb n 168 || Nat.eqb n 169 || Nat.eqb n 175))
  || (byte_is c1 226 && byte_is c2 129 && byte_is c3 159)
  || (byte_is c1 227 && byte_is c2 128 && byte_is c3 128).

(** The string after its first character, when that is white space. *)
Definition skip_space (s : string) : option string :=
  match s with
  | String c1 s1 =>
      if isspace c1 then Some s1
      else match s1 with
           | String c2 s2 =>
               if isspace2 c1 c2 then Some s2
               else match s2 with
                    | String c3 s3 => if isspace3 c1 c2 c3 then Some s3 else None
                    | EmptyString => None
                    end
           | EmptyString => None
           end
  | EmptyString => None
  end.

(** [s.lstrip()] *)
Fixpoint lstrip (s : string) : string :=
  match s with
  | EmptyString => EmptyString
  | String c1 s1 =>
      if isspace c1 then lstrip s1
      else match s1 with
           | String c2 s2 =>
               if isspace2 c1 c2 then lstrip s2
               else match s2 with
                    | String c3 s3 => if isspace3 c1 c2 c3 then lstrip s3 else s
                    | EmptyString => s
                    end
           | EmptyString => s
           end
  end.

(** [s.rstrip()]: the string up to the first place from which on
    everything is white space. *)
Fixpoint rstrip (s : string) : string :=
  match s with
  | EmptyString => EmptyString
  | String c s' =>
      match lstrip s with
      | EmptyString => EmptyString
      | _ => String c (rstrip s')
      end
  end.

(** [s.strip()] *)
Definition strip (s : string) : string := rstrip (lstrip s).

(** A byte that continues a character: 80..BF. *)
Definition is_continuation (c : ascii) : bool :=
  let n := nat_of_ascii c in (128 <=? n)%nat && (n <? 192)%nat.

(** [s[:n]]: the first [n] characters. *)
Fixpoint str_take (n : nat) (s : string) : string :=
  match s with
  | EmptyString => EmptyString
  | String c s' =>
      if is_continuation c then String c (str_take n s')
      else match n with
           | 0 => EmptyString
           | S n' => String c (str_take n' s')
           end
  end.

(** [s.replace(c, '')] for a one-character [c]: every occurrence goes. *)
Fixpoint str_remove (c0 : ascii) (s : string) : string :=
  match s with
  | EmptyString => EmptyString
  | String c s' =>
      if Ascii.eqb c c0 then str_remove c0 s' else String c (str_remove c0 s')
  end.

Definition dollar : ascii := "$"%char.

Fixpoint str_concat (l : list string) : string :=
  match l with
  | [] => EmptyString
  | s :: l' => s +:+ str_concat l'
  end.

(** ** BeautifulSoup trees *)

(** What [BeautifulSoup(html_text, 'html.parser')] builds: text nodes and
    tags with their children, in document order. *)
#[warnings="-register-all"]
Inductive node : Type :=
  | Text (s : string)
  | Tag (name : string) (children : list node).

(** All nodes strictly below [n], in document order (pre-order). *)
Fixpoint descendants (n : node) : list node :=
  match n with
  | Text _ => []
  | Tag _ cs => flat_map (fun c => c :: descendants c) cs
  end.

Definition is_tag_in (names : list string) (n : node) : bool :=
  match n with
  | Text _ => false
  | Tag t _ => existsb (String.eqb t) names
  end.

(** [n.find_all(names)]: every descendant tag with one of the names. *)
Definition find_all (names : list string) (n : node) : list node :=
  List.filter (is_tag_in names) (descendants n).

(** [n.find(name)]: the first of them, or [None]. *)
Definition find (name : string) (n : node) : option node :=
  head (find_all [name] n).

(** [n.get_text()]: the text nodes below [n], concatenated. *)
Fixpoint get_text (n : node) : string :=
  match n with
  | Text s => s
  | Tag _ cs => str_concat (map get_text cs)
  end.

(** ** Exceptions and results *)

(** A response of [requests]: status code and body. *)
Record response : Type := Response { status_code : Z; text : string }.

Inductive exn : Type :=
  | ValueError (msg : string)
  | KeyError (key : string)
  | AttributeError (msg : string)
  | TypeError (msg : string)
  | MergeError (msg : string)
  | HTTPError (r : response)          (* requests.exceptions.HTTPError *)
  | Timeout                           (* requests.exceptions.Timeout *)
  | ConnectionError (msg : string)    (* requests.exceptions.ConnectionError *)
  | JSONDecodeError                   (* requests.exceptions.JSONDecodeError *)
  | OtherException (msg : string).    (* any other subclass of Exception *)

(** [isinstance(e, requests.exceptions.RequestException)] *)
Definition is_RequestException (e : exn) : bool :=
  match e with
  | HTTPError _ | Timeout | ConnectionError _ | JSONDecodeError => true
  | _ => false
  end.

Inductive result (A : Type) : Type :=
  | OK (a : A)
  | Raise (e : exn).
Arguments OK {A} a.
Arguments Raise {A} e.

(** ** pandas values and frames *)

(** A cell: a Python [str], a number, [None] or NaN.  [num] stands for the
    numeric scalars (float64 / int64) of the Python run. *)
Inductive value (num : Type) : Type :=
  | VStr (s : string)
  | VNum (x : num)
  | VNone
  | VNaN.
Arguments VStr {num} s.
Arguments VNum {num} x.
Arguments VNone {num}.
Arguments VNaN {num}.

(** A DataFrame: its column labels (as [str(label)] renders them) and its
    rows, each row holding one cell per column. *)
Record DataFrame (num : Type) : Type :=
  Frame { columns : list string; rows : list (list (value num)) }.
Arguments Frame {num} columns rows.
Arguments columns {num} d.
Arguments rows {num} d.

(** What [df[label]] evaluates to: a Series when the label occurs once, a
    DataFrame when it occurs several times. *)
Inductive selection (num : Type) : Type :=
  | SelSeries (vals : list (value num))
  | SelFrame.
Arguments SelSeries {num} vals.
Arguments SelFrame {num}.

(** ** The observable world *)

(** One interpolated piece of a printed line. *)
Inductive piece (num : Type) : Type :=
  | Lit (s : string)                  (* literal text or an interpolated str *)
  | PInt (z : Z)                      (* an int, e.g. a status code *)
  | PExn (e : exn)                    (* [str(e)] of an exception *)
  | PLabels (l : list string)         (* [list(df.columns)] *)
  | PFrame (d : DataFrame num)        (* a rendered DataFrame *)
  | PTraceback (e : exn).             (* [traceback.print_exc()] *)
Arguments Lit {num} s.
Arguments PInt {num} z.
Arguments PExn {num} e.
Arguments PLabels {num} l.
Arguments PFrame {num} d.
Arguments PTraceback {num} e.

Definition http_headers : Type := list (string * string).

(** How a call of [requests.get] ends: with a response (whatever its
    status) or with one of the exceptions of [requests]. *)
Inductive outcome : Type :=
  | Answered (r : response)
  | Failed (e : exn).

(** The two paths that the publisher reads in the JSON document of the
    reply, [result['html_url']] and
    [result['files']['aaa_prices.json']['raw_url']]: [None] when a key of
    the path is missing.  (For the second path the embedding does not
    record which of the three keys it is: its [KeyError] names the
    last.) *)
Record gist_reply : Type :=
  GistReply { html_url : option string; raw_url : option string }.

(** How a call of [requests.patch] ends; [doc] is what [response.json()]
    gives, [None] when the body is not JSON. *)
Inductive patch_outcome : Type :=
  | PatchAnswered (r : response) (doc : option gist_reply)
  | PatchFailed (e : exn).

(** The JSON body of the PATCH request: the description, and the content
    of the file "aaa_prices.json", kept as the object that
    [json.dumps(full_data, indent=2)] serialises, i.e. the timestamp and
    the records of [dataframe.to_dict(orient='records')]. *)
Record payload (num : Type) : Type :=
  Payload { description : string;
            scrape_date : string;
            data : list (list (string * value num)) }.
Arguments Payload {num} description scrape_date data.
Arguments description {num} p.
Arguments scrape_date {num} p.
Arguments data {num} p.

Inductive event (num : Type) : Type :=
  | EvPrint (line : list (piece num))
  | EvSleep (seconds : nat)
  | EvGet (url : string) (headers : http_headers) (answer : outcome)
  | EvPatch (url : string) (headers : http_headers) (body : payload num)
            (answer : patch_outcome).
Arguments EvPrint {num} line.
Arguments EvSleep {num} seconds.
Arguments EvGet {num} url headers answer.
Arguments EvPatch {num} url headers body answer.

(** Everything the run takes from outside the file: the numeric scalars and
    the text parsers of the libraries, and the answers of the network and
    of the clock, which may depend on what happened before. *)
Class Runtime : Type := {
  num : Type;
  num_eqb : num -> num -> bool;                       (* [x == y] *)
  to_float : string -> option num;                    (* [float(s)], [None]: ValueError *)
  to_numeric : string -> option num;                  (* [pd.to_numeric] on one str *)
  num_str : num -> string;                            (* [str(x)] *)
  BeautifulSoup : string -> node;                     (* the root of the parse tree *)
  read_html : string -> result (list (DataFrame num));  (* [pd.read_html] *)
  requests_get : list (event num) -> string -> http_headers -> outcome;
  requests_patch :
    list (event num) -> string -> http_headers -> payload num -> patch_outcome;
  now : list (event num) -> string;                   (* [strftime('%Y-%m-%d %H:%M:%S')] *)
  environ_get : string -> option string               (* [os.environ.get] *)
}.

(** A reference to a DataFrame object. *)
Definition loc : Type := nat.

Record world (num : Type) : Type :=
  World { heap : list (DataFrame num); out : list (event num) }.
Arguments World {num} heap out.
Arguments heap {num} w.
Arguments out {num} w.

(** ** The monad of the embedding: state, with exceptions that keep it *)

Definition M (num A : Type) : Type := world num -> result A * world num.

Definition ret {num A} (a : A) : M num A := fun w => (OK a, w).

Definition raise {num A} (e : exn) : M num A := fun w => (Raise e, w).

Definition bind {num A B} (m : M num A) (k : A -> M num B) : M num B :=
  fun w => match m w with
           | (OK a, w') => k a w'
           | (Raise e, w') => (Raise e, w')
           end.

(** [try: m  except Exception as e: h e] *)
Definition try_except {num A} (m : M num A) (h : exn -> M num A) : M num A :=
  fun w => match m w with
           | (OK a, w') => (OK a, w')
           | (Raise e, w') => h e w'
           end.

Declare Scope py_scope.
Delimit Scope py_scope with py.
Notation "x <- m ;; k" := (bind m (fun x => k))
  (at level 100, m at next level, right associativity) : py_scope.
Notation "m ;; k" := (bind m (fun _ => k))
  (at level 100, right associativity) : py_scope.
Local Open Scope py_scope.

(** [for x in l: body x] *)
Fixpoint for_each {num A} (l : list A) (body : A -> M num unit) : M num unit :=
  match l with
  | [] => ret tt
  | x :: l' => body x ;; for_each l' body
  end.

Definition lift {num A} (r : result A) : M num A := fun w => (r, w).

Definition emit {num} (e : event num) : M num unit :=
  fun w => (OK tt, World (heap w) (out w ++ [e])).

Definition print {num} (line : list (piece num)) : M num unit :=
  emit (EvPrint line).

Definition history {num} : M num (list (event num)) := fun w => (OK (out w), w).

(** A new object. *)
Definition alloc {num} (d : DataFrame num) : M num loc :=
  fun w => (OK (length (heap w)), World (heap w ++ [d]) (out w)).

(** The object behind a reference.  References only come from [alloc], so
    the second case is never taken. *)
Definition load {num} (l : loc) : M num (DataFrame num) :=
  fun w => match heap w !! l with
           | Some d => (OK d, w)
           | None => (Raise (OtherException "dangling reference"), w)
           end.

(** In-place update of the object behind a reference. *)
Definition store {num} (l : loc) (d : DataFrame num) : M num unit :=
  fun w => (OK tt, World (<[l := d]> (heap w)) (out w)).

(** ** pandas, on frames as values *)

Section Pandas.
Context {R : Runtime}.

(** How many columns carry the label, and where the first of them is. *)
Fixpoint count_label (name : string) (cols : list string) : nat :=
  match cols with
  | [] => 0
  | c :: cs => (if String.eqb c name then 1 else 0) + count_label name cs
  end.

Fixpoint index_of (name : string) (cols : list string) : nat :=
  match cols with
  | [] => 0
  | c :: cs => if String.eqb c name then 0 else S (index_of name cs)
  end.

(** [name in df.columns] *)
Definition has_label (name : string) (cols : list string) : bool :=
  existsb (String.eqb name) cols.

Definition cell (j : nat) (r : list (value num)) : value num :=
  default VNaN (r !! j).

Definition column (j : nat) (d : DataFrame num) : list (value num) :=
  map (cell j) (rows d).

(** [df[name]] *)
Definition frame_getitem (d : DataFrame num) (name : string)
  : result (selection num) :=
  match count_label name (columns d) with
  | 0 => Raise (KeyError name)
  | 1 => OK (SelSeries (column (index_of name (columns d)) d))
  | _ => OK SelFrame
  end.

(** One row of [df[name] = vals]: the cell under every column labelled
    [name] becomes [v]. *)
Fixpoint set_cells (cols : list string) (name : string) (v : value num)
  (r : list (value num)) : list (value num) :=
  match cols, r with
  | c :: cs, x :: xs =>
      (if String.eqb c name then v else x) :: set_cells cs name v xs
  | _, _ => r
  end.

(** [df[name] = vals], for [vals] computed from a column of [df]: an
    existing label keeps its place, a new label is appended. *)
Definition frame_setitem (d : DataFrame num) (name : string)
  (vals : list (value num)) : DataFrame num :=
  if has_label name (columns d)
  then Frame (columns d) (zip_with (set_cells (columns d) name) vals (rows d))
  else Frame (columns d ++ [name]) (zip_with (fun v r => r ++ [v]) vals (rows d)).

(** [df.rename(columns={old: new})]: every column labelled [old]. *)
Definition frame_rename (d : DataFrame num) (old new : string) : DataFrame num :=
  Frame (map (fun c => if String.eqb c old then new else c) (columns d)) (rows d).

Definition is_str (v : value num) : bool :=
  match v with VStr _ => true | _ => false end.

Definition is_num (v : value num) : bool :=
  match v with VNum _ => true | _ => false end.

(** [sel.str]: a DataFrame has no such attribute, and a Series of numbers
    is refused; strings, missing values and mixtures are accepted.  A
    frame of the embedding has cells and no dtypes: a column of missing
    values only is read as pandas reads an object column (accepted), which
    is what the columns of this program are when they reach [.str] (they
    come from [astype(str)], from an earlier [.str] method or from
    [pd.DataFrame] on lists of strings); pandas refuses a float64 column
    of NaN. *)
Definition str_accessor (sel : selection num) : result (list (value num)) :=
  match sel with
  | SelFrame => Raise (AttributeError "'DataFrame' object has no attribute 'str'")
  | SelSeries vals =>
      if existsb is_num vals && negb (existsb is_str vals)
      then Raise (AttributeError "Can only use .str accessor with string values!")
      else OK vals
  end.

(** A method of the [.str] accessor on one cell: a missing value stays
    what it is, and what is neither a string nor missing comes out as
    NaN. *)
Definition str_cell (f : string -> string) (v : value num) : value num :=
  match v with
  | VStr s => VStr (f s)
  | VNone => VNone
  | VNum _ | VNaN => VNaN
  end.

(** The method on a Series. *)
Definition str_map (f : string -> string) (vals : list (value num))
  : list (value num) :=
  map (str_cell f) vals.

(** [str(v)], as [astype(str)] applies it. *)
Definition py_str (v : value num) : string :=
  match v with
  | VStr s => s
  | VNum x => num_str x
  | VNone => "None"
  | VNaN => "nan"
  end.

(** [sel.astype(str)]; on a DataFrame it gives a DataFrame again. *)
Definition astype_str (sel : selection num) : selection num :=
  match sel with
  | SelSeries vals => SelSeries (map (fun v => VStr (py_str v)) vals)
  | SelFrame => SelFrame
  end.

Fixpoint traverse {A B} (f : A -> result B) (l : list A) : result (list B) :=
  match l with
  | [] => OK []
  | x :: l' =>
      match f x with
      | Raise e => Raise e
      | OK y => match traverse f l' with
                | Raise e => Raise e
                | OK ys => OK (y :: ys)
                end
      end
  end.

Definition float_cell (v : value num) : result (value num) :=
  match v with
  | VStr s =>
      match to_float s with
      | Some x => OK (VNum x)
      | None => Raise (ValueError ("could not convert string to float: '" +:+ s +:+ "'"))
      end
  | VNum x => OK (VNum x)
  | VNone | VNaN => OK VNaN
  end.

(** [series.astype(float)]: the first cell that [float] refuses raises. *)
Definition astype_float (vals : list (value num)) : result (list (value num)) :=
  traverse float_cell vals.

(** [pd.to_numeric(sel, errors='coerce')] *)
Definition to_numeric_coerce (sel : selection num) : result (list (value num)) :=
  match sel with
  | SelFrame =>
      Raise (TypeError "arg must be a list, tuple, 1-d array, or Series")
  | SelSeries vals =>
      OK (map (fun v => match v with
                        | VStr s => match to_numeric s with
                                    | Some x => VNum x
                                    | None => VNaN
                                    end
                        | VNum x => VNum x
                        | VNone | VNaN => VNaN
                        end) vals)
  end.

(** The width of the widest row. *)
Definition max_width {A} (rs : list (list A)) : nat :=
  foldr (fun r m => Nat.max (length r) m) 0 rs.

(** [pd.DataFrame(rows, columns=headers)] for a list of lists of strings:
    no rows give an empty frame with the given labels; otherwise the frame
    is as wide as the widest row, shorter rows are filled with [None], and
    the number of labels has to be that width. *)
Definition frame_of_rows (rs : list (list string)) (headers : list string)
  : result (DataFrame num) :=
  match rs with
  | [] => OK (Frame headers [])
  | _ =>
      let w := max_width rs in
      if Nat.eqb (length headers) w
      then OK (Frame headers
                 (map (fun r => map VStr r ++ replicate (w - length r) VNone) rs))
      else Raise (ValueError "columns passed, passed data had a different number of columns")
  end.

(** [==] on join keys; missing values match each other. *)
Definition key_eqb (a b : value num) : bool :=
  match a, b with
  | VStr s, VStr t => String.eqb s t
  | VNum x, VNum y => num_eqb x y
  | (VNone | VNaN), (VNone | VNaN) => true
  | _, _ => false
  end.

(** The labels of one side after the suffix rule of [pd.merge]: a label
    that both sides have (the key column of the right side apart) gets the
    side's suffix. *)
Definition add_suffix (other : list string) (suffix : string)
  (cols : list string) : list string :=
  map (fun c => if has_label c other then c +:+ suffix else c) cols.

(** Labels that the suffixes made equal to another label of the side:
    positions that repeat an earlier label after the renaming and did not
    before. *)
Fixpoint suffix_clash (before after : list string)
  (seen_before seen_after : list string) : bool :=
  match before, after with
  | b :: bs, a :: as_ =>
      (has_label a seen_after && negb (has_label b seen_before))
      || suffix_clash bs as_ (b :: seen_before) (a :: seen_after)
  | _, _ => false
  end.

(** The rows that [pd.merge(left, right, on=key, how='left')] gives for one
    left row: one per matching right row, in the order of the right frame,
    and one filled with NaN when nothing matches. *)
Definition join_row (i j width : nat) (rrows : list (list (value num)))
  (lr : list (value num)) : list (list (value num)) :=
  match List.filter (fun rr => key_eqb (cell i lr) (cell j rr)) rrows with
  | [] => [lr ++ replicate width VNaN]
  | ms => map (fun rr => lr ++ delete j rr) ms
  end.

(** [pd.merge(l, r, on=key, how='left')] *)
Definition frame_merge_left (l r : DataFrame num) (key : string)
  : result (DataFrame num) :=
  match count_label key (columns l), count_label key (columns r) with
  | 0, _ | _, 0 => Raise (KeyError key)
  | 1, 1 =>
      let i := index_of key (columns l) in
      let j := index_of key (columns r) in
      let rcols := delete j (columns r) in
      let lcols' := add_suffix rcols "_x" (columns l) in
      let rcols' := add_suffix (columns l) "_y" rcols in
      if suffix_clash (columns l) lcols' [] [] || suffix_clash rcols rcols' [] []
      then Raise (MergeError "Passing 'suffixes' which cause duplicate columns is not allowed.")
      else OK (Frame (lcols' ++ rcols')
                 (flat_map (join_row i j (length rcols) (rows r)) (rows l)))
  | _, _ => Raise (ValueError ("The column label '" +:+ key +:+ "' is not unique."))
  end.

(** [d[k] = v] on a dict, kept as the list of its items in the order of
    insertion: a key that is there keeps its place and takes the value. *)
Fixpoint dict_set (k : string) (v : value num) (d : list (string * value num))
  : list (string * value num) :=
  match d with
  | [] => [(k, v)]
  | (k', v') :: d' =>
      if String.eqb k' k then (k, v) :: d' else (k', v') :: dict_set k v d'
  end.

(** [dict(items)] *)
Definition dict_of (items : list (string * value num)) : list (string * value num) :=
  foldl (fun d kv => dict_set (fst kv) (snd kv) d) [] items.

(** [d.get(k)] *)
Fixpoint dict_get (k : string) (d : list (string * value num)) : option (value num) :=
  match d with
  | [] => None
  | (k', v) :: d' => if String.eqb k' k then Some v else dict_get k d'
  end.

(** [dataframe.to_dict(orient='records')]: per row, the dict of the
    labels and the cells, [dict(zip(columns, row))]; of the columns that
    share a label, the last one is in the dict. *)
Definition to_dict_records (d : DataFrame num) : list (list (string * value num)) :=
  map (fun r => dict_of (zip (columns d) r)) (rows d).

(** [df.head(n)] *)
Definition frame_head (n : nat) (d : DataFrame num) : DataFrame num :=
  Frame (columns d) (take n (rows d)).

End Pandas.

(** ** pandas and requests, on the world *)

Section Program.
Context {R : Runtime}.

Definition frame_columns (df : loc) : M num (list string) :=
  d <- load df ;; ret (columns d).

(** [df.columns = names] (the program passes one name per column). *)
Definition set_columns (df : loc) (names : list string) : M num unit :=
  d <- load df ;; store df (Frame names (rows d)).

(** [df[name]] *)
Definition getitem (df : loc) (name : string) : M num (selection num) :=
  d <- load df ;; lift (frame_getitem d name).

(** [df[name] = vals]: the object behind [df] changes. *)
Definition setitem (df : loc) (name : string) (vals : list (value num))
  : M num unit :=
  d <- load df ;; store df (frame_setitem d name vals).

(** [df.rename(columns={old: new})]: a new object. *)
Definition rename (df : loc) (old new : string) : M num loc :=
  d <- load df ;; alloc (frame_rename d old new).

(** [pd.DataFrame(rows, columns=headers)]: a new object. *)
Definition pd_DataFrame (rs : list (list string)) (headers : list string)
  : M num loc :=
  d <- lift (frame_of_rows rs headers) ;; alloc d.

(** [pd.merge(left, right, on=key, how='left')]: a new object. *)
Definition pd_merge_left (left right : loc) (key : string) : M num loc :=
  l <- load left ;;
  r <- load right ;;
  d <- lift (frame_merge_left l r key) ;;
  alloc d.

(** [len(df)] *)
Definition len (df : loc) : M num Z :=
  d <- load df ;; ret (Z.of_nat (length (rows d))).

(** [requests.get(url, headers=headers)]: the call is recorded with its
    answer. *)
Definition http_get (url : string) (headers : http_headers) : M num response :=
  fun w =>
    let a := requests_get (out w) url headers in
    (match a with Answered r => OK r | Failed e => Raise e end,
     World (heap w) (out w ++ [EvGet url headers a])).

(** [requests.patch(url, headers=headers, json=body, timeout=30)] *)
Definition http_patch (url : string) (headers : http_headers) (body : payload num)
  : M num (response * option gist_reply) :=
  fun w =>
    let a := requests_patch (out w) url headers body in
    (match a with PatchAnswered r doc => OK (r, doc) | PatchFailed e => Raise e end,
     World (heap w) (out w ++ [EvPatch url headers body a])).

(** [response.raise_for_status()]: the statuses 400..599 raise. *)
Definition raise_for_status (r : response) : M num unit :=
  if (400 <=? status_code r)%Z && (status_code r <? 600)%Z
  then raise (HTTPError r)
  else ret tt.

(** [time.sleep(seconds)] *)
Definition sleep (seconds : nat) : M num unit := emit (EvSleep seconds).

(** ** The program *)

Definition nl : string := String (ascii_of_nat 10) EmptyString.

(** ['=' * n] *)
Fixpoint str_repeat (c : ascii) (n : nat) : string :=
  match n with
  | 0 => EmptyString
  | S n' => String c (str_repeat c n')
  end.

Definition GITHUB_TOKEN : option string := environ_get "GITHUB_TOKEN".

Definition GIST_ID : string := "e003b91ea818923bcc97dc33b711a0e1".

Definition TARGET_URLS (key : string) : string :=
  if String.eqb key "gas_prices"
  then "https://gasprices.aaa.com/todays-state-averages/"
  else "https://gasprices.aaa.com/ev-charging-prices/".

Definition HEADERS : http_headers :=
  [("User-Agent", "Mozilla/5.0 (Windows NT 10.0; Win64; x64) AppleWebKit/537.36 (KHTML, like Gecko) Chrome/120.0.0.0 Safari/537.36");
   ("Accept-Language", "en-US,en;q=0.9")].

Definition make_respectful_request (url : string) : M num response :=
  print [Lit "Requesting: "; Lit url] ;;
  response <- http_get url HEADERS ;;
  raise_for_status response ;;
  print [Lit "  Status: "; PInt (status_code response)] ;;
  ret response.

(** [not token] *)
Definition falsy (token : option string) : bool :=
  match token with
  | None => true
  | Some s => String.eqb s ""
  end.

(** The [def update_github_gist] of lines 32-38.  The name is bound again
    at line 149, so no call ever reaches this body. *)
Definition update_github_gist_0 (dataframe : loc) (token : option string)
  (gist_id : string) : M num (option string) :=
  print [Lit nl; Lit "--- Updating GitHub Gist ---"] ;;
  if falsy token
  then print [Lit "Error: GITHUB_TOKEN environment variable not set!"] ;;
       ret None
  else ret None.

(** The rows of the manual path: for every [<tr>] after the first, the
    trimmed texts of its [<td>] and [<th>] cells, when it has any. *)
Definition manual_rows (table : node) : list (list string) :=
  foldl (fun rows tr =>
           let cells := find_all ["td"; "th"] tr in
           match cells with
           | [] => rows
           | _ => rows ++ [map (fun cell => strip (get_text cell)) cells]
           end)
        [] (drop 1 (find_all ["tr"] table)).

Definition manual_headers (table : node) : list string :=
  map (fun th => strip (get_text th)) (find_all ["th"] table).

(** [df[col] = df[col].str.replace('$', '', regex=False).astype(float)] *)
Definition clean_numeric (df : loc) (col : string) : M num unit :=
  sel <- getitem df col ;;
  vals <- lift (str_accessor sel) ;;
  floats <- lift (astype_float (str_map (str_remove dollar) vals)) ;;
  setitem df col floats.

Definition extract_table_manually (html_text : string) : M num loc :=
  print [Lit "Using manual table extraction..."] ;;
  let soup := BeautifulSoup html_text in
  match find "table" soup with
  | None => raise (ValueError "No table found in HTML")
  | Some table =>
      let headers := manual_headers table in
      let rows := manual_rows table in
      df <- pd_DataFrame rows headers ;;
      cols <- frame_columns df ;;
      for_each cols (fun col =>
        if negb (String.eqb col "State") then clean_numeric df col else ret tt) ;;
      ret df
  end.

(** [df['State'] = df['State'].astype(str).str.strip()] *)
Definition clean_state (df : loc) : M num unit :=
  sel <- getitem df "State" ;;
  vals <- lift (str_accessor (astype_str sel)) ;;
  setitem df "State" (str_map strip vals).

(** The body of the [try] of [extract_table_data]. *)
Definition extract_table_data_try (response_text : string) : M num loc :=
  tables <- lift (read_html response_text) ;;
  match tables with
  | [] => raise (ValueError "No tables found in the HTML.")
  | table0 :: _ =>
      df <- alloc table0 ;;
      cols <- frame_columns df ;;
      set_columns df (map strip cols) ;;
      cols <- frame_columns df ;;
      if has_label "State" cols
      then clean_state df ;; ret df
      else
        match cols with
        | first :: _ =>
            df <- rename df first "State" ;;
            clean_state df ;;
            ret df
        | [] => ret df
        end
  end.

Definition extract_table_data (response_text : string) : M num loc :=
  try_except (extract_table_data_try response_text)
    (fun e =>
       print [Lit "Error reading table with pandas: "; PExn e] ;;
       extract_table_manually response_text).

(** The two lines that both scrapers print about their table. *)
Definition print_table_found (df : loc) : M num unit :=
  d <- load df ;;
  print [Lit "Found table with columns: "; PLabels (columns d)] ;;
  print [Lit "First few rows:"; Lit nl; PFrame (frame_head 3 d)].

Definition scrape_aaa_gas_prices (url : string) : M num loc :=
  print [Lit nl; Lit "--- Scraping Gas Prices ---"] ;;
  response <- make_respectful_request url ;;
  df <- extract_table_data (text response) ;;
  print_table_found df ;;
  ret df.

Definition scrape_aaa_ev_prices (url : string) : M num loc :=
  print [Lit nl; Lit "--- Scraping EV Prices ---"] ;;
  print [Lit "Respecting 'Crawl-delay: 10' from robots.txt..."] ;;
  for_each (map Z.of_nat (rev (seq 1 10))) (fun i =>
    print [Lit "  Waiting... "; PInt i; Lit " seconds remaining."] ;;
    sleep 1) ;;
  print [Lit "  Proceeding with request.               "] ;;
  response <- make_respectful_request url ;;
  df <- extract_table_data (text response) ;;
  cols <- frame_columns df ;;
  (if has_label "Cost/kWh" cols
   then sel <- getitem df "Cost/kWh" ;;
        vals <- lift (to_numeric_coerce sel) ;;
        setitem df "Cost/kWh" vals
   else ret tt) ;;
  print_table_found df ;;
  ret df.

(** [df['State'] = df['State'].str.strip()] *)
Definition strip_state (df : loc) : M num unit :=
  sel <- getitem df "State" ;;
  vals <- lift (str_accessor sel) ;;
  setitem df "State" (str_map strip vals).

Definition merge_data (gas_df ev_df : loc) : M num loc :=
  strip_state gas_df ;;
  strip_state ev_df ;;
  merged_df <- pd_merge_left gas_df ev_df "State" ;;
  ret merged_df.

(** [f'{x}'] for [x] a str or [None] *)
Definition fstr (token : option string) : string :=
  match token with
  | None => "None"
  | Some s => s
  end.

(** [d[key]] on the document of the reply. *)
Definition subscript (key : string) (v : option string) : M num string :=
  match v with
  | Some s => ret s
  | None => raise (KeyError key)
  end.

(** The [def update_github_gist] of lines 149-200: the binding that every
    call sees. *)
Definition update_github_gist (dataframe : loc) (token : option string)
  (gist_id : string) : M num (option string) :=
  print [Lit nl; Lit "--- Updating GitHub Gist ---"] ;;
  d <- load dataframe ;;
  let data_records := to_dict_records d in
  h <- history ;;
  let scrape_date := now h in
  let api_url := "https://api.github.com/gists/" +:+ gist_id in
  let headers := [("Authorization", "token " +:+ fstr token);
                  ("Accept", "application/vnd.github+json")] in
  let payload :=
    Payload ("AAA Fuel & EV Price Data - Updated " +:+ scrape_date)
            scrape_date data_records in
  try_except
    (answer <- http_patch api_url headers payload ;;
     let response := fst answer in
     if (status_code response =? 200)%Z
     then
       result <- match snd answer with
                 | Some doc => ret doc
                 | None => raise JSONDecodeError
                 end ;;
       print [Lit "Success! Gist updated."] ;;
       html <- subscript "html_url" (html_url result) ;;
       print [Lit "Gist URL: "; Lit html] ;;
       raw <- subscript "raw_url" (raw_url result) ;;
       print [Lit "Raw JSON URL (for your website): "; Lit raw] ;;
       ret (Some raw)
     else
       print [Lit "Error from GitHub API: "; PInt (status_code response)] ;;
       print [Lit "Response: "; Lit (str_take 200 (text response)); Lit "..."] ;;
       ret None)
    (fun e =>
       match e with
       | Timeout =>
           print [Lit "Error: Request to GitHub API timed out."] ;; ret None
       | _ =>
           if is_RequestException e
           then print [Lit "Network error: "; PExn e] ;; ret None
           else raise e
       end).

(** [if raw_url:] *)
Definition truthy (v : option string) : bool := negb (falsy v).

(** The [fetch(...)] example that [main] prints around the URL. *)
Definition js_example (raw_url : string) : list (piece num) :=
  [Lit "fetch('"; Lit raw_url; Lit "')"; Lit nl;
   Lit "  .then(response => response.json())"; Lit nl;
   Lit "  .then(data => {"; Lit nl;
   Lit "    console.log('Last updated:', data.scrape_date);"; Lit nl;
   Lit "    console.log('Number of states:', data.data.length);"; Lit nl;
   Lit "    // Access state data: data.data"; Lit nl;
   Lit "    data.data.forEach(state => {"; Lit nl;
   Lit "      console.log(state.State, state.Regular, state['Cost/kWh']);"; Lit nl;
   Lit "    });"; Lit nl;
   Lit "  });"].

(** The body of the [try] of [main]. *)
Definition main_try : M num unit :=
  print [Lit (str_repeat "="%char 60)] ;;
  print [Lit "Starting AAA Daily Data Scraper"] ;;
  print [Lit "Respecting robots.txt (Crawl-delay: 10 seconds)"] ;;
  print [Lit (str_repeat "="%char 60)] ;;
  gas_df <- scrape_aaa_gas_prices (TARGET_URLS "gas_prices") ;;
  ev_df <- scrape_aaa_ev_prices (TARGET_URLS "ev_prices") ;;
  print [Lit nl; Lit "--- Summary ---"] ;;
  n_gas <- len gas_df ;;
  print [Lit "Gas prices: "; PInt n_gas; Lit " states/regions"] ;;
  n_ev <- len ev_df ;;
  print [Lit "EV prices: "; PInt n_ev; Lit " states/regions"] ;;
  merged_df <- merge_data gas_df ev_df ;;
  n_merged <- len merged_df ;;
  print [Lit "Merged data: "; PInt n_merged; Lit " total entries"] ;;
  print [Lit nl; Lit "Sample of merged data (first 3 rows):"] ;;
  m <- load merged_df ;;
  print [PFrame (frame_head 3 m)] ;;
  raw_url <- update_github_gist merged_df GITHUB_TOKEN GIST_ID ;;
  if truthy raw_url
  then
    print [Lit nl; Lit (str_repeat "="%char 60)] ;;
    print [Lit "SCRAPING PROCESS COMPLETE!"] ;;
    print [Lit (str_repeat "="%char 60)] ;;
    print [Lit nl; Lit "For your website, use this URL to fetch data:"] ;;
    print [Lit (fstr raw_url)] ;;
    print [Lit nl; Lit "JavaScript fetch example:"] ;;
    print (js_example (fstr raw_url))
  else
    print [Lit nl; Lit "Failed to update Gist. Check the error above."].

(** The two [except] clauses of [main], in their order. *)
Definition main_except (e : exn) : M num unit :=
  match e with
  | HTTPError r =>
      print [Lit nl; Lit "HTTP Error: "; PExn e] ;;
      if (status_code r =? 403)%Z
      then print [Lit "The website is blocking the request."] ;;
           print [Lit "Try increasing the crawl delay or using different headers."]
      else ret tt
  | _ =>
      print [Lit nl; Lit "An unexpected error occurred: "; PExn e] ;;
      print [PTraceback e]
  end.

Definition main : M num unit := try_except main_try main_except.

(** The process: [main()] from an empty heap and an empty output. *)
Definition run : result unit * world num := main (World [] []).

End Program.

(** ** A concrete runtime for examples

    Numbers are decimal literals, [float] reads the literals without
    exponent that the price pages use, and the library parsers and the
    network are given by tables. *)

Module Demo.

(** [mantissa / 10 ^ places] *)
Record decimal : Type := Dec { mantissa : Z; places : nat }.

Definition decimal_eqb (a b : decimal) : bool :=
  (mantissa a * 10 ^ Z.of_nat (places b) =? mantissa b * 10 ^ Z.of_nat (places a))%Z.

Definition digit_of (c : ascii) : option Z :=
  let n := nat_of_ascii c in
  if (48 <=? n)%nat && (n <=? 57)%nat then Some (Z.of_nat (n - 48)) else None.

(** Reads [digits] or [digits.digits]; [seen] tells whether the point has
    been passed, [any] whether a digit has been read. *)
Fixpoint read_decimal (s : string) (acc : Z) (frac : nat) (seen any : bool)
  : option decimal :=
  match s with
  | EmptyString => if any then Some (Dec acc frac) else None
  | String c s' =>
      match digit_of c with
      | Some k =>
          read_decimal s' (acc * 10 + k)%Z (if seen then S frac else frac) seen true
      | None =>
          if Ascii.eqb c "."%char && negb seen
          then read_decimal s' acc frac true any
          else None
      end
  end.

(** [float(s)] on [[+-]digits[.digits]], surrounding whitespace allowed. *)
Definition parse_float (s : string) : option decimal :=
  match strip s with
  | String "-"%char s' =>
      match read_decimal s' 0 0 false false with
      | Some d => Some (Dec (- mantissa d) (places d))
      | None => None
      end
  | String "+"%char s' => read_decimal s' 0 0 false false
  | s' => read_decimal s' 0 0 false false
  end.

Definition digit_char (k : nat) : ascii := ascii_of_nat (48 + k).

(** The decimal digits of [n], most significant first; [fuel] bounds the
    number of digits. *)
Fixpoint digits_of (fuel : nat) (n : N) (acc : string) : string :=
  match fuel with
  | 0 => acc
  | S fuel' =>
      let acc' := String (digit_char (N.to_nat (n mod 10))) acc in
      if (n / 10 =? 0)%N then acc' else digits_of fuel' (n / 10)%N acc'
  end.

Definition show_N (n : N) : string := digits_of (S (N.to_nat (N.log2 n))) n "".

(** [str(x)]: integer part, point, the [places] digits after it. *)
Definition show_decimal (d : decimal) : string :=
  let m := Z.abs_N (mantissa d) in
  let p := (10 ^ N.of_nat (places d))%N in
  let frac := show_N (m mod p) in
  (if (mantissa d <? 0)%Z then "-" else "") +:+
  show_N (m / p) +:+ "." +:+
  (if Nat.eqb (places d) 0 then "0"
   else str_repeat "0"%char (places d - String.length frac) +:+ frac).

(** A runtime from tables: what the HTML parsers give for a text, what the
    network answers, the token of the environment. *)
Definition runtime
  (soup_of : string -> node)
  (tables_of : string -> result (list (DataFrame decimal)))
  (get : string -> outcome)
  (patch : patch_outcome)
  (token : option string) : Runtime :=
  {| num := decimal;
     num_eqb := decimal_eqb;
     to_float := parse_float;
     to_numeric := parse_float;
     num_str := show_decimal;
     BeautifulSoup := soup_of;
     read_html := tables_of;
     requests_get := fun _ url _ => get url;
     requests_patch := fun _ _ _ _ => patch;
     now := fun _ => "2024-01-01 00:00:00";
     environ_get := fun _ => token |}.

(** Shorthands for writing parse trees. *)
Definition th (s : string) : node := Tag "th" [Text s].
Definition td (s : string) : node := Tag "td" [Text s].
Definition tr (cells : list node) : node := Tag "tr" cells.
Definition document (trs : list node) : node := Tag "[document]" [Tag "table" trs].

(** The no-break space U+00A0, [&nbsp;] in a page: the bytes C2 A0. *)
Definition nbsp : string :=
  String (ascii_of_nat 194) (String (ascii_of_nat 160) EmptyString).

End Demo.

(** ** Example inputs *)

Module Examples.
Import Demo.

Definition offline : string -> outcome := fun _ => Failed (ConnectionError "offline").

(** A network that answers every GET with the given status. *)
Definition answering (status : Z) : string -> outcome :=
  fun _ => Answered (Response status "").

Definition no_tables : string -> result (list (DataFrame decimal)) :=
  fun _ => Raise (ValueError "No tables found").

(** The runtime of the examples about the fetcher. *)
Definition rt_status (status : Z) : Runtime :=
  runtime (fun _ => document []) no_tables (answering status)
          (PatchFailed Timeout) None.

(** The runtime of the examples about the manual parser: the text parses
    to [doc], and [pd.read_html] raises. *)
Definition rt_soup (doc : node) : Runtime :=
  runtime (fun _ => doc) no_tables offline (PatchFailed Timeout) None.


(** The runtime of the examples about publishing: no token in the
    environment, and a store that accepts the update all the same. *)
Definition rt_publish : Runtime :=
  runtime (fun _ => document []) no_tables offline
          (PatchAnswered (Response 200 "{}")
             (Some (GistReply (Some "https://gist.github.com/x")
                              (Some "https://gist.githubusercontent.com/x/raw"))))
          None.

(** The runtime of the examples about merging: nothing is parsed or sent. *)
Definition rt_plain : Runtime := rt_soup (document []).

(** [<table><tr><th>State</th><th>Regular</th></tr>
            <tr><td>TX</td><td>$3.459</td></tr></table>] *)
Definition priced_table : node :=
  document [tr [th "State"; th "Regular"]; tr [td "TX"; td "$3.459"]].

(** The same table with a second row whose price is not a number. *)
Definition garbage_table : node :=
  document [tr [th "State"; th "Regular"];
            tr [td "TX"; td "$3.10"];
            tr [td "CA"; td "n/a"]].

(** Two header cells, and a second data row with one cell only. *)
Definition ragged_table : node :=
  document [tr [th "State"; th "Regular"];
            tr [td "TX"; td "$3.10"];
            tr [td "CA"]].

(** A data row that starts with a [<th>] cell. *)
Definition row_header_table : node :=
  document [tr [th "State"; th "Regular"]; tr [th "TX"; td "$3.10"]].

Definition gas_TX : DataFrame decimal :=
  Frame ["State"; "Regular"] [[VStr "TX"; VNum (Dec 310 2)]].

Definition gas_CA_untrimmed : DataFrame decimal :=
  Frame ["State"; "Regular"] [[VStr " CA "; VNum (Dec 450 2)]].

Definition ev_empty : DataFrame decimal := Frame ["State"; "Cost/kWh"] [].

(** Two rows for the same region once trimmed. *)
Definition ev_CA_twice : DataFrame decimal :=
  Frame ["State"; "Cost/kWh"]
        [[VStr "CA"; VNum (Dec 30 2)]; [VStr "CA "; VNum (Dec 35 2)]].


(** The process starts with no object and no output. *)
Definition empty_world : world decimal := World [] [].

(** A complete run: both pages are served, [pd.read_html] finds one table
    in each, and the store accepts the update. *)
Definition gas_page : string := "<html>fuel prices</html>".

Definition ev_page : string := "<html>charging prices</html>".

Definition gas_parsed : DataFrame decimal :=
  Frame ["State"; "Regular"]
        [[VStr "CA "; VNum (Dec 450 2)]; [VStr "TX"; VNum (Dec 310 2)]].

Definition ev_parsed : DataFrame decimal :=
  Frame ["State"; "Cost/kWh"] [[VStr "CA"; VStr "0.30"]; [VStr "NY"; VStr "n/a"]].

Definition rt_full : Runtime :=
  runtime (fun _ => document [])
          (fun text => if String.eqb text gas_page then OK [gas_parsed] else OK [ev_parsed])
          (fun url => if String.eqb url (TARGET_URLS "gas_prices")
                      then Answered (Response 200 gas_page)
                      else Answered (Response 200 ev_page))
          (PatchAnswered (Response 200 "{}")
             (Some (GistReply (Some "https://gist.github.com/x")
                              (Some "https://gist.githubusercontent.com/x/raw"))))
          (Some "ghp_example").

(** The text of a page; the runtimes below say what the parsers make of
    it. *)
Definition page : string := "<html>...</html>".

(** A right table that has no column "State". *)
Definition ev_by_region : DataFrame decimal :=
  Frame ["Region"; "Cost/kWh"] [[VStr "CA"; VNum (Dec 30 2)]].

(** A right table with one row for the region of [gas_CA_untrimmed]. *)
Definition ev_CA : DataFrame decimal :=
  Frame ["State"; "Cost/kWh"] [[VStr "CA"; VNum (Dec 30 2)]].

(** Two regions on the left, the second one first on the right. *)
Definition gas_CA_TX : DataFrame decimal :=
  Frame ["State"; "Regular"]
        [[VStr ("CA" +:+ nbsp); VNum (Dec 450 2)]; [VStr "TX"; VNum (Dec 310 2)]].

(** A right table with a region that the left tables do not have. *)
Definition ev_NY_CA : DataFrame decimal :=
  Frame ["State"; "Cost/kWh"]
        [[VStr "NY"; VNum (Dec 28 2)]; [VStr " CA"; VNum (Dec 30 2)]].

(** A table with a repeated label. *)
Definition gas_repeated : DataFrame decimal :=
  Frame ["State"; "Regular"; "Regular"]
        [[VStr "TX"; VNum (Dec 310 2); VNum (Dec 320 2)]].

(** A page whose header and region cell end in [&nbsp;]. *)
Definition padded_table : node :=
  document [tr [th ("State" +:+ nbsp); th "Regular"];
            tr [td ("TX" +:+ nbsp); td "$3.459"]].

Definition ev_TX_CA : DataFrame decimal :=
  Frame ["State"; "Cost/kWh"]
        [[VStr "TX"; VNum (Dec 35 2)]; [VStr "CA"; VNum (Dec 30 2)]].

(** A page without any table. *)
Definition denied_page : node :=
  Tag "[document]" [Tag "p" [Text "Access denied"]].

End Examples.

(** ** Vocabulary of the statements *)

Section Vocabulary.
Context {R : Runtime}.

Definition result_of {A} (m : M num A) (w : world num) : result A := fst (m w).

Definition world_after {A} (m : M num A) (w : world num) : world num := snd (m w).

(** What [m] adds to the output when it starts in [w]. *)
Definition new_events {A} (m : M num A) (w : world num) : list (event num) :=
  drop (length (out w)) (out (world_after m w)).

(** The network calls among the events. *)
Definition is_request (e : event num) : bool :=
  match e with
  | EvGet _ _ _ | EvPatch _ _ _ _ => true
  | _ => false
  end.

Definition is_patch (e : event num) : bool :=
  match e with
  | EvPatch _ _ _ _ => true
  | _ => false
  end.

(** A GET that ended in an HTTP error with status 403: through
    [raise_for_status] on the answer, or raised by [requests] itself. *)
Definition is_get_403 (e : event num) : bool :=
  match e with
  | EvGet _ _ (Answered r) => (status_code r =? 403)%Z
  | EvGet _ _ (Failed (HTTPError r)) => (status_code r =? 403)%Z
  | _ => false
  end.

(** The cell of row [i] under column [j]. *)
Definition cell_at (d : DataFrame num) (i j : nat) : option (value num) :=
  match rows d !! i with
  | Some r => r !! j
  | None => None
  end.

(** Every row has one cell per column. *)
Definition well_formed (d : DataFrame num) : Prop :=
  Forall (fun r => length r = length (columns d)) (rows d).

(** The join key of a row, as [merge_data] compares it: the cell under
    "State", trimmed. *)
Definition trimmed_key (d : DataFrame num) (r : list (value num)) : value num :=
  str_cell strip (cell (index_of "State" (columns d)) r).

Definition trimmed_keys (d : DataFrame num) : list (value num) :=
  map (trimmed_key d) (rows d).

(** A row with its cell under "State" trimmed. *)
Definition trimmed_row (d : DataFrame num) (r : list (value num)) : list (value num) :=
  set_cells (columns d) "State" (trimmed_key d r) r.

(** The frame with its column "State" trimmed. *)
Definition trimmed (d : DataFrame num) : DataFrame num :=
  Frame (columns d) (map (trimmed_row d) (rows d)).

(** The keys that come out of [.str.strip()]: a string or a missing
    value. *)
Definition textual (v : value num) : bool :=
  match v with
  | VStr _ | VNone | VNaN => true
  | VNum _ => false
  end.

(** No two of the keys are equal. *)
Fixpoint distinct_keys (keys : list (value num)) : bool :=
  match keys with
  | [] => true
  | k :: keys' => negb (existsb (key_eqb k) keys') && distinct_keys keys'
  end.

(** The labels of the merge of two frames on "State": those of the left
    frame, then those of the right frame without its "State", a label of
    both sides getting the suffix of its side. *)
Definition merged_labels (l r : DataFrame num) : list string :=
  let rcols := delete (index_of "State" (columns r)) (columns r) in
  add_suffix rcols "_x" (columns l) ++ add_suffix (columns l) "_y" rcols.

(** The number of columns that the right frame adds to the merge. *)
Definition right_width (d : DataFrame num) : nat :=
  length (delete (index_of "State" (columns d)) (columns d)).

(** [m], started in any world, only adds events to the output, and its
    result and the events it adds are related by [P]. *)
Definition emits {A} (m : M num A) (P : result A -> list (event num) -> Prop) : Prop :=
  forall w, exists l, out (snd (m w)) = out w ++ l /\ P (fst (m w)) l.

(** No network call. *)
Definition quiet {A} (m : M num A) : Prop :=
  emits m (fun _ l => existsb is_request l = false).

(** The result after a GET ended in an HTTP error 403. *)
Definition raised_403 {A} (r : result A) : Prop :=
  exists resp, r = Raise (HTTPError resp) /\ status_code resp = 403%Z.

(** No PATCH, and a GET that ended in an HTTP error 403 ends [m] with that
    error. *)
Definition fetching {A} (m : M num A) : Prop :=
  emits m (fun r l => existsb is_patch l = false
                      /\ (existsb is_get_403 l = true -> raised_403 r)).

(** No GET that ended in an HTTP error 403. *)
Definition unblocked {A} (m : M num A) : Prop :=
  emits m (fun _ l => existsb is_get_403 l = false).

(** Once a GET ended in an HTTP error 403, [m] ends with that error and
    without a PATCH. *)
Definition guarded {A} (m : M num A) : Prop :=
  emits m (fun r l => existsb is_get_403 l = true ->
                      existsb is_patch l = false /\ raised_403 r).

(** One turn of the loop of [extract_table_manually] on the frame behind
    [df]: the column [col], when it is not "State", is read, stripped of
    its [$] signs, converted and written back. *)
Definition clean_step (d : DataFrame num) (col : string) : result (DataFrame num) :=
  if String.eqb col "State" then OK d
  else
    match frame_getitem d col with
    | Raise e => Raise e
    | OK sel =>
        match str_accessor sel with
        | Raise e => Raise e
        | OK vals =>
            match astype_float (str_map (str_remove dollar) vals) with
            | Raise e => Raise e
            | OK floats => OK (frame_setitem d col floats)
            end
        end
    end.

(** The loop over the labels [cols]. *)
Fixpoint clean_all (d : DataFrame num) (cols : list string) : result (DataFrame num) :=
  match cols with
  | [] => OK d
  | c :: cs =>
      match clean_step d c with
      | Raise e => Raise e
      | OK d' => clean_all d' cs
      end
  end.

(** [v'] is what the conversion makes of the cell [v]. *)
Definition cleaned (v v' : value num) : Prop :=
  float_cell (str_cell (str_remove dollar) v) = OK v'.

(** A cell that the conversion accepts: not a number already, and a string
    only if [float] reads it once the [$] signs are gone. *)
Definition convertible (v : value num) : Prop :=
  is_num v = false /\ exists y, float_cell (str_cell (str_remove dollar) v) = OK y.




(** *** Vocabulary of the further properties *)

Definition is_print (e : event num) : bool :=
  match e with EvPrint _ => true | _ => false end.

Definition is_sleep (e : event num) : bool :=
  match e with EvSleep _ => true | _ => false end.

Definition is_get (e : event num) : bool :=
  match e with EvGet _ _ _ => true | _ => false end.

(** Neither a GET nor a sleep: a printed line or a PATCH. *)
Definition is_idle (e : event num) : bool :=
  match e with EvPrint _ | EvPatch _ _ _ _ => true | _ => false end.

(** The seconds slept in a list of events. *)
Fixpoint slept (l : list (event num)) : nat :=
  match l with
  | [] => 0
  | EvSleep n :: l' => n + slept l'
  | _ :: l' => slept l'
  end.

(** A response that [raise_for_status] lets through. *)
Definition passes (r : response) : bool :=
  negb ((400 <=? status_code r)%Z && (status_code r <? 600)%Z).

(** [m] adds only events that [p] accepts. *)
Definition only {A} (p : event num -> bool) (m : M num A) : Prop :=
  emits m (fun _ l => forallb p l = true).

(** A monitor of the output: [step] reads one event in a state and gives
    the next state, or refuses the event. *)
Fixpoint monitor {S : Type} (step : S -> event num -> option S) (s : S)
  (l : list (event num)) : option S :=
  match l with
  | [] => Some s
  | e :: l' =>
      match step s e with
      | Some s' => monitor step s' l'
      | None => None
      end
  end.

(** The monitor, started in [s], accepts all that [m] adds to the output,
    and the result of [m] and the state reached are related by [Q]. *)
Definition tracks {S A : Type} (step : S -> event num -> option S) (s : S)
  (Q : result A -> S -> Prop) (m : M num A) : Prop :=
  emits m (fun r l => exists s', monitor step s l = Some s' /\ Q r s').

(** The monitor of the crawl delay.  The state is the number of seconds
    slept since the last GET, [None] before the first GET; a GET is
    refused unless it is the first one or comes after ten seconds. *)
Definition delay_step (s : option nat) (e : event num) : option (option nat) :=
  match e with
  | EvSleep n => Some (option_map (fun k => k + n) s)
  | EvGet _ _ _ =>
      match s with
      | None => Some (Some 0)
      | Some k => if Nat.eqb k 10 then Some (Some 0) else None
      end
  | _ => Some s
  end.

(** The network calls that a run may have made so far, in their order:
    the GET of the fuel page; after it, when a response came that
    [raise_for_status] lets through, the GET of the EV page; after both,
    when such a response came again, the PATCH of the gist.  Both GETs
    carry the fixed headers. *)
Definition allowed (calls : list (event num)) : bool :=
  match calls with
  | [] => true
  | [EvGet u1 h1 _] =>
      String.eqb u1 (TARGET_URLS "gas_prices") && bool_decide (h1 = HEADERS)
  | [EvGet u1 h1 (Answered r1); EvGet u2 h2 _] =>
      String.eqb u1 (TARGET_URLS "gas_prices") && bool_decide (h1 = HEADERS)
      && passes r1
      && String.eqb u2 (TARGET_URLS "ev_prices") && bool_decide (h2 = HEADERS)
  | [EvGet u1 h1 (Answered r1); EvGet u2 h2 (Answered r2); EvPatch u3 _ _ _] =>
      String.eqb u1 (TARGET_URLS "gas_prices") && bool_decide (h1 = HEADERS)
      && passes r1
      && String.eqb u2 (TARGET_URLS "ev_prices") && bool_decide (h2 = HEADERS)
      && passes r2
      && String.eqb u3 ("https://api.github.com/gists/" +:+ GIST_ID)
  | _ => false
  end.

(** The monitor of the network calls.  The state is the list of the calls
    so far; a call is refused when the list with it is not allowed. *)
Definition order_step (calls : list (event num)) (e : event num)
  : option (list (event num)) :=
  if is_request e
  then if allowed (calls ++ [e]) then Some (calls ++ [e]) else None
  else Some calls.

(** Not a network call: a printed line or a sleep. *)
Definition is_local (e : event num) : bool := negb (is_request e).

(** What the publisher returns for an answer of the store: the raw URL
    for a status 200 whose document has both paths; [None] for another
    status, for a body that is not JSON and for an exception of
    [requests]; any other exception. *)
Definition published (a : patch_outcome) : result (option string) :=
  match a with
  | PatchAnswered r doc =>
      if (status_code r =? 200)%Z
      then match doc with
           | None => OK None
           | Some reply =>
               match html_url reply, raw_url reply with
               | None, _ => Raise (KeyError "html_url")
               | Some _, None => Raise (KeyError "raw_url")
               | Some _, Some raw => OK (Some raw)
               end
           end
      else OK None
  | PatchFailed e => if is_RequestException e then OK None else Raise e
  end.

(** A [<tr>] with at least one [<td>] or [<th>] below it. *)
Definition has_cells (tr : node) : bool :=
  match find_all ["td"; "th"] tr with
  | [] => false
  | _ => true
  end.


(** The line with which [main] reports a complete run. *)
Definition is_complete_line (line : list (piece num)) : bool :=
  match line with
  | [Lit s] => String.eqb s "SCRAPING PROCESS COMPLETE!"
  | _ => false
  end.

(** An answer of the store after which the publisher returns a URL that
    [main] takes for one: status 200, a document with both paths, and a
    raw URL that is not empty. *)
Definition accepted (a : patch_outcome) : bool :=
  match a with
  | PatchAnswered r (Some (GistReply (Some _) (Some raw))) =>
      (status_code r =? 200)%Z && negb (String.eqb raw "")
  | _ => false
  end.

(** The monitor of the report.  The state tells whether a PATCH has been
    accepted; the line of the complete run is refused before that. *)
Definition success_step (s : bool) (e : event num) : option bool :=
  match e with
  | EvPatch _ _ _ a => Some (s || accepted a)
  | EvPrint line =>
      if s then Some s else if is_complete_line line then None else Some s
  | _ => Some s
  end.

(** Neither a PATCH nor the line of the complete run. *)
Definition is_plain (e : event num) : bool :=
  match e with
  | EvPrint line => negb (is_complete_line line)
  | EvPatch _ _ _ _ => false
  | _ => true
  end.

(** When [m] returns, its value and the world that it leaves satisfy
    [P]. *)
Definition returning {A} (m : M num A) (P : A -> world num -> Prop) : Prop :=
  forall w a w', m w = (OK a, w') -> P a w'.

(** The table after the statement on the column "Cost/kWh". *)
Definition cost_coerced (df : loc) (w : world num) : Prop :=
  exists d,
    heap w !! df = Some d
    /\ (has_label "Cost/kWh" (columns d) = true ->
        count_label "Cost/kWh" (columns d) = 1
        /\ forall i v,
             cell_at d i (index_of "Cost/kWh" (columns d)) = Some v ->
             is_num v = true \/ v = VNaN).

(** The monitor of what the report owes.  The state is [None] as long as
    no PATCH has been accepted, [Some false] once one has been and the
    line of the complete run is still to come, [Some true] after that
    line. *)
Definition report_step (s : option bool) (e : event num) : option (option bool) :=
  match e with
  | EvPatch _ _ _ a => Some (if accepted a then Some false else s)
  | EvPrint line =>
      Some (if is_complete_line line then option_map (fun _ => true) s else s)
  | _ => Some s
  end.

(** The cell of a row under the last column that carries the label. *)
Fixpoint last_cell (c : string) (cols : list string) (r : list (value num))
  : option (value num) :=
  match cols, r with
  | c0 :: cs, x :: xs =>
      match last_cell c cs xs with
      | Some v => Some v
      | None => if String.eqb c0 c then Some x else None
      end
  | _, _ => None
  end.

End Vocabulary.

(** ** Proofs *)

Section Proofs.
Context {R : Runtime}.

(** *** The fetcher *)

(** C4, as amended.  [make_respectful_request] makes exactly one network
    call, the GET of the URL with the fixed headers, and its outcome is
    decided by the answer: a response whose status is in 400..599 raises
    [HTTPError] with that response, a response with any other status (2xx
    or not) is returned, and an exception of [requests.get] propagates. *)
Theorem make_respectful_request_contract (url : string) (w : world num) :
  let a := requests_get (out w ++ [EvPrint [Lit "Requesting: "; Lit url]]) url HEADERS in
  List.filter is_request (new_events (make_respectful_request url) w)
    = [EvGet url HEADERS a]
  /\ heap (world_after (make_respectful_request url) w) = heap w
  /\ result_of (make_respectful_request url) w =
       match a with
       | Answered r =>
           if (400 <=? status_code r)%Z && (status_code r <? 600)%Z
           then Raise (HTTPError r)
           else OK r
       | Failed e => Raise e
       end.
Proof.
  intros a. subst a.
  unfold new_events, result_of, world_after.
  unfold make_respectful_request, bind, print, emit, http_get, raise_for_status,
    ret, raise.
  cbn [out heap fst snd].
  destruct (requests_get _ url HEADERS) as [r | e]; cbn [out heap fst snd].
  - destruct ((400 <=? status_code r)%Z && (status_code r <? 600)%Z);
      cbn [out heap fst snd]; repeat rewrite <- app_assoc;
      rewrite drop_app_length; auto.
  - repeat rewrite <- app_assoc; rewrite drop_app_length; auto.
Qed.

(** *** The publisher *)

(** The shadowed definition (lines 32-38) is the one that guards the
    token: without a token it returns [None] and calls nothing. *)
Lemma update_github_gist_0_guards (df : loc) (token : option string)
  (gist_id : string) (w : world num) :
  falsy token = true ->
  result_of (update_github_gist_0 df token gist_id) w = OK None
  /\ List.filter is_request (new_events (update_github_gist_0 df token gist_id) w) = [].
Proof.
  intros Hf. unfold new_events, result_of, world_after, update_github_gist_0.
  rewrite Hf. unfold bind, print, emit, ret. cbn [out heap fst snd].
  repeat rewrite <- app_assoc. rewrite drop_app_length. auto.
Qed.

(** C1, what the code does.  The definition that calls reach (lines
    149-200) never looks at the token: called without one, on a table that
    exists, it still sends the PATCH request, with the header
    [Authorization: token None] (or [token ] for the empty string). *)
Theorem update_github_gist_patches_without_token (df : loc)
  (token : option string) (gist_id : string) (w : world num) (d : DataFrame num) :
  falsy token = true ->
  heap w !! df = Some d ->
  exists body answer,
    List.filter is_request (new_events (update_github_gist df token gist_id) w)
    = [EvPatch ("https://api.github.com/gists/" +:+ gist_id)
         [("Authorization", "token " +:+ fstr token);
          ("Accept", "application/vnd.github+json")]
         body answer].
Proof.
  intros _ Hd.
  unfold new_events, world_after, update_github_gist.
  unfold bind at 1. unfold print at 1, emit at 1. cbn [out heap fst snd].
  unfold bind at 1. unfold load at 1. cbn [out heap]. rewrite Hd.
  unfold bind at 1. unfold history at 1. cbn [out heap].
  unfold try_except, bind at 1, http_patch. cbn [out heap].
  destruct (requests_patch _ _ _ _) as [r doc | e]; cbn [fst snd].
  - destruct (status_code r =? 200)%Z.
    + destruct doc as [[[h|] [u|]] |]; eexists _, _;
        unfold bind, print, emit, subscript, ret, raise;
        cbn [fst snd out heap html_url raw_url is_RequestException];
        repeat rewrite <- app_assoc; rewrite drop_app_length; reflexivity.
    + eexists _, _; unfold bind, print, emit, ret; cbn [fst snd out heap];
        repeat rewrite <- app_assoc; rewrite drop_app_length; reflexivity.
  - eexists _, _; destruct e; unfold bind, print, emit, ret, raise;
      cbn [fst snd out heap is_RequestException];
      repeat rewrite <- app_assoc; rewrite drop_app_length; reflexivity.
Qed.

(** *** A small logic of emitted events *)

Lemma emits_weaken {A} (m : M num A) (P Q : result A -> list (event num) -> Prop) :
  emits m P -> (forall r l, P r l -> Q r l) -> emits m Q.
Proof.
  intros Hm HPQ w. destruct (Hm w) as (l & Hl & HP). exists l. auto.
Qed.

Lemma emits_bind {A B} (m : M num A) (k : A -> M num B)
  (P1 : result A -> list (event num) -> Prop)
  (P2 P : result B -> list (event num) -> Prop) :
  emits m P1 ->
  (forall a, emits (k a) P2) ->
  (forall a l1 r l2, P1 (OK a) l1 -> P2 r l2 -> P r (l1 ++ l2)) ->
  (forall e l1, P1 (Raise e) l1 -> P (Raise e) l1) ->
  emits (bind m k) P.
Proof.
  intros Hm Hk Hok Hraise w. unfold bind.
  destruct (Hm w) as (l1 & Hl1 & HP1).
  destruct (m w) as [[a | e] w1]; cbn [fst snd] in *.
  - destruct (Hk a w1) as (l2 & Hl2 & HP2).
    exists (l1 ++ l2). split.
    + rewrite Hl2, Hl1. symmetry. apply app_assoc.
    + eauto.
  - exists l1. auto.
Qed.

Lemma emits_try_except {A} (m : M num A) (h : exn -> M num A)
  (P1 P2 P : result A -> list (event num) -> Prop) :
  emits m P1 ->
  (forall e, emits (h e) P2) ->
  (forall a l1, P1 (OK a) l1 -> P (OK a) l1) ->
  (forall e l1 r l2, P1 (Raise e) l1 -> P2 r l2 -> P r (l1 ++ l2)) ->
  emits (try_except m h) P.
Proof.
  intros Hm Hh Hok Hraise w. unfold try_except.
  destruct (Hm w) as (l1 & Hl1 & HP1).
  destruct (m w) as [[a | e] w1]; cbn [fst snd] in *.
  - exists l1. auto.
  - destruct (Hh e w1) as (l2 & Hl2 & HP2).
    exists (l1 ++ l2). split.
    + rewrite Hl2, Hl1. symmetry. apply app_assoc.
    + eauto.
Qed.

Lemma emits_silent {A} (m : M num A) (P : result A -> list (event num) -> Prop) :
  (forall w, out (snd (m w)) = out w) -> (forall r, P r []) -> emits m P.
Proof.
  intros Hout HP w. exists []. rewrite app_nil_r. auto.
Qed.

Lemma quiet_bind {A B} (m : M num A) (k : A -> M num B) :
  quiet m -> (forall a, quiet (k a)) -> quiet (bind m k).
Proof.
  intros Hm Hk. unfold quiet.
  eapply emits_bind; [exact Hm | exact Hk | |]; cbn beta.
  - intros _ l1 _ l2 H1 H2. rewrite existsb_app, H1, H2. reflexivity.
  - auto.
Qed.

Lemma quiet_try_except {A} (m : M num A) (h : exn -> M num A) :
  quiet m -> (forall e, quiet (h e)) -> quiet (try_except m h).
Proof.
  intros Hm Hh. unfold quiet.
  eapply emits_try_except; [exact Hm | exact Hh | |]; cbn beta.
  - auto.
  - intros _ l1 _ l2 H1 H2. rewrite existsb_app, H1, H2. reflexivity.
Qed.

Lemma quiet_ret {A} (a : A) : quiet (ret a).
Proof. apply emits_silent; auto. Qed.

Lemma quiet_raise {A} (e : exn) : quiet (@raise num A e).
Proof. apply emits_silent; auto. Qed.

Lemma quiet_lift {A} (r : result A) : quiet (@lift num A r).
Proof. apply emits_silent; auto. Qed.

Lemma quiet_history : quiet (@history num).
Proof. apply emits_silent; auto. Qed.

Lemma quiet_alloc (d : DataFrame num) : quiet (alloc d).
Proof. apply emits_silent; auto. Qed.

Lemma quiet_load (l : loc) : quiet (@load num l).
Proof.
  apply emits_silent; auto. intros w. unfold load. destruct (heap w !! l); auto.
Qed.

Lemma quiet_store (l : loc) (d : DataFrame num) : quiet (store l d).
Proof. apply emits_silent; auto. Qed.

Lemma quiet_print (line : list (piece num)) : quiet (print line).
Proof. intros w. exists [EvPrint line]. auto. Qed.

Lemma quiet_sleep (n : nat) : quiet (sleep n).
Proof. intros w. exists [EvSleep n]. auto. Qed.

Lemma quiet_for_each {A} (l : list A) (body : A -> M num unit) :
  (forall x, quiet (body x)) -> quiet (for_each l body).
Proof.
  intros Hbody. induction l as [| x l IH]; cbn [for_each].
  - apply quiet_ret.
  - apply quiet_bind; auto.
Qed.

Ltac quiet_step :=
  match goal with
  | |- quiet (bind _ _) => apply quiet_bind; [| intros ?]
  | |- quiet (try_except _ _) => apply quiet_try_except; [| intros ?]
  | |- quiet (for_each _ _) => apply quiet_for_each; intros ?
  | |- quiet (ret _) => apply quiet_ret
  | |- quiet (raise _) => apply quiet_raise
  | |- quiet (lift _) => apply quiet_lift
  | |- quiet history => apply quiet_history
  | |- quiet (alloc _) => apply quiet_alloc
  | |- quiet (load _) => apply quiet_load
  | |- quiet (store _ _) => apply quiet_store
  | |- quiet (print _) => apply quiet_print
  | |- quiet (sleep _) => apply quiet_sleep
  | |- quiet (if ?b then _ else _) => destruct b
  | |- quiet (match ?x with _ => _ end) => destruct x
  | |- quiet (let _ := _ in _) => cbv zeta
  end.

Ltac quiet_auto := repeat quiet_step.

Lemma quiet_frame_columns df : quiet (frame_columns df).
Proof. unfold frame_columns. quiet_auto. Qed.

Lemma quiet_getitem df name : quiet (getitem df name).
Proof. unfold getitem. quiet_auto. Qed.

Lemma quiet_setitem df name vals : quiet (setitem df name vals).
Proof. unfold setitem. quiet_auto. Qed.

Lemma quiet_len df : quiet (len df).
Proof. unfold len. quiet_auto. Qed.

Lemma quiet_extract_table_manually html : quiet (extract_table_manually html).
Proof.
  unfold extract_table_manually, pd_DataFrame, clean_numeric.
  quiet_auto; auto using quiet_frame_columns, quiet_getitem, quiet_setitem.
Qed.

Lemma quiet_clean_state df : quiet (clean_state df).
Proof.
  unfold clean_state. quiet_auto; auto using quiet_getitem, quiet_setitem.
Qed.

Lemma quiet_extract_table_data html : quiet (extract_table_data html).
Proof.
  unfold extract_table_data, extract_table_data_try, set_columns, rename.
  quiet_auto;
    auto using quiet_frame_columns, quiet_clean_state, quiet_extract_table_manually.
Qed.

Lemma quiet_print_table_found df : quiet (print_table_found df).
Proof. unfold print_table_found. quiet_auto. Qed.

Lemma quiet_merge_data gas_df ev_df : quiet (merge_data gas_df ev_df).
Proof.
  unfold merge_data, strip_state, pd_merge_left.
  quiet_auto; auto using quiet_getitem, quiet_setitem.
Qed.

Lemma no_request_no_patch (l : list (event num)) :
  existsb is_request l = false -> existsb is_patch l = false.
Proof.
  induction l as [| e l IH]; cbn [existsb]; auto.
  intros H. apply orb_false_iff in H as [He Hl].
  rewrite (IH Hl). destruct e; cbn in *; congruence.
Qed.

Lemma no_request_no_403 (l : list (event num)) :
  existsb is_request l = false -> existsb is_get_403 l = false.
Proof.
  induction l as [| e l IH]; cbn [existsb]; auto.
  intros H. apply orb_false_iff in H as [He Hl].
  rewrite (IH Hl). destruct e; cbn in *; congruence.
Qed.

Lemma raised_403_OK {A} (a : A) : ~ raised_403 (OK a).
Proof. intros (resp & H & _). discriminate. Qed.

Lemma raised_403_Raise {A B} (e : exn) :
  raised_403 (@Raise A e) -> raised_403 (@Raise B e).
Proof. intros (resp & H & Hs). exists resp. split; [congruence | exact Hs]. Qed.

Lemma quiet_fetching {A} (m : M num A) : quiet m -> fetching m.
Proof.
  intros Hm. eapply emits_weaken; [exact Hm |]. cbn beta. intros r l Hl. split.
  - apply no_request_no_patch, Hl.
  - rewrite (no_request_no_403 l Hl). discriminate.
Qed.

Lemma quiet_unblocked {A} (m : M num A) : quiet m -> unblocked m.
Proof.
  intros Hm. eapply emits_weaken; [exact Hm |]. cbn beta.
  intros _ l. apply no_request_no_403.
Qed.

Lemma fetching_bind {A B} (m : M num A) (k : A -> M num B) :
  fetching m -> (forall a, fetching (k a)) -> fetching (bind m k).
Proof.
  intros Hm Hk. unfold fetching.
  eapply emits_bind; [exact Hm | exact Hk | |]; cbn beta.
  - intros a l1 r l2 [Hp1 H1] [Hp2 H2]. split.
    + rewrite existsb_app, Hp1, Hp2. reflexivity.
    + rewrite existsb_app. intros H. apply orb_true_iff in H as [H | H].
      * destruct (raised_403_OK a (H1 H)).
      * auto.
  - intros e l1 [Hp1 H1]. split; [exact Hp1 |].
    intros H. apply (@raised_403_Raise A B). auto.
Qed.

Lemma unblocked_bind {A B} (m : M num A) (k : A -> M num B) :
  unblocked m -> (forall a, unblocked (k a)) -> unblocked (bind m k).
Proof.
  intros Hm Hk. unfold unblocked.
  eapply emits_bind; [exact Hm | exact Hk | |]; cbn beta.
  - intros _ l1 _ l2 H1 H2. rewrite existsb_app, H1, H2. reflexivity.
  - auto.
Qed.

Lemma unblocked_try_except {A} (m : M num A) (h : exn -> M num A) :
  unblocked m -> (forall e, unblocked (h e)) -> unblocked (try_except m h).
Proof.
  intros Hm Hh. unfold unblocked.
  eapply emits_try_except; [exact Hm | exact Hh | |]; cbn beta.
  - auto.
  - intros _ l1 _ l2 H1 H2. rewrite existsb_app, H1, H2. reflexivity.
Qed.

Lemma unblocked_guarded {A} (m : M num A) : unblocked m -> guarded m.
Proof.
  intros Hm. eapply emits_weaken; [exact Hm |]. cbn beta.
  intros r l Hl H. congruence.
Qed.

Lemma guarded_bind {A B} (m : M num A) (k : A -> M num B) :
  fetching m -> (forall a, guarded (k a)) -> guarded (bind m k).
Proof.
  intros Hm Hk. unfold guarded.
  eapply emits_bind; [exact Hm | exact Hk | |]; cbn beta.
  - intros a l1 r l2 [Hp1 H1] H2. rewrite !existsb_app.
    intros H. apply orb_true_iff in H as [H | H].
    + destruct (raised_403_OK a (H1 H)).
    + destruct (H2 H) as [Hp2 Hr]. rewrite Hp1, Hp2. auto.
  - intros e l1 [Hp1 H1] H. split; [exact Hp1 |].
    apply (@raised_403_Raise A B). auto.
Qed.

Lemma fetching_make_respectful_request url : fetching (make_respectful_request url).
Proof.
  intros w.
  unfold make_respectful_request, bind, print, emit, http_get, raise_for_status,
    ret, raise.
  cbn [out heap fst snd].
  destruct (requests_get _ url HEADERS) as [r | e] eqn:Ha; cbn [out heap fst snd].
  - destruct ((400 <=? status_code r)%Z && (status_code r <? 600)%Z) eqn:Hbad;
      cbn [out heap fst snd]; eexists; repeat rewrite <- app_assoc;
      (split; [reflexivity |]); cbn; rewrite ?orb_false_r;
      (split; [reflexivity |]); intros H403.
    + exists r. split; [reflexivity |]. apply Z.eqb_eq, H403.
    + apply Z.eqb_eq in H403. rewrite H403 in Hbad. discriminate.
  - eexists; repeat rewrite <- app_assoc; (split; [reflexivity |]); cbn;
      rewrite ?orb_false_r; (split; [reflexivity |]).
    destruct e; try discriminate. intros H403.
    exists r. split; [reflexivity |]. apply Z.eqb_eq, H403.
Qed.

Ltac fetching_auto :=
  repeat (match goal with
          | |- fetching (bind _ _) => apply fetching_bind; [| intros ?]
          end);
  try apply fetching_make_respectful_request;
  try (apply quiet_fetching; quiet_auto;
       auto using quiet_frame_columns, quiet_getitem, quiet_setitem, quiet_len,
         quiet_extract_table_data, quiet_print_table_found, quiet_merge_data).

Lemma fetching_scrape_aaa_gas_prices url : fetching (scrape_aaa_gas_prices url).
Proof. unfold scrape_aaa_gas_prices. fetching_auto. Qed.

Lemma fetching_scrape_aaa_ev_prices url : fetching (scrape_aaa_ev_prices url).
Proof. unfold scrape_aaa_ev_prices. fetching_auto. Qed.

Lemma unblocked_http_patch url headers body : unblocked (http_patch url headers body).
Proof. intros w. eexists. split; [reflexivity |]. reflexivity. Qed.

Lemma unblocked_update_github_gist df token gist_id :
  unblocked (update_github_gist df token gist_id).
Proof.
  unfold update_github_gist, subscript.
  repeat first
    [ apply unblocked_bind; [| intros ?]
    | apply unblocked_try_except; [| intros ?]
    | apply unblocked_http_patch
    | match goal with
      | |- unblocked (if ?b then _ else _) => destruct b
      | |- unblocked (match ?x with _ => _ end) => destruct x
      end
    | (apply quiet_unblocked; quiet_auto; fail) ].
Qed.

Lemma guarded_main_try : guarded main_try.
Proof.
  unfold main_try.
  repeat (match goal with
          | |- guarded (bind (update_github_gist _ _ _) _) => fail 1
          | |- guarded (bind (scrape_aaa_gas_prices _) _) =>
              apply guarded_bind; [apply fetching_scrape_aaa_gas_prices | intros ?]
          | |- guarded (bind (scrape_aaa_ev_prices _) _) =>
              apply guarded_bind; [apply fetching_scrape_aaa_ev_prices | intros ?]
          | |- guarded (bind _ _) =>
              apply guarded_bind;
              [ apply quiet_fetching; quiet_auto;
                auto using quiet_len, quiet_merge_data
              | intros ? ]
          end).
  apply unblocked_guarded, unblocked_bind.
  - apply unblocked_update_github_gist.
  - intros raw_url. apply quiet_unblocked. quiet_auto.
Qed.

(** *** The orchestrator *)

(** C9.  When a GET of the run ends in an HTTP error 403, [main] makes no
    PATCH request at all, and it prints the line "The website is blocking
    the request.". *)
Theorem main_403_aborts_before_publish (w : world num) :
  existsb is_get_403 (new_events main w) = true ->
  existsb is_patch (new_events main w) = false
  /\ In (EvPrint [Lit "The website is blocking the request."]) (new_events main w).
Proof.
  unfold new_events, world_after, main, try_except.
  destruct (guarded_main_try w) as (l1 & Hl1 & Hg).
  destruct (main_try w) as [[[] | e] w1]; cbn [fst snd] in *.
  - rewrite Hl1, drop_app_length. intros H.
    destruct (Hg H) as [_ Hr]. destruct (raised_403_OK _ Hr).
  - assert (Hh : exists l2, out (snd (main_except e w1)) = out w1 ++ l2
                 /\ existsb is_request l2 = false
                 /\ (forall resp, e = HTTPError resp -> status_code resp = 403%Z ->
                     In (EvPrint [Lit "The website is blocking the request."]) l2)).
    { destruct e; unfold main_except, bind, print, emit, ret;
        try (eexists; cbn [fst snd out heap]; repeat rewrite <- app_assoc;
             split; [reflexivity | split; [reflexivity | discriminate]]).
      destruct (status_code r =? 403)%Z eqn:Hs;
        eexists; cbn [fst snd out heap]; repeat rewrite <- app_assoc;
        (split; [reflexivity | split; [reflexivity |]]).
      - intros _ _ _. cbn. auto.
      - intros resp Hresp Hresp403. injection Hresp as <-.
        rewrite Hresp403 in Hs. discriminate. }
    destruct Hh as (l2 & Hl2 & Hq & Hblock).
    rewrite Hl2, Hl1, <- app_assoc, drop_app_length, !existsb_app.
    rewrite (no_request_no_403 l2 Hq), (no_request_no_patch l2 Hq), !orb_false_r.
    intros H. destruct (Hg H) as [Hp (resp & He & Hs)]. split; [exact Hp |].
    injection He as ->. apply in_or_app. right. eauto.
Qed.

(** *** Labels and cells *)

Lemma has_label_count (name : string) (cols : list string) :
  has_label name cols = true <-> 0 < count_label name cols.
Proof.
  unfold has_label. induction cols as [| c cs IH]; cbn [existsb count_label].
  - split; [discriminate | lia].
  - rewrite (String.eqb_sym name c). destruct (String.eqb c name); cbn.
    + split; [lia | reflexivity].
    + exact IH.
Qed.

Lemma index_of_lookup (name : string) (cols : list string) :
  0 < count_label name cols -> cols !! index_of name cols = Some name.
Proof.
  induction cols as [| c cs IH]; cbn [count_label index_of].
  - lia.
  - destruct (String.eqb c name) eqn:E.
    + intros _. apply String.eqb_eq in E. subst. reflexivity.
    + cbn. exact IH.
Qed.

Lemma lookup_map {A B} (f : A -> B) (l : list A) (i : nat) :
  map f l !! i = option_map f (l !! i).
Proof.
  revert i. induction l as [| x l IH]; intros [| i]; cbn; auto.
Qed.

Lemma zip_with_map_self {A B C} (g : B -> A -> C) (h : A -> B) (l : list A) :
  zip_with g (map h l) l = map (fun x => g (h x) x) l.
Proof.
  induction l as [| x l IH]; cbn; [reflexivity |]. rewrite IH. reflexivity.
Qed.

Lemma length_set_cells cols name v (r : list (value num)) :
  length (set_cells cols name v r) = length r.
Proof.
  revert r. induction cols as [| c cs IH]; intros [| x xs]; cbn; auto.
Qed.

(** A cell of a row after [df[name] = ...]: the new value under the
    label, the old one elsewhere. *)
Lemma lookup_set_cells cols name v (r : list (value num)) (j : nat) :
  set_cells cols name v r !! j =
    match cols !! j, r !! j with
    | Some c, Some x => Some (if String.eqb c name then v else x)
    | _, o => o
    end.
Proof.
  revert r j. induction cols as [| c cs IH]; intros [| x xs] [| j]; cbn; auto.
  destruct (cs !! j); reflexivity.
Qed.

(** Trimming a row trims its key and nothing else. *)
Lemma trimmed_row_key (d : DataFrame num) (r : list (value num)) :
  0 < count_label "State" (columns d) ->
  cell (index_of "State" (columns d)) (trimmed_row d r) = trimmed_key d r.
Proof.
  intros Hc. unfold trimmed_row, cell at 1. rewrite lookup_set_cells.
  rewrite (index_of_lookup _ _ Hc). rewrite String.eqb_refl.
  unfold trimmed_key, cell.
  destruct (r !! index_of "State" (columns d)); reflexivity.
Qed.

Lemma trimmed_row_other (d : DataFrame num) (r : list (value num)) (j : nat) :
  columns d !! j <> Some "State" ->
  trimmed_row d r !! j = r !! j.
Proof.
  intros Hj. unfold trimmed_row. rewrite lookup_set_cells.
  destruct (columns d !! j) as [c |] eqn:Ec; [| reflexivity].
  destruct (r !! j); [| reflexivity].
  destruct (String.eqb c "State") eqn:E; [| reflexivity].
  apply String.eqb_eq in E. congruence.
Qed.

Lemma frame_setitem_trimmed (d : DataFrame num) :
  0 < count_label "State" (columns d) ->
  frame_setitem d "State"
    (str_map strip (column (index_of "State" (columns d)) d)) = trimmed d.
Proof.
  intros Hc. unfold frame_setitem.
  apply has_label_count in Hc. rewrite Hc.
  unfold str_map, column, trimmed. rewrite map_map, zip_with_map_self.
  reflexivity.
Qed.

(** *** The merger *)

(** What a successful [df['State'] = df['State'].str.strip()] has done. *)
Lemma strip_state_inv (df : loc) (w w' : world num) :
  strip_state df w = (OK tt, w') ->
  exists d, heap w !! df = Some d
    /\ count_label "State" (columns d) = 1
    /\ w' = World (<[df := trimmed d]> (heap w)) (out w).
Proof.
  unfold strip_state, getitem, setitem, bind, load, store, lift, frame_getitem.
  destruct (heap w !! df) as [d |] eqn:Hd; [| discriminate].
  destruct (count_label "State" (columns d)) as [| [| n]] eqn:Hc;
    cbn [str_accessor]; try discriminate.
  destruct (existsb is_num _ && negb (existsb is_str _)); [discriminate |].
  rewrite Hd. intros H. injection H as <-.
  exists d. rewrite frame_setitem_trimmed by lia. auto.
Qed.

(** What a successful [merge_data] has done: both tables are trimmed in
    place, one after the other, and the merge of the trimmed tables is a
    new object. *)
Lemma merge_data_inv (gas_df ev_df : loc) (w w' : world num) (m : loc) :
  merge_data gas_df ev_df w = (OK m, w') ->
  exists gd ed g' e' merged,
    heap w !! gas_df = Some gd
    /\ count_label "State" (columns gd) = 1
    /\ <[gas_df := trimmed gd]> (heap w) !! ev_df = Some ed
    /\ count_label "State" (columns ed) = 1
    /\ <[ev_df := trimmed ed]> (<[gas_df := trimmed gd]> (heap w)) !! gas_df = Some g'
    /\ <[ev_df := trimmed ed]> (<[gas_df := trimmed gd]> (heap w)) !! ev_df = Some e'
    /\ frame_merge_left g' e' "State" = OK merged
    /\ m = length (heap w)
    /\ w' = World (<[ev_df := trimmed ed]> (<[gas_df := trimmed gd]> (heap w)) ++ [merged])
                  (out w).
Proof.
  unfold merge_data. unfold bind at 1.
  destruct (strip_state gas_df w) as [[[] | e] w1] eqn:H1; [| discriminate].
  apply strip_state_inv in H1 as (gd & Hgd & Hcg & ->).
  unfold bind at 1.
  destruct (strip_state ev_df _) as [[[] | e] w2] eqn:H2; [| discriminate].
  apply strip_state_inv in H2 as (ed & Hed & Hce & ->).
  cbn [heap out] in *.
  unfold bind, pd_merge_left, bind, load, lift, alloc, ret. cbn [heap out].
  set (h2 := <[ev_df := trimmed ed]> (<[gas_df := trimmed gd]> (heap w))).
  destruct (h2 !! gas_df) as [g' |] eqn:Hg'; [| discriminate].
  cbn [heap out].
  destruct (h2 !! ev_df) as [e' |] eqn:He'; [| discriminate].
  destruct (frame_merge_left g' e' "State") as [merged | e] eqn:Hm; [| discriminate].
  intros H. injection H as <- <-.
  exists gd, ed, g', e', merged. subst h2.
  rewrite !length_insert. auto 10.
Qed.

(** With two different tables, the merge is that of the two trimmed
    tables. *)
Lemma merge_data_distinct_inv (gas_df ev_df : loc) (w w' : world num) (m : loc)
  (gd ed : DataFrame num) :
  merge_data gas_df ev_df w = (OK m, w') ->
  gas_df <> ev_df ->
  heap w !! gas_df = Some gd ->
  heap w !! ev_df = Some ed ->
  exists merged,
    count_label "State" (columns gd) = 1
    /\ count_label "State" (columns ed) = 1
    /\ frame_merge_left (trimmed gd) (trimmed ed) "State" = OK merged
    /\ m = length (heap w)
    /\ w' = World (<[ev_df := trimmed ed]> (<[gas_df := trimmed gd]> (heap w)) ++ [merged])
                  (out w).
Proof.
  intros Hrun Hne Hgd Hed.
  apply merge_data_inv in Hrun
    as (gd0 & ed0 & g' & e' & merged & Hgd0 & Hcg & Hed0 & Hce & Hg' & He' & Hm & -> & ->).
  pose proof (eq_trans (eq_sym Hgd0) Hgd) as Eg. injection Eg as ->.
  rewrite list_lookup_insert_ne in Hed0 by exact Hne.
  pose proof (eq_trans (eq_sym Hed0) Hed) as Ee. injection Ee as ->.
  rewrite list_lookup_insert_ne in Hg' by auto.
  rewrite list_lookup_insert_eq in Hg' by (eapply lookup_lt_Some; eauto).
  rewrite list_lookup_insert_eq in He'
    by (rewrite length_insert; eapply lookup_lt_Some; eauto).
  injection Hg' as <-. injection He' as <-.
  exists merged. auto.
Qed.

Lemma frame_merge_left_rows (l r merged : DataFrame num) (key : string) :
  frame_merge_left l r key = OK merged ->
  rows merged =
    flat_map (join_row (index_of key (columns l)) (index_of key (columns r))
                (length (delete (index_of key (columns r)) (columns r))) (rows r))
             (rows l).
Proof.
  unfold frame_merge_left.
  destruct (count_label key (columns l)) as [| [| n]];
    destruct (count_label key (columns r)) as [| [| n']]; try discriminate.
  destruct (_ || _); [discriminate |].
  intros H. injection H as <-. reflexivity.
Qed.

Lemma filter_nil_existsb {A} (p : A -> bool) (l : list A) :
  List.filter p l = [] <-> existsb p l = false.
Proof.
  induction l as [| x l IH]; cbn; [tauto |].
  destruct (p x); cbn; [split; discriminate | exact IH].
Qed.

Lemma existsb_map {A B} (p : B -> bool) (f : A -> B) (l : list A) :
  existsb p (map f l) = existsb (fun x => p (f x)) l.
Proof.
  induction l as [| x l IH]; cbn; [reflexivity |]. rewrite IH. reflexivity.
Qed.

Lemma textual_str_cell f (v : value num) : textual (str_cell f v) = true.
Proof. destruct v; reflexivity. Qed.

(** On such keys, two keys equal to a third are equal to each other. *)
Lemma key_eqb_textual (k a b : value num) :
  textual a = true -> textual b = true ->
  key_eqb k a = true -> key_eqb k b = true -> key_eqb a b = true.
Proof.
  destruct k, a, b; cbn; try discriminate; auto.
  intros _ _ H1 H2. apply String.eqb_eq in H1, H2. subst. apply String.eqb_refl.
Qed.

Lemma matches_at_most_one {A} (key : A -> value num) (k : value num) (l : list A) :
  (forall x, textual (key x) = true) ->
  distinct_keys (map key l) = true ->
  length (List.filter (fun x => key_eqb k (key x)) l) <= 1.
Proof.
  intros Ht. induction l as [| x l IH]; cbn [map distinct_keys List.filter length].
  - lia.
  - intros H. apply andb_true_iff in H as [Hx Hl].
    destruct (key_eqb k (key x)) eqn:Ekx; [| auto].
    cbn [length].
    assert (List.filter (fun y => key_eqb k (key y)) l = []) as ->; [| cbn; lia].
    apply filter_nil_existsb.
    apply negb_true_iff in Hx. rewrite existsb_map in Hx.
    destruct (existsb (fun y => key_eqb k (key y)) l) eqn:Ex; [| reflexivity].
    apply existsb_exists in Ex as (y & Hy & Eky).
    assert (existsb (fun y => key_eqb (key x) (key y)) l = true); [| congruence].
    apply existsb_exists. exists y. split; [exact Hy |].
    eapply key_eqb_textual; eauto.
Qed.

Lemma length_flat_map_ge {A B} (f : A -> list B) (l : list A) :
  (forall x, 1 <= length (f x)) -> length l <= length (flat_map f l).
Proof.
  intros H. induction l as [| x l IH]; cbn; [lia |].
  rewrite length_app. specialize (H x). lia.
Qed.


(** The merged rows of two trimmed frames, read on the frames as they
    were. *)
Lemma merged_rows_trimmed (gd ed merged : DataFrame num) :
  count_label "State" (columns gd) = 1 ->
  count_label "State" (columns ed) = 1 ->
  frame_merge_left (trimmed gd) (trimmed ed) "State" = OK merged ->
  rows merged =
    flat_map (fun r =>
      match List.filter (fun rr => key_eqb (trimmed_key gd r) (trimmed_key ed rr))
                        (rows ed) with
      | [] => [trimmed_row gd r ++ replicate (right_width ed) VNaN]
      | ms => map (fun rr => trimmed_row gd r
                               ++ delete (index_of "State" (columns ed)) (trimmed_row ed rr))
                  ms
      end) (rows gd).
Proof.
  intros Hcg Hce Hm. rewrite (frame_merge_left_rows _ _ _ _ Hm).
  cbn [trimmed columns rows]. rewrite flat_map_concat_map, map_map.
  rewrite <- flat_map_concat_map. apply flat_map_ext. intros r.
  unfold join_row. rewrite trimmed_row_key by lia.
  assert (Hf : forall p (l : list (list (value num))),
             List.filter p (map (trimmed_row ed) l)
             = map (trimmed_row ed) (List.filter (fun rr => p (trimmed_row ed rr)) l)).
  { intros p l. induction l as [| x l IH]; cbn; [reflexivity |].
    destruct (p (trimmed_row ed x)); cbn; rewrite IH; reflexivity. }
  rewrite Hf.
  erewrite (List.filter_ext _ (fun rr => key_eqb (trimmed_key gd r) (trimmed_key ed rr)));
    [| intros rr; rewrite trimmed_row_key by lia; reflexivity].
  destruct (List.filter _ (rows ed)) as [| rr ms]; [reflexivity |].
  cbn [map]. rewrite map_map. reflexivity.
Qed.

Lemma frame_merge_left_columns (l r merged : DataFrame num) :
  frame_merge_left l r "State" = OK merged -> columns merged = merged_labels l r.
Proof.
  unfold frame_merge_left.
  destruct (count_label "State" (columns l)) as [| [| n]];
    destruct (count_label "State" (columns r)) as [| [| n']]; try discriminate.
  destruct (_ || _); [discriminate |].
  intros H. injection H as <-. reflexivity.
Qed.

Lemma count_label_delete (name : string) (cols : list string) :
  count_label name (delete (index_of name cols) cols) = count_label name cols - 1.
Proof.
  induction cols as [| c cs IH]; [reflexivity |].
  cbn [index_of count_label]. destruct (String.eqb c name) eqn:E.
  - cbn. lia.
  - cbn [delete list_delete count_label]. rewrite E. exact IH.
Qed.

(** The merge keeps the label "State" where the left frame has it. *)
Lemma merged_labels_state (l r : DataFrame num) :
  count_label "State" (columns l) = 1 ->
  count_label "State" (columns r) = 1 ->
  merged_labels l r !! index_of "State" (columns l) = Some "State".
Proof.
  intros Hl Hr. unfold merged_labels, add_suffix.
  assert (Hi : columns l !! index_of "State" (columns l) = Some "State")
    by (apply index_of_lookup; lia).
  rewrite lookup_app_l by (rewrite length_map; eapply lookup_lt_Some, Hi).
  rewrite lookup_map, Hi. cbn.
  destruct (has_label "State" (delete _ (columns r))) eqn:E; [| reflexivity].
  apply has_label_count in E. rewrite count_label_delete in E. lia.
Qed.

Lemma merged_object (h : list (DataFrame num)) (gas_df ev_df : loc)
  (a b merged : DataFrame num) :
  (<[ev_df := b]> (<[gas_df := a]> h) ++ [merged]) !! length h = Some merged.
Proof.
  rewrite lookup_app_r by (rewrite !length_insert; lia).
  rewrite !length_insert, Nat.sub_diag. reflexivity.
Qed.

(** X9.  A merge never has fewer rows than its left table: when
    [merge_data] returns for two different tables, whatever the region
    identifiers of the right table are, the merged table has at least as
    many rows as the left table had. *)
Lemma merge_data_keeps_left_rows (gas_df ev_df : loc) (w w' : world num) (m : loc)
  (gd ed : DataFrame num) :
  merge_data gas_df ev_df w = (OK m, w') ->
  gas_df <> ev_df ->
  heap w !! gas_df = Some gd ->
  heap w !! ev_df = Some ed ->
  exists merged,
    heap w' !! m = Some merged /\ length (rows gd) <= length (rows merged).
Proof.
  intros Hrun Hne Hgd Hed.
  destruct (merge_data_distinct_inv _ _ _ _ _ _ _ Hrun Hne Hgd Hed)
    as (merged & Hcg & Hce & Hm & -> & ->).
  exists merged. split; [apply merged_object |].
  rewrite (merged_rows_trimmed _ _ _ Hcg Hce Hm).
  apply length_flat_map_ge. intros r.
  destruct (List.filter _ (rows ed)); cbn; lia.
Qed.


(** C3.  When [merge_data] returns for two different tables, the merged
    table has the columns of the left table followed by those of the right
    table other than "State", and: a row of the left table whose trimmed
    region identifier equals that of no row of the right table is in the
    merged table, with its region trimmed and NaN in every column that
    comes from the right table; and, the left table having one cell per
    column in every row, each merged row carries under "State" the trimmed
    region identifier of a row of the left table, so that a region of the
    right table alone is in no merged row. *)
Theorem merge_data_left_join (gas_df ev_df : loc) (w w' : world num) (m : loc)
  (gd ed : DataFrame num) :
  merge_data gas_df ev_df w = (OK m, w') ->
  gas_df <> ev_df ->
  heap w !! gas_df = Some gd ->
  heap w !! ev_df = Some ed ->
  well_formed gd ->
  exists merged,
    heap w' !! m = Some merged
    /\ columns merged = merged_labels gd ed
    /\ columns merged !! index_of "State" (columns gd) = Some "State"
    /\ (forall r,
          In r (rows gd) ->
          existsb (key_eqb (trimmed_key gd r)) (trimmed_keys ed) = false ->
          In (trimmed_row gd r ++ replicate (right_width ed) VNaN) (rows merged))
    /\ (forall o,
          In o (rows merged) ->
          exists r, In r (rows gd)
                    /\ cell (index_of "State" (columns gd)) o = trimmed_key gd r).
Proof.
  intros Hrun Hne Hgd Hed Hwf.
  destruct (merge_data_distinct_inv _ _ _ _ _ _ _ Hrun Hne Hgd Hed)
    as (merged & Hcg & Hce & Hm & -> & ->).
  exists merged. split; [apply merged_object |].
  pose proof (frame_merge_left_columns _ _ _ Hm) as Hlabels.
  change (merged_labels (trimmed gd) (trimmed ed)) with (merged_labels gd ed) in Hlabels.
  split; [exact Hlabels |].
  split; [rewrite Hlabels; apply merged_labels_state; assumption |].
  rewrite (merged_rows_trimmed _ _ _ Hcg Hce Hm). split.
  - intros r Hr Hnone. apply in_flat_map. exists r. split; [exact Hr |].
    unfold trimmed_keys in Hnone. rewrite existsb_map in Hnone.
    apply filter_nil_existsb in Hnone. rewrite Hnone. cbn. auto.
  - intros o Ho. apply in_flat_map in Ho as (r & Hr & Ho).
    exists r. split; [exact Hr |].
    assert (Hkey : forall tail,
               cell (index_of "State" (columns gd)) (trimmed_row gd r ++ tail)
               = trimmed_key gd r).
    { intros tail. rewrite <- (trimmed_row_key gd r) by lia.
      unfold cell. rewrite lookup_app_l; [reflexivity |].
      unfold trimmed_row. rewrite length_set_cells.
      unfold well_formed in Hwf. rewrite Forall_forall in Hwf.
      rewrite (Hwf r) by (apply list_elem_of_In; exact Hr).
      eapply lookup_lt_Some, index_of_lookup. lia. }
    destruct (List.filter _ (rows ed)) as [| rr ms].
    + destruct Ho as [<- | []]. apply Hkey.
    + apply in_map_iff in Ho as (rr' & <- & _). apply Hkey.
Qed.

(** The cells that trimming leaves alone: all but those under "State". *)
Lemma trimmed_other_cells (d : DataFrame num) (i j : nat) :
  columns d !! j <> Some "State" ->
  cell_at (trimmed d) i j = cell_at d i j.
Proof.
  intros Hj. unfold cell_at, trimmed. cbn [rows]. rewrite lookup_map.
  destruct (rows d !! i) as [r |]; cbn; [| reflexivity].
  apply trimmed_row_other, Hj.
Qed.

(** The publisher reads its table and writes to no object. *)
Lemma update_github_gist_heap (df : loc) (token : option string) (gist_id : string)
  (w : world num) :
  heap (world_after (update_github_gist df token gist_id) w) = heap w.
Proof.
  unfold world_after, update_github_gist.
  unfold bind at 1, print at 1, emit at 1. unfold bind at 1, load at 1.
  cbn [heap out].
  destruct (heap w !! df) as [d |]; [| reflexivity].
  unfold bind at 1, history at 1. cbn [heap out].
  unfold try_except, bind at 1, http_patch. cbn [heap out].
  destruct (requests_patch _ _ _ _) as [r doc | e]; cbn [fst snd].
  - destruct (status_code r =? 200)%Z.
    + destruct doc as [[[h|] [u|]] |];
        unfold bind, print, emit, subscript, ret, raise;
        cbn [fst snd out heap html_url raw_url is_RequestException]; reflexivity.
    + reflexivity.
  - destruct e; reflexivity.
Qed.

(** C8, as amended.  [merge_data] writes to both of its arguments: when it
    returns for two different tables, each of them is, in place, the table
    it was with its column "State" trimmed; every other object is as it
    was, the merged table is a new object, and nothing is printed.  The
    other function that is given a table, [update_github_gist], changes no
    object. *)
Theorem merge_data_trims_inputs_in_place (gas_df ev_df : loc) (w w' : world num)
  (m : loc) (gd ed : DataFrame num) :
  merge_data gas_df ev_df w = (OK m, w') ->
  gas_df <> ev_df ->
  heap w !! gas_df = Some gd ->
  heap w !! ev_df = Some ed ->
  heap w' !! gas_df = Some (trimmed gd)
  /\ heap w' !! ev_df = Some (trimmed ed)
  /\ (forall l, l <> gas_df -> l <> ev_df -> l < length (heap w) ->
                heap w' !! l = heap w !! l)
  /\ m = length (heap w)
  /\ length (heap w') = S (length (heap w))
  /\ out w' = out w
  /\ (forall df token gist_id w0,
        heap (world_after (update_github_gist df token gist_id) w0) = heap w0).
Proof.
  intros Hrun Hne Hgd Hed.
  destruct (merge_data_distinct_inv _ _ _ _ _ _ _ Hrun Hne Hgd Hed)
    as (merged & Hcg & Hce & Hm & -> & ->).
  pose proof (lookup_lt_Some _ _ _ Hgd) as Hlg.
  pose proof (lookup_lt_Some _ _ _ Hed) as Hle.
  cbn [heap out]. repeat split; try apply update_github_gist_heap.
  - rewrite lookup_app_l by (rewrite !length_insert; exact Hlg).
    rewrite list_lookup_insert_ne by auto.
    apply list_lookup_insert_eq, Hlg.
  - rewrite lookup_app_l by (rewrite !length_insert; exact Hle).
    apply list_lookup_insert_eq. rewrite length_insert. exact Hle.
  - intros l Hl1 Hl2 Hlt.
    rewrite lookup_app_l by (rewrite !length_insert; exact Hlt).
    rewrite !list_lookup_insert_ne by auto. reflexivity.
  - rewrite length_app, !length_insert. cbn. lia.
Qed.

(** *** The manual parser *)

Lemma traverse_lookup {A B} (f : A -> result B) (l : list A) (l' : list B) :
  traverse f l = OK l' ->
  forall i x, l !! i = Some x -> exists y, l' !! i = Some y /\ f x = OK y.
Proof.
  revert l'. induction l as [| a l IH]; intros l' H i x Hx; [destruct i; discriminate |].
  cbn [traverse] in H.
  destruct (f a) as [b | e] eqn:Ea; [| discriminate].
  destruct (traverse f l) as [bs | e]; [| discriminate].
  injection H as <-. destruct i as [| i]; cbn in *.
  - injection Hx as <-. eauto.
  - eauto.
Qed.

Lemma count_label_unique (name : string) (cols : list string) (j : nat) :
  count_label name cols = 1 -> cols !! j = Some name -> j = index_of name cols.
Proof.
  revert j. induction cols as [| c cs IH]; intros j Hc Hj; [destruct j; discriminate |].
  cbn [count_label index_of] in *.
  destruct (String.eqb c name) eqn:E.
  - destruct j as [| j]; [reflexivity |]. cbn in Hj.
    assert (0 < count_label name cs); [| lia].
    apply has_label_count. unfold has_label. apply existsb_exists.
    exists name. split; [| apply String.eqb_refl].
    apply list_elem_of_In. eapply list_elem_of_lookup_2. exact Hj.
  - destruct j as [| j]; cbn in Hj.
    + injection Hj as ->. rewrite String.eqb_refl in E. discriminate.
    + f_equal. apply IH; [exact Hc | exact Hj].
Qed.

(** One turn of the loop, on the frame behind the reference. *)
Lemma clean_turn_run (df : loc) (col : string) (w : world num) (d : DataFrame num) :
  heap w !! df = Some d ->
  (if negb (String.eqb col "State") then clean_numeric df col else ret tt) w =
    match clean_step d col with
    | OK d' => (OK tt, World (<[df := d']> (heap w)) (out w))
    | Raise e => (Raise e, w)
    end.
Proof.
  intros Hd. unfold clean_step. destruct (String.eqb col "State"); cbn [negb].
  - unfold ret. rewrite list_insert_id by exact Hd. destruct w; reflexivity.
  - unfold clean_numeric, getitem, setitem, bind, load, store, lift. rewrite Hd.
    destruct (frame_getitem d col) as [sel | e]; [| reflexivity].
    destruct (str_accessor sel) as [vals | e]; [| reflexivity].
    destruct (astype_float _) as [floats | e]; [| reflexivity].
    rewrite Hd. reflexivity.
Qed.

(** The whole loop. *)
Lemma clean_loop_run (df : loc) (cols : list string) (w : world num) (d : DataFrame num) :
  heap w !! df = Some d ->
  result_of (for_each cols (fun col =>
      if negb (String.eqb col "State") then clean_numeric df col else ret tt)) w
    = match clean_all d cols with OK _ => OK tt | Raise e => Raise e end
  /\ out (world_after (for_each cols (fun col =>
      if negb (String.eqb col "State") then clean_numeric df col else ret tt)) w)
     = out w
  /\ forall d', clean_all d cols = OK d' ->
       heap (world_after (for_each cols (fun col =>
         if negb (String.eqb col "State") then clean_numeric df col else ret tt)) w)
       = <[df := d']> (heap w).
Proof.
  revert w d. induction cols as [| c cs IH]; intros w d Hd.
  - cbn. repeat split. intros d' H. injection H as <-.
    symmetry. apply list_insert_id, Hd.
  - unfold result_of, world_after in *. cbn [for_each clean_all]. unfold bind.
    rewrite (clean_turn_run df c w d Hd).
    destruct (clean_step d c) as [d1 | e]; [| cbn; repeat split; discriminate].
    assert (Hd1 : heap (World (<[df := d1]> (heap w)) (out w)) !! df = Some d1).
    { cbn. apply list_lookup_insert_eq. eapply lookup_lt_Some, Hd. }
    destruct (IH _ _ Hd1) as (Hr & Ho & Hh). cbn [heap out] in *.
    repeat split; auto.
    intros d' Hd'. rewrite (Hh d' Hd'). apply list_insert_insert_eq.
Qed.

Lemma count_label_lookup (name : string) (cols : list string) (j : nat) :
  cols !! j = Some name -> 0 < count_label name cols.
Proof.
  revert j. induction cols as [| c cs IH]; intros [| j] Hj; try discriminate; cbn in *.
  - injection Hj as ->. rewrite String.eqb_refl. lia.
  - specialize (IH j Hj). lia.
Qed.

(** One successful turn: the labels stay, the cells under the label are
    converted, the other cells stay. *)
Lemma clean_step_spec (d d' : DataFrame num) (c : string) :
  String.eqb c "State" = false ->
  clean_step d c = OK d' ->
  count_label c (columns d) = 1
  /\ columns d' = columns d
  /\ forall i j v x,
       cell_at d i j = Some v -> columns d !! j = Some x ->
       exists v', cell_at d' i j = Some v'
                  /\ if String.eqb x c then cleaned v v' else v' = v.
Proof.
  intros Hc. unfold clean_step, frame_getitem. rewrite Hc.
  destruct (count_label c (columns d)) as [| [| n]] eqn:Hcount; try discriminate.
  cbn [str_accessor].
  destruct (existsb is_num _ && negb (existsb is_str _)); [discriminate |].
  destruct (astype_float _) as [floats |] eqn:Hfl; [| discriminate].
  intros H. injection H as <-.
  assert (Hl : has_label c (columns d) = true) by (apply has_label_count; lia).
  unfold frame_setitem. rewrite Hl. cbn [columns rows].
  repeat split.
  intros i j v x Hv Hx. unfold cell_at in *. cbn [rows].
  destruct (rows d !! i) as [r |] eqn:Hr; [| discriminate].
  assert (Hcol : str_map (str_remove dollar) (column (index_of c (columns d)) d) !! i
                 = Some (str_cell (str_remove dollar) (cell (index_of c (columns d)) r))).
  { unfold str_map, column. rewrite !lookup_map, Hr. reflexivity. }
  destruct (traverse_lookup _ _ _ Hfl i _ Hcol) as (f & Hf & Hconv).
  rewrite lookup_zip_with, Hf, Hr. cbn.
  rewrite lookup_set_cells, Hx, Hv.
  eexists. split; [reflexivity |].
  destruct (String.eqb x c) eqn:Exc; [| reflexivity].
  apply String.eqb_eq in Exc. subst x.
  unfold cleaned. rewrite <- Hconv. do 2 f_equal.
  rewrite <- (count_label_unique c (columns d) j Hcount Hx).
  unfold cell. rewrite Hv. reflexivity.
Qed.

Lemma has_label_cons name c cs :
  has_label name (c :: cs) = String.eqb name c || has_label name cs.
Proof. reflexivity. Qed.

(** The loop over a part [cols] of the labels of the frame. *)
Lemma clean_all_spec (cols : list string) :
  forall d d' : DataFrame num,
    (forall x, count_label x cols <= count_label x (columns d)) ->
    clean_all d cols = OK d' ->
    columns d' = columns d
    /\ forall i j v x,
         cell_at d i j = Some v -> columns d !! j = Some x ->
         exists v', cell_at d' i j = Some v'
                    /\ if has_label x cols && negb (String.eqb x "State")
                       then cleaned v v' else v' = v.
Proof.
  induction cols as [| c cs IH]; intros d d' Hsub Hrun.
  - injection Hrun as <-. split; [reflexivity |]. intros i j v x Hv _.
    exists v. split; [exact Hv | reflexivity].
  - cbn [clean_all] in Hrun.
    destruct (clean_step d c) as [d1 |] eqn:Hstep; [| discriminate].
    destruct (String.eqb c "State") eqn:Ec.
    + (* the label "State": nothing happens *)
      unfold clean_step in Hstep. rewrite Ec in Hstep. injection Hstep as <-.
      assert (Hsub' : forall x, count_label x cs <= count_label x (columns d)).
      { intros x. specialize (Hsub x). cbn [count_label] in Hsub. lia. }
      destruct (IH d d' Hsub' Hrun) as (Hcols & Hcells).
      split; [exact Hcols |]. intros i j v x Hv Hx.
      destruct (Hcells i j v x Hv Hx) as (v' & Hv' & Hrel).
      exists v'. split; [exact Hv' |].
      rewrite has_label_cons. destruct (String.eqb x c) eqn:Exc; [| exact Hrel].
      apply String.eqb_eq in Exc. subst x. rewrite Ec in *. cbn.
      rewrite andb_false_r in Hrel. exact Hrel.
    + destruct (clean_step_spec d d1 c Ec Hstep) as (Hcount & Hcols1 & Hcells1).
      assert (Hcs : count_label c cs = 0).
      { specialize (Hsub c). cbn [count_label] in Hsub.
        rewrite String.eqb_refl in Hsub. lia. }
      assert (Hsub' : forall x, count_label x cs <= count_label x (columns d1)).
      { intros x. rewrite Hcols1. specialize (Hsub x). cbn [count_label] in Hsub. lia. }
      destruct (IH d1 d' Hsub' Hrun) as (Hcols & Hcells).
      split; [congruence |]. intros i j v x Hv Hx.
      destruct (Hcells1 i j v x Hv Hx) as (v1 & Hv1 & Hrel1).
      rewrite <- Hcols1 in Hx.
      destruct (Hcells i j v1 x Hv1 Hx) as (v' & Hv' & Hrel).
      exists v'. split; [exact Hv' |].
      rewrite has_label_cons. destruct (String.eqb x c) eqn:Exc.
      * apply String.eqb_eq in Exc. subst x. rewrite Ec. cbn.
        assert (has_label c cs = false) as Hno.
        { destruct (has_label c cs) eqn:E; [| reflexivity].
          apply has_label_count in E. lia. }
        rewrite Hno in Hrel. cbn in Hrel. subst v'. exact Hrel1.
      * cbn. subst v1. exact Hrel.
Qed.

Lemma padded_cell (width : nat) (rs : list (list string)) (i j : nat)
  (raw : list string) (s : string) :
  rs !! i = Some raw -> raw !! j = Some s ->
  cell_at (Frame []
             (map (fun r => map VStr r ++ replicate (width - length r) (@VNone num)) rs))
          i j = Some (VStr s).
Proof.
  intros Hraw Hs. unfold cell_at. cbn [rows].
  rewrite lookup_map, Hraw. cbn.
  rewrite lookup_app_l by (rewrite length_map; eapply lookup_lt_Some, Hs).
  rewrite lookup_map, Hs. reflexivity.
Qed.

(** The frame that [pd.DataFrame] builds from the rows of strings. *)
Lemma frame_of_rows_spec (rs : list (list string)) (headers : list string)
  (d : DataFrame num) :
  frame_of_rows rs headers = OK d ->
  columns d = headers
  /\ forall i j raw s, rs !! i = Some raw -> raw !! j = Some s ->
                       cell_at d i j = Some (VStr s).
Proof.
  unfold frame_of_rows. destruct rs as [| r0 rs'].
  - intros H. injection H as <-. split; [reflexivity |]. intros [| i]; discriminate.
  - destruct (Nat.eqb _ _); [| discriminate].
    intros H. injection H as <-. split; [reflexivity |].
    intros i j raw s Hraw Hs.
    exact (padded_cell _ (r0 :: rs') i j raw s Hraw Hs).
Qed.

Lemma frame_columns_run (df : loc) (w : world num) (d : DataFrame num) :
  heap w !! df = Some d -> frame_columns df w = (OK (columns d), w).
Proof.
  intros Hd. unfold frame_columns, bind, load, ret. rewrite Hd. reflexivity.
Qed.

(** The result of [extract_table_manually], read off the parse tree. *)
Lemma extract_table_manually_result (html_text : string) (w : world num) :
  result_of (extract_table_manually html_text) w =
    match find "table" (BeautifulSoup html_text) with
    | None => Raise (ValueError "No table found in HTML")
    | Some table =>
        match frame_of_rows (manual_rows table) (manual_headers table) with
        | Raise e => Raise e
        | OK d0 =>
            match clean_all d0 (columns d0) with
            | Raise e => Raise e
            | OK _ => OK (length (heap w))
            end
        end
    end.
Proof.
  unfold result_of, extract_table_manually. unfold bind at 1, print, emit.
  cbv zeta. destruct (find "table" _) as [table |]; [| reflexivity].
  unfold bind at 1, pd_DataFrame, bind at 1, lift.
  destruct (frame_of_rows _ _) as [d0 | e]; [| reflexivity].
  unfold alloc. cbn [heap out].
  set (w1 := World (heap w ++ [d0]) (out w ++ _)).
  assert (Hd0 : heap w1 !! length (heap w) = Some d0).
  { subst w1. cbn. rewrite lookup_app_r, Nat.sub_diag by lia. reflexivity. }
  unfold bind at 1. rewrite (frame_columns_run _ _ _ Hd0).
  unfold bind.
  destruct (clean_loop_run (length (heap w)) (columns d0) w1 d0 Hd0) as (Hr & _ & _).
  unfold result_of in Hr.
  destruct (for_each _ _ w1) as [[[] | e] w2]; cbn [fst] in Hr;
    destruct (clean_all d0 (columns d0)); try discriminate; try reflexivity.
  injection Hr as ->. reflexivity.
Qed.

(** The table that a successful [extract_table_manually] leaves behind
    its reference. *)
Lemma extract_table_manually_inv (html_text : string) (w w' : world num) (df : loc) :
  extract_table_manually html_text w = (OK df, w') ->
  exists table d0 d,
    find "table" (BeautifulSoup html_text) = Some table
    /\ frame_of_rows (manual_rows table) (manual_headers table) = OK d0
    /\ clean_all d0 (columns d0) = OK d
    /\ df = length (heap w)
    /\ heap w' = heap w ++ [d].
Proof.
  unfold extract_table_manually. unfold bind at 1, print, emit.
  cbv zeta. destruct (find "table" _) as [table |]; [| discriminate].
  unfold bind at 1, pd_DataFrame, bind at 1, lift.
  destruct (frame_of_rows _ _) as [d0 | e] eqn:Hd0'; [| discriminate].
  unfold alloc. cbn [heap out].
  set (w1 := World (heap w ++ [d0]) (out w ++ _)).
  assert (Hd0 : heap w1 !! length (heap w) = Some d0).
  { subst w1. cbn. rewrite lookup_app_r, Nat.sub_diag by lia. reflexivity. }
  unfold bind at 1. rewrite (frame_columns_run _ _ _ Hd0).
  unfold bind.
  destruct (clean_loop_run (length (heap w)) (columns d0) w1 d0 Hd0) as (Hr & _ & Hh).
  unfold result_of, world_after in Hr, Hh.
  destruct (for_each _ _ w1) as [[[] | e] w2]; cbn [fst snd] in Hr, Hh; [| discriminate].
  destruct (clean_all d0 (columns d0)) as [d |] eqn:Hclean; [| discriminate].
  unfold ret. intros H. injection H as <- <-.
  exists table, d0, d. split; [reflexivity |].
  split; [exact Hd0' |]. split; [exact Hclean |]. split; [reflexivity |].
  rewrite (Hh d eq_refl). subst w1. cbn [heap].
  replace (length (heap w)) with (length (heap w) + 0) by lia.
  rewrite insert_app_r. reflexivity.
Qed.

(** *** When the manual parser returns *)

Lemma traverse_total {A B} (f : A -> result B) (l : list A) :
  (forall i x, l !! i = Some x -> exists y, f x = OK y) ->
  exists l', traverse f l = OK l' /\ length l' = length l.
Proof.
  induction l as [| a l IH]; intros H; [exists []; auto |].
  destruct (H 0 a eq_refl) as (b & Hb).
  destruct IH as (bs & Hbs & Hlen); [intros i x Hx; exact (H (S i) x Hx) |].
  exists (b :: bs). cbn [traverse]. rewrite Hb, Hbs. cbn. auto.
Qed.

Lemma existsb_false_lookup {A} (p : A -> bool) (l : list A) :
  (forall i x, l !! i = Some x -> p x = false) -> existsb p l = false.
Proof.
  induction l as [| a l IH]; intros H; [reflexivity |].
  cbn. rewrite (H 0 a eq_refl), IH; [reflexivity |].
  intros i x Hx. exact (H (S i) x Hx).
Qed.

Lemma convertible_missing : convertible VNaN.
Proof. split; [reflexivity |]. exists VNaN. reflexivity. Qed.

(** One turn of the loop succeeds on a column of such cells. *)
Lemma clean_step_total (d : DataFrame num) (c : string) :
  String.eqb c "State" = false ->
  count_label c (columns d) = 1 ->
  (forall i v, cell_at d i (index_of c (columns d)) = Some v -> convertible v) ->
  exists floats,
    clean_step d c = OK (frame_setitem d c floats)
    /\ length floats = length (rows d).
Proof.
  intros Hc Hcount Hcells. unfold clean_step, frame_getitem. rewrite Hc, Hcount.
  cbn [str_accessor].
  assert (Hcol : forall i v, column (index_of c (columns d)) d !! i = Some v ->
                             convertible v).
  { intros i v. unfold column. rewrite lookup_map.
    destruct (rows d !! i) as [r |] eqn:Hr; [| discriminate].
    cbn. intros H. injection H as <-. unfold cell.
    destruct (r !! index_of c (columns d)) as [v |] eqn:Hv.
    - apply (Hcells i v). unfold cell_at. rewrite Hr. exact Hv.
    - apply convertible_missing. }
  rewrite (existsb_false_lookup is_num) by (intros i v Hv; apply (Hcol i v Hv)).
  cbn [andb].
  destruct (traverse_total float_cell
              (str_map (str_remove dollar) (column (index_of c (columns d)) d)))
    as (floats & Hfl & Hlen).
  { intros i x. unfold str_map. rewrite lookup_map.
    destruct (column _ d !! i) as [v |] eqn:Hv; [| discriminate].
    cbn. intros H. injection H as <-. apply (Hcol i v Hv). }
  exists floats. unfold astype_float. rewrite Hfl. split; [reflexivity |].
  rewrite Hlen. unfold str_map, column. rewrite !length_map. reflexivity.
Qed.

(** [df[c] = ...] leaves the cells under the other labels alone. *)
Lemma frame_setitem_other (d : DataFrame num) (c : string)
  (vals : list (value num)) (i j : nat) :
  has_label c (columns d) = true ->
  columns d !! j <> Some c ->
  length vals = length (rows d) ->
  cell_at (frame_setitem d c vals) i j = cell_at d i j.
Proof.
  intros Hl Hj Hlen. unfold frame_setitem. rewrite Hl.
  unfold cell_at. cbn [rows]. rewrite lookup_zip_with.
  destruct (rows d !! i) as [r |] eqn:Hr.
  - destruct (vals !! i) as [v |] eqn:Hv.
    + cbn. rewrite lookup_set_cells.
      destruct (columns d !! j) as [x |]; [| reflexivity].
      destruct (r !! j); [| reflexivity].
      destruct (String.eqb x c) eqn:E; [| reflexivity].
      apply String.eqb_eq in E. congruence.
    + apply lookup_ge_None in Hv. apply lookup_lt_Some in Hr. lia.
  - destruct (vals !! i); reflexivity.
Qed.

(** The loop succeeds when every column that it still has to convert is
    there once and holds such cells. *)
Lemma clean_all_total (cols : list string) :
  forall d : DataFrame num,
    (forall x, count_label x cols <= count_label x (columns d)) ->
    (forall c, In c cols -> String.eqb c "State" = false ->
               count_label c (columns d) = 1
               /\ forall i v, cell_at d i (index_of c (columns d)) = Some v ->
                              convertible v) ->
    exists d', clean_all d cols = OK d'.
Proof.
  induction cols as [| c cs IH]; intros d Hsub Hconv; [exists d; reflexivity |].
  cbn [clean_all].
  assert (Hsub' : forall x, count_label x cs <= count_label x (columns d)).
  { intros x. specialize (Hsub x). cbn [count_label] in Hsub. lia. }
  destruct (String.eqb c "State") eqn:Ec.
  - unfold clean_step. rewrite Ec. apply IH; [exact Hsub' |].
    intros c' Hc'. apply Hconv. right. exact Hc'.
  - destruct (Hconv c (or_introl eq_refl) Ec) as (Hcount & Hcells).
    destruct (clean_step_total d c Ec Hcount Hcells) as (floats & -> & Hlen).
    assert (Hl : has_label c (columns d) = true) by (apply has_label_count; lia).
    assert (Hcols : columns (frame_setitem d c floats) = columns d).
    { unfold frame_setitem. rewrite Hl. reflexivity. }
    apply IH; rewrite Hcols; [exact Hsub' |].
    intros c' Hc' Ec'.
    destruct (Hconv c' (or_intror Hc') Ec') as (Hcount' & Hcells').
    split; [exact Hcount' |]. intros i v.
    rewrite frame_setitem_other; [apply Hcells' | exact Hl | | exact Hlen].
    rewrite index_of_lookup by lia. intros E. injection E as ->.
    specialize (Hsub c). cbn [count_label] in Hsub. rewrite String.eqb_refl in Hsub.
    assert (0 < count_label c cs); [| lia].
    apply has_label_count. unfold has_label. apply existsb_exists.
    exists c. split; [exact Hc' | apply String.eqb_refl].
Qed.

Lemma padded_cell_inv (width : nat) (rs : list (list string)) (i j : nat)
  (v : value num) :
  cell_at (Frame []
             (map (fun r => map VStr r ++ replicate (width - length r) (@VNone num)) rs))
          i j = Some v ->
  v = VNone \/ exists raw s, rs !! i = Some raw /\ raw !! j = Some s /\ v = VStr s.
Proof.
  unfold cell_at. cbn [rows].
  rewrite lookup_map. destruct (rs !! i) as [raw |] eqn:Hraw; [| discriminate]. cbn.
  intros Hv. apply lookup_app_Some in Hv as [Hv | [_ Hv]].
  - rewrite lookup_map in Hv. destruct (raw !! j) as [s |] eqn:Hs; [| discriminate].
    injection Hv as <-. right. eauto.
  - apply lookup_replicate in Hv as [-> _]. left. reflexivity.
Qed.

(** The cells of the frame that [pd.DataFrame] builds: the strings of the
    rows, and [None] where a row is short. *)
Lemma frame_of_rows_cells (rs : list (list string)) (headers : list string)
  (d : DataFrame num) (i j : nat) (v : value num) :
  frame_of_rows rs headers = OK d ->
  cell_at d i j = Some v ->
  v = VNone \/ exists raw s, rs !! i = Some raw /\ raw !! j = Some s /\ v = VStr s.
Proof.
  unfold frame_of_rows. destruct rs as [| r0 rs'].
  - intros H. injection H as <-. unfold cell_at. cbn. destruct i; discriminate.
  - destruct (Nat.eqb _ _); [| discriminate].
    intros H. injection H as <-.
    exact (padded_cell_inv _ (r0 :: rs') i j v).
Qed.

(** The manual parser returns a table when the page has a table whose
    labels other than "State" are all different, whose widest data row
    has one cell per label, and whose cells under those labels are
    numeric once the [$] signs are removed. *)
Lemma extract_table_manually_returns (html_text : string) (w : world num)
  (table : node) :
  find "table" (BeautifulSoup html_text) = Some table ->
  manual_rows table = [] \/ max_width (manual_rows table) = length (manual_headers table) ->
  (forall c, In c (manual_headers table) -> String.eqb c "State" = false ->
             count_label c (manual_headers table) = 1) ->
  (forall i j raw s c,
      manual_rows table !! i = Some raw -> raw !! j = Some s ->
      manual_headers table !! j = Some c -> String.eqb c "State" = false ->
      exists x, to_float (str_remove dollar s) = Some x) ->
  result_of (extract_table_manually html_text) w = OK (length (heap w)).
Proof.
  intros Hfind Hwidth Hlabels Hnumeric.
  rewrite extract_table_manually_result, Hfind.
  destruct (frame_of_rows (manual_rows table) (manual_headers table)) as [d0 | e] eqn:Hd0.
  - destruct (frame_of_rows_spec _ _ _ Hd0) as (Hcols & _).
    destruct (clean_all_total (columns d0) d0) as (d & ->); [lia | | reflexivity].
    rewrite Hcols. intros c Hc Ec. split; [auto |].
    intros i v Hv.
    destruct (frame_of_rows_cells _ _ _ _ _ _ Hd0 Hv) as [-> | (raw & s & Hraw & Hs & ->)].
    + split; [reflexivity |]. exists VNaN. reflexivity.
    + split; [reflexivity |].
      assert (Hj : manual_headers table !! index_of c (manual_headers table) = Some c).
      { apply index_of_lookup. rewrite (Hlabels c Hc Ec). lia. }
      destruct (Hnumeric _ _ _ _ _ Hraw Hs Hj Ec) as (x & Hx).
      exists (VNum x). cbn. rewrite Hx. reflexivity.
  - exfalso. unfold frame_of_rows in Hd0.
    destruct Hwidth as [Hnil | Hw].
    + rewrite Hnil in Hd0. discriminate.
    + destruct (manual_rows table); [discriminate |].
      rewrite Hw, Nat.eqb_refl in Hd0. discriminate.
Qed.

Lemma count_label_le_refl (cols : list string) :
  forall x, count_label x cols <= count_label x cols.
Proof. intros x. lia. Qed.

(** The cell that the manual parser leaves under a label other than
    "State", for a cell of text [s] of the page. *)
Lemma manual_cell_cleaned (table : node) (d0 d : DataFrame num) (i j : nat)
  (raw : list string) (col s : string) :
  frame_of_rows (manual_rows table) (manual_headers table) = OK d0 ->
  clean_all d0 (columns d0) = OK d ->
  manual_rows table !! i = Some raw ->
  raw !! j = Some s ->
  manual_headers table !! j = Some col ->
  String.eqb col "State" = false ->
  exists v', cell_at d i j = Some v' /\ cleaned (VStr s) v'.
Proof.
  intros Hd0 Hclean Hraw Hs Hcol Hne.
  destruct (frame_of_rows_spec _ _ _ Hd0) as (Hcols & Hcells).
  destruct (clean_all_spec (columns d0) d0 d (count_label_le_refl _) Hclean)
    as (_ & Hclean_cells).
  rewrite <- Hcols in Hcol.
  destruct (Hclean_cells i j (VStr s) col (Hcells i j raw s Hraw Hs) Hcol)
    as (v' & Hv' & Hrel).
  assert (Hl : has_label col (columns d0) = true).
  { apply has_label_count. eapply count_label_lookup, Hcol. }
  rewrite Hl, Hne in Hrel. eauto.
Qed.

(** C5.  When the manual parser returns a table, a cell of the page that
    sits under a label other than "State" and reads "$" followed by a
    numeric string [t] (a string without "$" that [float] accepts) is, in
    the table, the number [float(t)]. *)
Theorem extract_table_manually_converts_prices (html_text : string)
  (w w' : world num) (df : loc) (table : node) (i j : nat) (raw : list string)
  (col t : string) (x : num) :
  extract_table_manually html_text w = (OK df, w') ->
  find "table" (BeautifulSoup html_text) = Some table ->
  manual_rows table !! i = Some raw ->
  raw !! j = Some (String dollar t) ->
  manual_headers table !! j = Some col ->
  String.eqb col "State" = false ->
  str_remove dollar t = t ->
  to_float t = Some x ->
  exists d, heap w' !! df = Some d /\ cell_at d i j = Some (VNum x).
Proof.
  intros Hrun Hfind Hraw Hs Hcol Hne Hplain Hnum.
  apply extract_table_manually_inv in Hrun
    as (table' & d0 & d & Hfind' & Hd0 & Hclean & -> & Hheap).
  rewrite Hfind in Hfind'. injection Hfind' as <-.
  exists d. split.
  - rewrite Hheap, lookup_app_r, Nat.sub_diag by lia. reflexivity.
  - destruct (manual_cell_cleaned _ _ _ _ _ _ _ _ Hd0 Hclean Hraw Hs Hcol Hne)
      as (v' & Hv' & Hrel).
    rewrite Hv'. f_equal.
    unfold cleaned in Hrel. cbn [str_cell str_remove] in Hrel.
    unfold dollar in Hrel at 1. rewrite Ascii.eqb_refl, Hplain in Hrel.
    cbn [float_cell] in Hrel. rewrite Hnum in Hrel. congruence.
Qed.

(** C6, as amended.  When a cell of the page that sits under a label other
    than "State" is not numeric once its "$" signs are removed, the manual
    parser raises: the call returns no table at all, the other rows
    included. *)
Theorem extract_table_manually_garbage_is_fatal (html_text : string)
  (w : world num) (table : node) (i j : nat) (raw : list string) (col s : string) :
  find "table" (BeautifulSoup html_text) = Some table ->
  manual_rows table !! i = Some raw ->
  raw !! j = Some s ->
  manual_headers table !! j = Some col ->
  String.eqb col "State" = false ->
  to_float (str_remove dollar s) = None ->
  exists e, result_of (extract_table_manually html_text) w = Raise e.
Proof.
  intros Hfind Hraw Hs Hcol Hne Hbad.
  rewrite extract_table_manually_result, Hfind.
  destruct (frame_of_rows _ _) as [d0 | e] eqn:Hd0; [| eauto].
  destruct (clean_all d0 (columns d0)) as [d | e] eqn:Hclean; [| eauto].
  destruct (manual_cell_cleaned _ _ _ _ _ _ _ _ Hd0 Hclean Hraw Hs Hcol Hne)
    as (v' & _ & Hrel).
  unfold cleaned in Hrel. cbn [str_cell float_cell] in Hrel.
  rewrite Hbad in Hrel. discriminate.
Qed.

(** C10, as amended.  The labels of the table that the manual parser
    returns are the trimmed texts of all the [<th>] tags below the first
    [<table>], wherever they are; and when there is a data row and the
    number of these tags is not the number of cells of the widest data
    row, the parser raises a [ValueError].  (A data row with fewer cells
    than that is filled with [None].) *)
Theorem extract_table_manually_header_count (html_text : string) (w : world num)
  (table : node) :
  find "table" (BeautifulSoup html_text) = Some table ->
  (forall df w',
      extract_table_manually html_text w = (OK df, w') ->
      exists d, heap w' !! df = Some d
                /\ columns d = map (fun th => strip (get_text th))
                                   (List.filter (is_tag_in ["th"]) (descendants table)))
  /\ (manual_rows table <> [] ->
      max_width (manual_rows table)
        <> length (List.filter (is_tag_in ["th"]) (descendants table)) ->
      exists msg, result_of (extract_table_manually html_text) w = Raise (ValueError msg)).
Proof.
  intros Hfind. split.
  - intros df w' Hrun.
    apply extract_table_manually_inv in Hrun
      as (table' & d0 & d & Hfind' & Hd0 & Hclean & -> & Hheap).
    rewrite Hfind in Hfind'. injection Hfind' as <-.
    exists d. split.
    + rewrite Hheap, lookup_app_r, Nat.sub_diag by lia. reflexivity.
    + destruct (clean_all_spec _ _ _ (count_label_le_refl _) Hclean) as (-> & _).
      apply (frame_of_rows_spec _ _ _ Hd0).
  - intros Hrows Hwidth.
    rewrite extract_table_manually_result, Hfind.
    unfold frame_of_rows. destruct (manual_rows table) as [| r rs] eqn:Er; [congruence |].
    unfold manual_headers. rewrite length_map.
    destruct (Nat.eqb _ _) eqn:E; [| eauto].
    apply Nat.eqb_eq in E. unfold find_all in E. congruence.
Qed.

(** *** The primary path *)








Lemma lookup_snoc_new {A} (l : list A) (x : A) : (l ++ [x]) !! length l = Some x.
Proof. rewrite lookup_app_r, Nat.sub_diag by lia. reflexivity. Qed.



(** ** Further properties *)

(** *** Events of one kind *)

Section Only.
Variable p : event num -> bool.
Hypothesis p_print : forall line, p (EvPrint line) = true.

Lemma only_bind {A B} (m : M num A) (k : A -> M num B) :
  only p m -> (forall a, only p (k a)) -> only p (bind m k).
Proof.
  intros Hm Hk. unfold only.
  eapply emits_bind; [exact Hm | exact Hk | |]; cbn beta.
  - intros _ l1 _ l2 H1 H2. rewrite forallb_app, H1, H2. reflexivity.
  - auto.
Qed.

Lemma only_try_except {A} (m : M num A) (h : exn -> M num A) :
  only p m -> (forall e, only p (h e)) -> only p (try_except m h).
Proof.
  intros Hm Hh. unfold only.
  eapply emits_try_except; [exact Hm | exact Hh | |]; cbn beta.
  - auto.
  - intros _ l1 _ l2 H1 H2. rewrite forallb_app, H1, H2. reflexivity.
Qed.

Lemma only_silent {A} (m : M num A) :
  (forall w, out (snd (m w)) = out w) -> only p m.
Proof. intros H. apply emits_silent; auto. Qed.

Lemma only_load (l : loc) : only p (@load num l).
Proof.
  apply only_silent. intros w. unfold load. destruct (heap w !! l); reflexivity.
Qed.

Lemma only_print (line : list (piece num)) : only p (print line).
Proof. intros w. exists [EvPrint line]. cbn. rewrite p_print. auto. Qed.

Lemma only_for_each {A} (l : list A) (body : A -> M num unit) :
  (forall x, only p (body x)) -> only p (for_each l body).
Proof.
  intros Hbody. induction l as [| x l IH]; cbn [for_each].
  - apply only_silent. reflexivity.
  - apply only_bind; auto.
Qed.

Ltac only_step :=
  match goal with
  | |- only _ (bind _ _) => apply only_bind; [| intros ?]
  | |- only _ (try_except _ _) => apply only_try_except; [| intros ?]
  | |- only _ (for_each _ _) => apply only_for_each; intros ?
  | |- only _ (print _) => apply only_print
  | |- only _ (load _) => apply only_load
  | |- only _ (ret _) => apply only_silent; reflexivity
  | |- only _ (raise _) => apply only_silent; reflexivity
  | |- only _ (lift _) => apply only_silent; reflexivity
  | |- only _ history => apply only_silent; reflexivity
  | |- only _ (alloc _) => apply only_silent; reflexivity
  | |- only _ (store _ _) => apply only_silent; reflexivity
  | |- only _ (if ?b then _ else _) => destruct b
  | |- only _ (match ?x with _ => _ end) => destruct x
  | |- only _ (let _ := _ in _) => cbv zeta
  end.

Ltac only_auto := repeat only_step.

Lemma only_frame_columns df : only p (frame_columns df).
Proof. unfold frame_columns. only_auto. Qed.

Lemma only_getitem df name : only p (getitem df name).
Proof. unfold getitem. only_auto. Qed.

Lemma only_setitem df name vals : only p (setitem df name vals).
Proof. unfold setitem. only_auto. Qed.

Lemma only_len df : only p (len df).
Proof. unfold len. only_auto. Qed.

Lemma only_extract_table_manually html : only p (extract_table_manually html).
Proof.
  unfold extract_table_manually, pd_DataFrame, clean_numeric.
  only_auto; auto using only_frame_columns, only_getitem, only_setitem.
Qed.

Lemma only_clean_state df : only p (clean_state df).
Proof.
  unfold clean_state. only_auto; auto using only_getitem, only_setitem.
Qed.

Lemma only_extract_table_data html : only p (extract_table_data html).
Proof.
  unfold extract_table_data, extract_table_data_try, set_columns, rename.
  only_auto;
    auto using only_frame_columns, only_clean_state, only_extract_table_manually.
Qed.

Lemma only_print_table_found df : only p (print_table_found df).
Proof. unfold print_table_found. only_auto. Qed.

Lemma only_merge_data gas_df ev_df : only p (merge_data gas_df ev_df).
Proof.
  unfold merge_data, strip_state, pd_merge_left.
  only_auto; auto using only_getitem, only_setitem.
Qed.

Lemma only_main_except e : only p (main_except e).
Proof. unfold main_except. only_auto. Qed.

Hypothesis p_patch : forall url headers body answer,
  p (EvPatch url headers body answer) = true.

Lemma only_http_patch url headers body : only p (http_patch url headers body).
Proof.
  intros w. eexists. split; [reflexivity |]. cbn. rewrite p_patch. reflexivity.
Qed.

Lemma only_update_github_gist df token gist_id :
  only p (update_github_gist df token gist_id).
Proof.
  unfold update_github_gist, subscript.
  repeat first [ apply only_http_patch | only_step ].
Qed.

End Only.

(** *** Monitors *)

Section Monitors.
Context {S : Type}.
Variable step : S -> event num -> option S.

Lemma monitor_app (s : S) (l1 l2 : list (event num)) :
  monitor step s (l1 ++ l2) =
    match monitor step s l1 with
    | Some s' => monitor step s' l2
    | None => None
    end.
Proof.
  revert s. induction l1 as [| e l1 IH]; intros s; cbn; [reflexivity |].
  destruct (step s e); auto.
Qed.

Lemma tracks_bind {A B} (s : S) (Q1 : result A -> S -> Prop)
  (Q : result B -> S -> Prop) (m : M num A) (k : A -> M num B) :
  tracks step s Q1 m ->
  (forall a s1, Q1 (OK a) s1 -> tracks step s1 Q (k a)) ->
  (forall e s1, Q1 (Raise e) s1 -> Q (Raise e) s1) ->
  tracks step s Q (bind m k).
Proof.
  intros Hm Hk Hraise w. unfold bind.
  destruct (Hm w) as (l1 & Hl1 & s1 & Hs1 & HQ1).
  destruct (m w) as [[a | e] w1]; cbn [fst snd] in *.
  - destruct (Hk a s1 HQ1 w1) as (l2 & Hl2 & s2 & Hs2 & HQ2).
    exists (l1 ++ l2). split.
    + rewrite Hl2, Hl1. symmetry. apply app_assoc.
    + exists s2. rewrite monitor_app, Hs1. auto.
  - exists l1. split; [exact Hl1 |]. exists s1. auto.
Qed.

Lemma tracks_try_except {A} (s : S) (Q1 Q : result A -> S -> Prop) (m : M num A)
  (h : exn -> M num A) :
  tracks step s Q1 m ->
  (forall a s1, Q1 (OK a) s1 -> Q (OK a) s1) ->
  (forall e s1, Q1 (Raise e) s1 -> tracks step s1 Q (h e)) ->
  tracks step s Q (try_except m h).
Proof.
  intros Hm Hok Hh w. unfold try_except.
  destruct (Hm w) as (l1 & Hl1 & s1 & Hs1 & HQ1).
  destruct (m w) as [[a | e] w1]; cbn [fst snd] in *.
  - exists l1. split; [exact Hl1 |]. exists s1. auto.
  - destruct (Hh e s1 HQ1 w1) as (l2 & Hl2 & s2 & Hs2 & HQ2).
    exists (l1 ++ l2). split.
    + rewrite Hl2, Hl1. symmetry. apply app_assoc.
    + exists s2. rewrite monitor_app, Hs1. auto.
Qed.

Lemma tracks_weaken {A} (s : S) (Q Q' : result A -> S -> Prop) (m : M num A) :
  tracks step s Q m -> (forall r s', Q r s' -> Q' r s') -> tracks step s Q' m.
Proof.
  intros Hm HQ w. destruct (Hm w) as (l & Hl & s' & Hs' & HQs).
  exists l. split; [exact Hl |]. exists s'. auto.
Qed.

(** Events that leave the state [s] as it is. *)
Lemma monitor_steady (p : event num -> bool) (s : S) (l : list (event num)) :
  (forall e, p e = true -> step s e = Some s) ->
  forallb p l = true -> monitor step s l = Some s.
Proof.
  intros Hp. induction l as [| e l IH]; cbn; [reflexivity |].
  intros H. apply andb_true_iff in H as [He Hl]. rewrite (Hp e He). auto.
Qed.

Lemma tracks_only {A} (p : event num -> bool) (s : S) (m : M num A) :
  (forall e, p e = true -> step s e = Some s) ->
  only p m -> tracks step s (fun _ s' => s' = s) m.
Proof.
  intros Hp Hm w. destruct (Hm w) as (l & Hl & Hall).
  exists l. split; [exact Hl |]. exists s. split; [| reflexivity].
  apply (monitor_steady p); assumption.
Qed.

(** A printed line, which never raises. *)
Lemma tracks_print (s : S) (line : list (piece num)) :
  step s (EvPrint line) = Some s ->
  tracks step s (fun r s' => r = OK tt /\ s' = s) (print line).
Proof.
  intros Hs w. exists [EvPrint line]. split; [reflexivity |].
  exists s. cbn. rewrite Hs. auto.
Qed.

End Monitors.

(** *** The orchestrator: how a run ends *)

Lemma main_except_returns (e : exn) (w : world num) :
  result_of (main_except e) w = OK tt.
Proof.
  unfold result_of. destruct e; try reflexivity.
  unfold main_except, bind, print, emit, ret. cbn [fst snd].
  destruct (status_code r =? 403)%Z; reflexivity.
Qed.

(** X1.  [main] never raises: whatever the network, the parsers and the
    tables do, an exception of the run is handled by one of the two
    [except] clauses, whose prints cannot fail, and [main] returns. *)
Theorem main_never_raises (w : world num) : result_of main w = OK tt.
Proof.
  unfold result_of, main, try_except.
  destruct (main_try w) as [[[] | e] w1] eqn:E; cbn [fst].
  - reflexivity.
  - apply main_except_returns.
Qed.

(** *** The orchestrator: the crawl delay *)

Ltac only_closed :=
  repeat match goal with
  | |- only _ (bind _ _) => apply only_bind; [| intros ?]
  | |- only _ (print _) => apply only_print; intros; reflexivity
  | |- only _ (load _) => apply only_load
  | |- only _ (len _) => apply only_len
  | |- only _ (frame_columns _) => apply only_frame_columns
  | |- only _ (getitem _ _) => apply only_getitem
  | |- only _ (setitem _ _ _) => apply only_setitem
  | |- only _ (extract_table_data _) =>
      apply only_extract_table_data; intros; reflexivity
  | |- only _ (print_table_found _) =>
      apply only_print_table_found; intros; reflexivity
  | |- only _ (merge_data _ _) => apply only_merge_data
  | |- only _ (main_except _) => apply only_main_except; intros; reflexivity
  | |- only _ (update_github_gist _ _ _) =>
      apply only_update_github_gist; intros; reflexivity
  | |- only _ (ret _) => apply only_silent; reflexivity
  | |- only _ (raise _) => apply only_silent; reflexivity
  | |- only _ (lift _) => apply only_silent; reflexivity
  | |- only _ history => apply only_silent; reflexivity
  | |- only _ (if ?b then _ else _) => destruct b
  | |- only _ (match ?x with _ => _ end) => destruct x
  end.

Lemma delay_idle (s : option nat) (e : event num) :
  is_idle e = true -> delay_step s e = Some s.
Proof. destruct e; cbn; congruence. Qed.

Lemma delay_only_idle {A} (s : option nat) (m : M num A) :
  only is_idle m -> tracks delay_step s (fun _ s' => s' = s) m.
Proof. apply tracks_only. intros e. apply delay_idle. Qed.

(** The request of [make_respectful_request] is accepted as a first GET
    and after ten seconds, and the count starts again. *)
Lemma delay_make_respectful_request (url : string) (s : option nat) :
  s = None \/ s = Some 10 ->
  tracks delay_step s (fun _ s' => s' = Some 0) (make_respectful_request url).
Proof.
  intros Hs w.
  unfold make_respectful_request, bind, print, emit, http_get, raise_for_status,
    ret, raise.
  cbn [out heap fst snd].
  destruct (requests_get _ url HEADERS) as [r | e]; cbn [out heap fst snd].
  - destruct ((400 <=? status_code r)%Z && (status_code r <? 600)%Z);
      cbn [out heap fst snd]; eexists; repeat rewrite <- app_assoc;
      (split; [reflexivity |]); exists (Some 0);
      (split; [destruct Hs as [-> | ->]; reflexivity | reflexivity]).
  - eexists; repeat rewrite <- app_assoc; (split; [reflexivity |]);
      exists (Some 0); (split; [destruct Hs as [-> | ->]; reflexivity | reflexivity]).
Qed.

(** The countdown loop: a line and one second of sleep per turn. *)
Lemma countdown_run (l : list Z) (w : world num) :
  for_each l (fun i =>
    print [Lit "  Waiting... "; PInt i; Lit " seconds remaining."] ;; sleep 1) w
  = (OK tt,
     World (heap w)
       (out w ++ flat_map (fun i =>
          [EvPrint [Lit "  Waiting... "; PInt i; Lit " seconds remaining."];
           EvSleep 1]) l)).
Proof.
  revert w. induction l as [| i l IH]; intros w; cbn [for_each flat_map].
  - unfold ret. rewrite app_nil_r. destruct w; reflexivity.
  - unfold bind at 1. unfold bind at 1, print, emit, sleep, emit.
    cbn [fst snd heap out]. rewrite IH. cbn [heap out].
    repeat rewrite <- app_assoc. reflexivity.
Qed.

Ltac delay_idle_then s :=
  eapply tracks_bind;
  [ apply (delay_only_idle s); only_closed
  | intros ? ? E; cbn beta in E; subst
  | intros; exact I ].

Lemma delay_scrape_aaa_gas_prices (url : string) :
  tracks delay_step None
    (fun r s' => match r with OK _ => s' = Some 0 | Raise _ => True end)
    (scrape_aaa_gas_prices url).
Proof.
  unfold scrape_aaa_gas_prices.
  delay_idle_then (@None nat).
  eapply tracks_bind;
    [ apply delay_make_respectful_request; auto
    | intros ? ? E; cbn beta in E; subst
    | intros; exact I ].
  eapply tracks_weaken; [apply (delay_only_idle (Some 0)); only_closed |].
  intros [] ?; auto.
Qed.

Lemma delay_scrape_aaa_ev_prices (url : string) :
  tracks delay_step (Some 0) (fun _ _ => True) (scrape_aaa_ev_prices url).
Proof.
  unfold scrape_aaa_ev_prices.
  delay_idle_then (Some 0).
  delay_idle_then (Some 0).
  eapply (tracks_bind _ _ (fun _ s' => s' = Some 10));
    [| intros ? ? E; cbn beta in E; subst | intros; exact I].
  { intros w. rewrite countdown_run. eexists. split; [reflexivity |].
    exists (Some 10). split; reflexivity. }
  delay_idle_then (Some 10).
  eapply tracks_bind;
    [ apply delay_make_respectful_request; auto
    | intros ? ? E; cbn beta in E; subst
    | intros; exact I ].
  eapply tracks_weaken; [apply (delay_only_idle (Some 0)); only_closed | auto].
Qed.

Lemma delay_main : tracks delay_step None (fun _ _ => True) main.
Proof.
  unfold main.
  eapply (tracks_try_except _ _ (fun _ _ => True)); [| auto |].
  - unfold main_try.
    do 4 delay_idle_then (@None nat).
    eapply tracks_bind;
      [ apply delay_scrape_aaa_gas_prices
      | intros ? ? E; cbn beta iota in E; subst
      | intros; exact I ].
    eapply tracks_bind;
      [ apply delay_scrape_aaa_ev_prices | intros ev_df s1 _ | intros; exact I ].
    eapply tracks_weaken; [apply (delay_only_idle s1); only_closed | auto].
  - intros e s1 _.
    eapply tracks_weaken; [apply (delay_only_idle s1); only_closed | auto].
Qed.

Lemma delay_after_get (k : nat) (mid l2 : list (event num)) url headers answer s' :
  monitor delay_step (Some k) (mid ++ EvGet url headers answer :: l2) = Some s' ->
  existsb is_get mid = false ->
  k + slept mid = 10.
Proof.
  revert k. induction mid as [| e mid IH]; intros k; cbn [app monitor].
  - cbn. destruct (Nat.eqb k 10) eqn:E; [| discriminate].
    apply Nat.eqb_eq in E. intros _ _. cbn. lia.
  - destruct e; cbn [delay_step option_map existsb is_get orb slept];
      try discriminate; intros Hm Hno.
    + apply (IH k Hm Hno).
    + specialize (IH (k + seconds) Hm Hno). lia.
    + apply (IH k Hm Hno).
Qed.

(** X2.  The crawl delay.  In every run of [main], between a GET and the
    next GET of the run the program sleeps ten seconds, no more and no
    less, whatever the first request and the work on its answer took. *)
Theorem main_waits_between_fetches (w : world num)
  (before mid rest : list (event num)) (u1 u2 : string) (h1 h2 : http_headers)
  (a1 a2 : outcome) :
  new_events main w = before ++ EvGet u1 h1 a1 :: mid ++ EvGet u2 h2 a2 :: rest ->
  existsb is_get mid = false ->
  slept mid = 10.
Proof.
  unfold new_events, world_after.
  destruct (delay_main w) as (l & Hl & s' & Hs' & _).
  rewrite Hl, drop_app_length. intros -> Hmid.
  rewrite monitor_app in Hs'.
  destruct (monitor delay_step None before) as [s |]; [| discriminate].
  cbn [monitor] in Hs'.
  destruct (delay_step s (EvGet u1 h1 a1)) as [s1 |] eqn:E1; [| discriminate].
  assert (s1 = Some 0) as ->.
  { destruct s as [k |]; cbn in E1; [destruct (Nat.eqb k 10) |]; congruence. }
  exact (delay_after_get 0 mid rest u2 h2 a2 s' Hs' Hmid).
Qed.

(** *** The orchestrator: the network calls of a run *)

Lemma only_sleep (p : event num -> bool) (n : nat) :
  p (EvSleep n) = true -> only p (sleep n).
Proof. intros Hp w. exists [EvSleep n]. cbn. rewrite Hp. auto. Qed.

Ltac only_local :=
  repeat match goal with
  | |- only _ (for_each _ _) => apply only_for_each; intros ?
  | |- only _ (sleep _) => apply only_sleep; reflexivity
  | _ => progress only_closed
  end.

Lemma order_local (calls : list (event num)) (e : event num) :
  is_local e = true -> order_step calls e = Some calls.
Proof.
  unfold is_local, order_step. destruct (is_request e); [discriminate | reflexivity].
Qed.

Lemma order_only_local {A} (calls : list (event num)) (m : M num A) :
  only is_local m -> tracks order_step calls (fun _ s' => s' = calls) m.
Proof. apply tracks_only. intros e. apply order_local. Qed.

Lemma same_headers : bool_decide (HEADERS = HEADERS) = true.
Proof. apply bool_decide_eq_true_2. reflexivity. Qed.

Lemma allowed_first (a : outcome) :
  allowed [@EvGet num (TARGET_URLS "gas_prices") HEADERS a] = true.
Proof.
  destruct a; cbn [allowed]; rewrite String.eqb_refl, same_headers; reflexivity.
Qed.

Lemma allowed_second (r1 : response) (a : outcome) :
  passes r1 = true ->
  allowed [@EvGet num (TARGET_URLS "gas_prices") HEADERS (Answered r1);
           EvGet (TARGET_URLS "ev_prices") HEADERS a] = true.
Proof.
  intros H1. destruct a; cbn [allowed];
    rewrite !String.eqb_refl, !same_headers, H1; reflexivity.
Qed.

Lemma allowed_third (r1 r2 : response) headers body answer :
  passes r1 = true -> passes r2 = true ->
  allowed [@EvGet num (TARGET_URLS "gas_prices") HEADERS (Answered r1);
           EvGet (TARGET_URLS "ev_prices") HEADERS (Answered r2);
           EvPatch ("https://api.github.com/gists/" +:+ GIST_ID) headers body answer]
  = true.
Proof.
  intros H1 H2. cbn [allowed].
  rewrite !String.eqb_refl, !same_headers, H1, H2. reflexivity.
Qed.

Lemma order_make_respectful_request (url : string) (calls : list (event num)) :
  (forall a, allowed (calls ++ [EvGet url HEADERS a]) = true) ->
  tracks order_step calls
    (fun r s' =>
       match r with
       | OK _ => exists resp, s' = calls ++ [EvGet url HEADERS (Answered resp)]
                              /\ passes resp = true
       | Raise _ => s' <> []
       end)
    (make_respectful_request url).
Proof.
  intros Hallowed w.
  unfold make_respectful_request, bind, print, emit, http_get, raise_for_status,
    ret, raise.
  cbn [out heap fst snd].
  destruct (requests_get _ url HEADERS) as [r | e]; cbn [out heap fst snd].
  - destruct ((400 <=? status_code r)%Z && (status_code r <? 600)%Z) eqn:Hbad;
      cbn [out heap fst snd]; eexists; repeat rewrite <- app_assoc;
      (split; [reflexivity |]); exists (calls ++ [EvGet url HEADERS (Answered r)]);
      (split; [cbn; unfold order_step; cbn [is_request]; rewrite Hallowed; reflexivity |]).
    + intros E. destruct calls; discriminate.
    + exists r. unfold passes. rewrite Hbad. auto.
  - eexists; repeat rewrite <- app_assoc; (split; [reflexivity |]);
      exists (calls ++ [EvGet url HEADERS (Failed e)]);
      (split; [cbn; unfold order_step; cbn [is_request]; rewrite Hallowed; reflexivity |]).
    intros E. destruct calls; discriminate.
Qed.

Ltac order_print_then :=
  eapply tracks_bind;
  [ apply tracks_print; reflexivity
  | intros ? ? [_ ->]
  | intros ? ? [E _]; discriminate E ].

Ltac order_local_then s :=
  eapply tracks_bind;
  [ apply (order_only_local s); only_local
  | intros ? ? E; cbn beta in E; subst
  | intros ? ? E; cbn beta in E; subst; discriminate ].

Lemma order_scrape_aaa_gas_prices :
  tracks order_step []
    (fun r s' =>
       match r with
       | OK _ => exists resp,
           s' = [EvGet (TARGET_URLS "gas_prices") HEADERS (Answered resp)]
           /\ passes resp = true
       | Raise _ => s' <> []
       end)
    (scrape_aaa_gas_prices (TARGET_URLS "gas_prices")).
Proof.
  unfold scrape_aaa_gas_prices.
  order_print_then.
  eapply tracks_bind;
    [ apply order_make_respectful_request; intros ?; apply allowed_first
    | intros response s1 (resp & -> & Hresp)
    | auto ].
  eapply tracks_weaken; [apply order_only_local; only_local |].
  cbn beta. intros [? | ?] s' ->; [eauto | discriminate].
Qed.

Lemma order_scrape_aaa_ev_prices (r1 : response) :
  passes r1 = true ->
  tracks order_step [EvGet (TARGET_URLS "gas_prices") HEADERS (Answered r1)]
    (fun r s' =>
       match r with
       | OK _ => exists r2,
           s' = [EvGet (TARGET_URLS "gas_prices") HEADERS (Answered r1);
                 EvGet (TARGET_URLS "ev_prices") HEADERS (Answered r2)]
           /\ passes r2 = true
       | Raise _ => s' <> []
       end)
    (scrape_aaa_ev_prices (TARGET_URLS "ev_prices")).
Proof.
  intros H1. unfold scrape_aaa_ev_prices.
  do 4 order_local_then [@EvGet num (TARGET_URLS "gas_prices") HEADERS (Answered r1)].
  eapply tracks_bind;
    [ apply order_make_respectful_request; intros ?; apply allowed_second, H1
    | intros response s1 (r2 & -> & H2)
    | auto ].
  eapply tracks_weaken; [apply order_only_local; only_local |].
  cbn beta. intros [? | ?] s' ->; [eauto | discriminate].
Qed.

Lemma order_update_github_gist (r1 r2 : response) (df : loc) (token : option string) :
  passes r1 = true -> passes r2 = true ->
  tracks order_step
    [EvGet (TARGET_URLS "gas_prices") HEADERS (Answered r1);
     EvGet (TARGET_URLS "ev_prices") HEADERS (Answered r2)]
    (fun _ s' => s' <> [])
    (update_github_gist df token GIST_ID).
Proof.
  intros H1 H2. unfold update_github_gist.
  set (calls := [EvGet (TARGET_URLS "gas_prices") HEADERS (Answered r1);
                 EvGet (TARGET_URLS "ev_prices") HEADERS (Answered r2)]).
  order_local_then calls.
  order_local_then calls.
  order_local_then calls.
  cbv zeta.
  eapply (tracks_try_except _ _ (fun _ s' => s' <> [])); [| auto |].
  - eapply (tracks_bind _ _ (fun _ s' => s' <> [])); [| | auto].
    + intros w. eexists. split; [reflexivity |]. eexists. split; [| shelve].
      cbn [monitor]. unfold order_step. cbn [is_request].
      subst calls. cbn [app]. rewrite (allowed_third r1 r2) by assumption.
      reflexivity.
      Unshelve. discriminate.
    + intros answer s1 Hs1.
      eapply tracks_weaken;
        [apply (order_only_local s1); unfold subscript; only_local | ].
      cbn beta. intros _ s' ->. exact Hs1.
  - intros e s1 Hs1.
    eapply tracks_weaken; [apply (order_only_local s1); only_local |].
    cbn beta. intros _ s' ->. exact Hs1.
Qed.

Lemma order_main : tracks order_step [] (fun _ s' => s' <> []) main.
Proof.
  unfold main.
  eapply (tracks_try_except _ _ (fun _ s' => s' <> [])); [| auto |].
  - unfold main_try.
    do 4 order_print_then.
    eapply tracks_bind;
      [ apply order_scrape_aaa_gas_prices
      | intros gas_df s1 (r1 & -> & H1)
      | auto ].
    eapply tracks_bind;
      [ apply (order_scrape_aaa_ev_prices r1 H1)
      | intros ev_df s1 (r2 & -> & H2)
      | auto ].
    do 11 order_local_then
      [@EvGet num (TARGET_URLS "gas_prices") HEADERS (Answered r1);
       EvGet (TARGET_URLS "ev_prices") HEADERS (Answered r2)].
    eapply tracks_bind;
      [ apply (order_update_github_gist r1 r2 _ _ H1 H2)
      | intros raw_url s1 Hs1
      | auto ].
    eapply tracks_weaken; [apply (order_only_local s1); only_local |].
    cbn beta. intros _ s' ->. exact Hs1.
  - intros e s1 Hs1.
    eapply tracks_weaken; [apply (order_only_local s1); only_local |].
    cbn beta. intros _ s' ->. exact Hs1.
Qed.

Lemma order_monitor_calls (l : list (event num)) :
  forall calls calls',
    monitor order_step calls l = Some calls' ->
    calls' = calls ++ List.filter is_request l
    /\ (allowed calls = true -> allowed calls' = true).
Proof.
  induction l as [| e l IH]; intros calls calls'; cbn [monitor List.filter].
  - intros H. injection H as <-. rewrite app_nil_r. auto.
  - unfold order_step at 1. destruct (is_request e).
    + destruct (allowed (calls ++ [e])) eqn:Ha; [| discriminate].
      intros H. destruct (IH _ _ H) as (-> & Hallowed).
      split; [rewrite <- app_assoc; reflexivity | auto].
    + apply IH.
Qed.

Ltac split_allowed H :=
  repeat match type of H with
         | _ && _ = true => let H' := fresh in apply andb_true_iff in H as [H H']
         end;
  repeat match goal with
         | E : String.eqb _ _ = true |- _ => apply String.eqb_eq in E
         | E : bool_decide _ = true |- _ => apply bool_decide_eq_true_1 in E
         end;
  subst.

(** The lists of calls that are allowed, spelled out. *)
Lemma allowed_shapes (calls : list (event num)) :
  allowed calls = true ->
  calls <> [] ->
  (exists a1, calls = [EvGet (TARGET_URLS "gas_prices") HEADERS a1])
  \/ (exists r1 a2,
        passes r1 = true
        /\ calls = [EvGet (TARGET_URLS "gas_prices") HEADERS (Answered r1);
                    EvGet (TARGET_URLS "ev_prices") HEADERS a2])
  \/ (exists r1 r2 headers body a3,
        passes r1 = true /\ passes r2 = true
        /\ calls = [EvGet (TARGET_URLS "gas_prices") HEADERS (Answered r1);
                    EvGet (TARGET_URLS "ev_prices") HEADERS (Answered r2);
                    EvPatch ("https://api.github.com/gists/" +:+ GIST_ID)
                            headers body a3]).
Proof.
  intros H Hne.
  destruct calls as [| e1 [| e2 [| e3 [| e4 rest]]]]; [congruence | | | |].
  - destruct e1 as [| | u1 h1 a1 |]; try discriminate H.
    left. exists a1. destruct a1; cbn [allowed] in H; split_allowed H; reflexivity.
  - destruct e1 as [| | u1 h1 [r1 | x1] |]; try discriminate H;
      destruct e2 as [| | u2 h2 a2 |]; try discriminate H.
    right. left. exists r1, a2.
    destruct a2; cbn [allowed] in H; split_allowed H; auto.
  - destruct e1 as [| | u1 h1 [r1 | x1] |]; try discriminate H;
      destruct e2 as [| | u2 h2 [r2 | x2] |]; try discriminate H;
      destruct e3 as [| | | u3 h3 b3 a3]; try discriminate H.
    right. right. exists r1, r2, h3, b3, a3.
    cbn [allowed] in H; split_allowed H; auto.
  - destruct e1 as [| | u1 h1 [r1 | x1] |]; try discriminate H;
      destruct e2 as [| | u2 h2 [r2 | x2] |]; try discriminate H;
      destruct e3 as [| | | u3 h3 b3 a3]; discriminate H.
Qed.

(** X3.  The network calls of a run.  Whatever happens, a run of [main]
    makes, in this order: the GET of the fuel page; after it, and only if
    a response came that [raise_for_status] lets through, the GET of the EV
    page; after both, and only if such a response came again, one PATCH of
    the gist.  It makes no other call: a failed fetch is never retried,
    and nothing is published after a failed fetch. *)
Theorem main_network_calls (w : world num) :
  let calls := List.filter is_request (new_events main w) in
  (exists a1, calls = [EvGet (TARGET_URLS "gas_prices") HEADERS a1])
  \/ (exists r1 a2,
        passes r1 = true
        /\ calls = [EvGet (TARGET_URLS "gas_prices") HEADERS (Answered r1);
                    EvGet (TARGET_URLS "ev_prices") HEADERS a2])
  \/ (exists r1 r2 headers body a3,
        passes r1 = true /\ passes r2 = true
        /\ calls = [EvGet (TARGET_URLS "gas_prices") HEADERS (Answered r1);
                    EvGet (TARGET_URLS "ev_prices") HEADERS (Answered r2);
                    EvPatch ("https://api.github.com/gists/" +:+ GIST_ID)
                            headers body a3]).
Proof.
  intros calls. subst calls. unfold new_events, world_after.
  destruct (order_main w) as (l & Hl & calls & Hcalls & Hne).
  rewrite Hl, drop_app_length.
  destruct (order_monitor_calls l [] calls Hcalls) as (-> & Hallowed).
  cbn [app] in *. apply allowed_shapes; auto.
Qed.

(** *** The publisher: what it sends and what it returns *)

Lemma filter_request_prints (l : list (event num)) :
  forallb is_print l = true -> List.filter is_request l = [].
Proof.
  induction l as [| e l IH]; [reflexivity |].
  cbn [forallb List.filter]. intros H. apply andb_true_iff in H as [He Hl].
  destruct e; try discriminate He. cbn. auto.
Qed.

(** One run of the publisher on a table that exists. *)
Lemma update_github_gist_run (df : loc) (token : option string) (gist_id : string)
  (w : world num) (d : DataFrame num) :
  heap w !! df = Some d ->
  let h := out w ++ [EvPrint [Lit nl; Lit "--- Updating GitHub Gist ---"]] in
  let body := Payload ("AAA Fuel & EV Price Data - Updated " +:+ now h) (now h)
                      (to_dict_records d) in
  let url := "https://api.github.com/gists/" +:+ gist_id in
  let headers := [("Authorization", "token " +:+ fstr token);
                  ("Accept", "application/vnd.github+json")] in
  let answer := requests_patch h url headers body in
  exists lines,
    update_github_gist df token gist_id w
    = (published answer,
       World (heap w) (out w ++ EvPrint [Lit nl; Lit "--- Updating GitHub Gist ---"]
                             :: EvPatch url headers body answer :: lines))
    /\ forallb is_print lines = true
    /\ forallb is_plain lines = true.
Proof.
  intros Hd h body url headers answer. subst h body url headers answer.
  unfold update_github_gist.
  unfold bind at 1. unfold print at 1, emit at 1. cbn [out heap fst snd].
  unfold bind at 1. unfold load at 1. cbn [out heap]. rewrite Hd.
  unfold bind at 1. unfold history at 1. cbn [out heap].
  unfold try_except, bind at 1, http_patch. cbn [out heap].
  destruct (requests_patch _ _ _ _) as [r doc | e]; cbn [fst snd published].
  - destruct (status_code r =? 200)%Z.
    + destruct doc as [[[h|] [u|]] |]; eexists;
        unfold bind, print, emit, subscript, ret, raise;
        cbn [fst snd out heap html_url raw_url is_RequestException];
        repeat rewrite <- app_assoc; cbn [app]; (split; [| split]; reflexivity).
    + eexists; unfold bind, print, emit, ret; cbn [fst snd out heap];
        repeat rewrite <- app_assoc; cbn [app]; (split; [| split]; reflexivity).
  - destruct e; eexists; unfold bind, print, emit, ret, raise;
      cbn [fst snd out heap is_RequestException];
      repeat rewrite <- app_assoc; cbn [app]; (split; [| split]; reflexivity).
Qed.

Lemma dict_get_set (c k : string) (v : value num) (d : list (string * value num)) :
  dict_get c (dict_set k v d) = if String.eqb k c then Some v else dict_get c d.
Proof.
  induction d as [| [k' v'] d IH]; cbn [dict_set dict_get]; [reflexivity |].
  destruct (String.eqb k' k) eqn:Ek; cbn [dict_get].
  - apply String.eqb_eq in Ek. subst k'. destruct (String.eqb k c); reflexivity.
  - rewrite IH. destruct (String.eqb k' c) eqn:Ec; [| reflexivity].
    apply String.eqb_eq in Ec. subst c. rewrite String.eqb_sym, Ek. reflexivity.
Qed.

(** What [dict(zip(columns, row))] holds under a label: the cell under
    the last column of that label. *)
Lemma dict_get_zip (c : string) (cols : list string) :
  forall (r : list (value num)) (acc : list (string * value num)),
    dict_get c (foldl (fun d kv => dict_set (fst kv) (snd kv) d) acc (zip cols r))
    = match last_cell c cols r with
      | Some v => Some v
      | None => dict_get c acc
      end.
Proof.
  induction cols as [| c0 cs IH]; intros [| x xs] acc; try reflexivity.
  cbn [zip zip_with foldl last_cell fst snd]. rewrite IH, dict_get_set.
  destruct (last_cell c cs xs); [reflexivity |].
  destruct (String.eqb c0 c); reflexivity.
Qed.

(** X4.  The publisher on a table that exists.  It makes one network
    call, the PATCH of the gist.  The body carries one record per row of
    the table, which holds under each label the cell of the row under the
    last column of that label (of the columns that share a label, only the
    last one is sent), and a description that differs from one call to
    the next by the timestamp only.  The call returns a URL exactly when
    the store answers 200 with a document that holds [html_url] and the
    [raw_url] of the file, and the URL is that [raw_url]; and no exception
    of [requests] comes out of it (a timeout, a network error and a body
    that is not JSON give [None]). *)
Theorem update_github_gist_outcome (df : loc) (token : option string)
  (gist_id : string) (w : world num) (d : DataFrame num) :
  heap w !! df = Some d ->
  exists body answer,
    List.filter is_request (new_events (update_github_gist df token gist_id) w)
    = [EvPatch ("https://api.github.com/gists/" +:+ gist_id)
         [("Authorization", "token " +:+ fstr token);
          ("Accept", "application/vnd.github+json")]
         body answer]
    /\ length (data body) = length (rows d)
    /\ (forall i r,
          rows d !! i = Some r ->
          exists record,
            data body !! i = Some record
            /\ forall c, dict_get c record = last_cell c (columns d) r)
    /\ description body = "AAA Fuel & EV Price Data - Updated " +:+ scrape_date body
    /\ (forall url,
          result_of (update_github_gist df token gist_id) w = OK (Some url)
          <-> exists r html,
                answer = PatchAnswered r (Some (GistReply (Some html) (Some url)))
                /\ status_code r = 200%Z)
    /\ (forall e,
          result_of (update_github_gist df token gist_id) w = Raise e ->
          is_RequestException e = false).
Proof.
  intros Hd.
  destruct (update_github_gist_run df token gist_id w d Hd)
    as (lines & Hrun & Hlines & _).
  cbv zeta in Hrun.
  unfold new_events, result_of, world_after. rewrite Hrun. cbn [fst snd out].
  rewrite drop_app_length.
  eexists _, _. split.
  { cbn [List.filter is_request]. rewrite (filter_request_prints _ Hlines). reflexivity. }
  split; [cbn [data]; unfold to_dict_records; apply length_map |].
  split.
  { intros i r Hr. cbn [data]. unfold to_dict_records. rewrite lookup_map, Hr.
    eexists. split; [reflexivity |]. intros c. unfold dict_of.
    rewrite dict_get_zip. destruct (last_cell c (columns d) r); reflexivity. }
  split; [reflexivity |].
  destruct (requests_patch _ _ _ _) as [r doc | e]; cbn [published].
  - destruct (status_code r =? 200)%Z eqn:E200.
    + apply Z.eqb_eq in E200.
      destruct doc as [[[h|] [u|]] |]; cbn [html_url raw_url]; split.
      * intros url; split.
        -- intros H. injection H as <-. eauto.
        -- intros (r' & h' & H & _). injection H as <- <- <-. reflexivity.
      * discriminate.
      * intros url; split; [discriminate |].
        intros (r' & h' & H & _). discriminate H.
      * intros e H. injection H as <-. reflexivity.
      * intros url; split; [discriminate |].
        intros (r' & h' & H & _). discriminate H.
      * intros e H. injection H as <-. reflexivity.
      * intros url; split; [discriminate |].
        intros (r' & h' & H & _). discriminate H.
      * intros e H. injection H as <-. reflexivity.
      * intros url; split; [discriminate |].
        intros (r' & h' & H & _). discriminate H.
      * discriminate.
    + apply Z.eqb_neq in E200. split.
      * intros url; split; [discriminate |].
        intros (r' & h' & H & H200). injection H as <- _. contradiction.
      * discriminate.
  - split.
    + intros url; split.
      * destruct (is_RequestException e); discriminate.
      * intros (r' & h' & H & _). discriminate H.
    + intros e'. destruct (is_RequestException e) eqn:E; [discriminate |].
      intros H. injection H as <-. exact E.
Qed.

(** *** The merger: failures, joined rows, order *)

Lemma has_label_none (name : string) (cols : list string) :
  has_label name cols = false -> count_label name cols = 0.
Proof.
  intros H. destruct (count_label name cols) as [| n] eqn:E; [reflexivity |].
  assert (has_label name cols = true) by (apply has_label_count; lia).
  congruence.
Qed.

(** [df['State'] = df['State'].str.strip()] on a table without the
    column: the subscript raises, and nothing has changed. *)
Lemma strip_state_missing (df : loc) (w : world num) (d : DataFrame num) :
  heap w !! df = Some d ->
  has_label "State" (columns d) = false ->
  strip_state df w = (Raise (KeyError "State"), w).
Proof.
  intros Hd Hno. unfold strip_state, getitem, bind, load, lift, frame_getitem.
  rewrite Hd, (has_label_none _ _ Hno). reflexivity.
Qed.

(** The same statement on a table that has the column once, no cell of it
    being a number: the table is trimmed in place. *)
Lemma strip_state_run (df : loc) (w : world num) (d : DataFrame num) :
  heap w !! df = Some d ->
  count_label "State" (columns d) = 1 ->
  existsb is_num (column (index_of "State" (columns d)) d) = false ->
  strip_state df w = (OK tt, World (<[df := trimmed d]> (heap w)) (out w)).
Proof.
  intros Hd Hc Hnum.
  unfold strip_state, getitem, setitem, bind, load, store, lift, frame_getitem.
  rewrite Hd, Hc. cbn [str_accessor]. rewrite Hnum. cbn [andb].
  rewrite Hd, frame_setitem_trimmed by lia. reflexivity.
Qed.

(** X5.  [merge_data] on a left table without a column "State": the call
    raises [KeyError] at its first statement, and no table and no output
    has changed. *)
Theorem merge_data_left_without_state (gas_df ev_df : loc) (w : world num)
  (gd : DataFrame num) :
  heap w !! gas_df = Some gd ->
  has_label "State" (columns gd) = false ->
  merge_data gas_df ev_df w = (Raise (KeyError "State"), w).
Proof.
  intros Hd Hno. unfold merge_data. unfold bind at 1.
  rewrite (strip_state_missing _ _ _ Hd Hno). reflexivity.
Qed.



(** X7.  The rows of the merge.  When [merge_data] returns for two
    different tables, a row is in the merged table exactly when it is, for
    some row of the left table, either that row (trimmed) filled with NaN,
    no row of the right table having its trimmed region identifier, or
    that row (trimmed) followed by the cells, other than the one under
    "State", of a row of the right table with the same trimmed region
    identifier. *)
Theorem merge_data_rows (gas_df ev_df : loc) (w w' : world num) (m : loc)
  (gd ed : DataFrame num) :
  merge_data gas_df ev_df w = (OK m, w') ->
  gas_df <> ev_df ->
  heap w !! gas_df = Some gd ->
  heap w !! ev_df = Some ed ->
  exists merged,
    heap w' !! m = Some merged
    /\ forall o,
         In o (rows merged) <->
         exists r,
           In r (rows gd)
           /\ ((existsb (key_eqb (trimmed_key gd r)) (trimmed_keys ed) = false
                /\ o = trimmed_row gd r ++ replicate (right_width ed) VNaN)
               \/ (exists rr,
                     In rr (rows ed)
                     /\ key_eqb (trimmed_key gd r) (trimmed_key ed rr) = true
                     /\ o = trimmed_row gd r
                            ++ delete (index_of "State" (columns ed)) (trimmed_row ed rr))).
Proof.
  intros Hrun Hne Hgd Hed.
  destruct (merge_data_distinct_inv _ _ _ _ _ _ _ Hrun Hne Hgd Hed)
    as (merged & Hcg & Hce & Hm & -> & ->).
  exists merged. split; [apply merged_object |].
  rewrite (merged_rows_trimmed _ _ _ Hcg Hce Hm).
  intros o. rewrite in_flat_map. split.
  - intros (r & Hr & Ho). exists r. split; [exact Hr |].
    remember (List.filter (fun rr => key_eqb (trimmed_key gd r) (trimmed_key ed rr))
                          (rows ed)) as ms eqn:Ems.
    destruct ms as [| x ms].
    + left. destruct Ho as [<- | []]. split; [| reflexivity].
      unfold trimmed_keys. rewrite existsb_map. apply filter_nil_existsb. auto.
    + right. apply in_map_iff in Ho as (rr & <- & Hrr).
      rewrite Ems in Hrr. apply filter_In in Hrr as [Hin Hkey]. eauto.
  - intros (r & Hr & [[Hnone ->] | (rr & Hrr & Hkey & ->)]); exists r; (split; [exact Hr |]).
    + unfold trimmed_keys in Hnone. rewrite existsb_map in Hnone.
      apply filter_nil_existsb in Hnone. rewrite Hnone. left. reflexivity.
    + assert (Hin : In rr (List.filter
                             (fun rr => key_eqb (trimmed_key gd r) (trimmed_key ed rr))
                             (rows ed)))
        by (apply filter_In; auto).
      destruct (List.filter _ (rows ed)) as [| x ms]; [destruct Hin |].
      apply in_map_iff. eauto.
Qed.

(** The key of a merged row is the trimmed key of its left row. *)
Lemma joined_row_key (gd : DataFrame num) (r tail : list (value num)) :
  count_label "State" (columns gd) = 1 ->
  length r = length (columns gd) ->
  cell (index_of "State" (columns gd)) (trimmed_row gd r ++ tail) = trimmed_key gd r.
Proof.
  intros Hc Hlen. rewrite <- (trimmed_row_key gd r) by lia.
  unfold cell. rewrite lookup_app_l; [reflexivity |].
  unfold trimmed_row. rewrite length_set_cells, Hlen.
  eapply lookup_lt_Some, index_of_lookup. lia.
Qed.

(** X8.  The order of the merge.  When [merge_data] returns for two
    different tables, the left table having one cell per column in every
    row and the trimmed region identifiers of the right table being
    pairwise different, the column "State" of the merged table is the
    column "State" of the left table, trimmed, row by row: the merged rows
    are in the order of the left table, whatever the order of the right
    one. *)
Theorem merge_data_keeps_left_order (gas_df ev_df : loc) (w w' : world num) (m : loc)
  (gd ed : DataFrame num) :
  merge_data gas_df ev_df w = (OK m, w') ->
  gas_df <> ev_df ->
  heap w !! gas_df = Some gd ->
  heap w !! ev_df = Some ed ->
  well_formed gd ->
  distinct_keys (trimmed_keys ed) = true ->
  exists merged,
    heap w' !! m = Some merged
    /\ column (index_of "State" (columns gd)) merged = trimmed_keys gd.
Proof.
  intros Hrun Hne Hgd Hed Hwf Hdistinct.
  destruct (merge_data_distinct_inv _ _ _ _ _ _ _ Hrun Hne Hgd Hed)
    as (merged & Hcg & Hce & Hm & -> & ->).
  exists merged. split; [apply merged_object |].
  unfold column, trimmed_keys. rewrite (merged_rows_trimmed _ _ _ Hcg Hce Hm).
  revert Hwf. unfold well_formed. generalize (rows gd) as l.
  induction l as [| r l IH]; intros Hwf; [reflexivity |].
  apply Forall_cons in Hwf as [Hr Hl].
  match goal with
  | |- map ?c (flat_map ?f (r :: l)) = _ =>
      change (map c (f r ++ flat_map f l) = trimmed_key gd r :: map (trimmed_key gd) l)
  end.
  rewrite map_app, (IH Hl). clear IH. cbv beta.
  pose proof (matches_at_most_one (trimmed_key ed) (trimmed_key gd r) (rows ed)
                (fun rr => textual_str_cell strip _) Hdistinct) as Hone.
  destruct (List.filter _ (rows ed)) as [| rr [| rr' ms]]; cbn [map app length] in *;
    [| | lia]; rewrite joined_row_key by assumption; reflexivity.
Qed.

(** *** The manual parser: when it returns, and what *)

(** A loop that ran through has found every label, other than "State",
    once among the labels of the frame. *)
Lemma clean_all_labels (cols : list string) :
  forall d d' : DataFrame num,
    clean_all d cols = OK d' ->
    forall c, In c cols -> String.eqb c "State" = false ->
              count_label c (columns d) = 1.
Proof.
  induction cols as [| c0 cs IH]; intros d d' Hrun c Hc Ec; [destruct Hc |].
  cbn [clean_all] in Hrun.
  destruct (clean_step d c0) as [d1 |] eqn:Hstep; [| discriminate].
  assert (Hcols : columns d1 = columns d).
  { destruct (String.eqb c0 "State") eqn:E0.
    - unfold clean_step in Hstep. rewrite E0 in Hstep. injection Hstep as <-. reflexivity.
    - apply (clean_step_spec d d1 c0 E0 Hstep). }
  destruct Hc as [-> | Hc].
  - apply (clean_step_spec d d1 c Ec Hstep).
  - rewrite <- Hcols. exact (IH d1 d' Hrun c Hc Ec).
Qed.

(** X10.  When the manual parser returns.  [extract_table_manually]
    returns a table exactly when the page has a [<table>], the data rows
    are none or the widest of them has one cell per label, every label
    other than "State" occurs once among the labels, and every cell of a
    data row under such a label is numeric once its "$" signs are removed;
    in every other case it raises. *)
Theorem extract_table_manually_returns_iff (html_text : string) (w : world num) :
  (exists df, result_of (extract_table_manually html_text) w = OK df)
  <-> exists table,
        find "table" (BeautifulSoup html_text) = Some table
        /\ (manual_rows table = []
            \/ max_width (manual_rows table) = length (manual_headers table))
        /\ (forall c, In c (manual_headers table) -> String.eqb c "State" = false ->
                      count_label c (manual_headers table) = 1)
        /\ (forall i j raw s c,
              manual_rows table !! i = Some raw -> raw !! j = Some s ->
              manual_headers table !! j = Some c -> String.eqb c "State" = false ->
              exists x, to_float (str_remove dollar s) = Some x).
Proof.
  split.
  - intros (df & Hrun). rewrite extract_table_manually_result in Hrun.
    destruct (find "table" (BeautifulSoup html_text)) as [table |]; [| discriminate].
    exists table. split; [reflexivity |].
    destruct (frame_of_rows (manual_rows table) (manual_headers table)) as [d0 |] eqn:Hd0;
      [| discriminate].
    destruct (clean_all d0 (columns d0)) as [d |] eqn:Hclean; [| discriminate].
    destruct (frame_of_rows_spec _ _ _ Hd0) as (Hcols & _).
    split; [| split].
    + unfold frame_of_rows in Hd0.
      destruct (manual_rows table) as [| r rs]; [left; reflexivity |].
      right. destruct (Nat.eqb _ _) eqn:E; [| discriminate].
      apply Nat.eqb_eq in E. symmetry. exact E.
    + intros c Hc Ec. rewrite <- Hcols in *.
      exact (clean_all_labels _ _ _ Hclean c Hc Ec).
    + intros i j raw s c Hraw Hs Hc Ec.
      destruct (manual_cell_cleaned _ _ _ _ _ _ _ _ Hd0 Hclean Hraw Hs Hc Ec)
        as (v' & _ & Hrel).
      unfold cleaned in Hrel. cbn [str_cell float_cell] in Hrel.
      destruct (to_float (str_remove dollar s)) as [x |]; [eauto | discriminate].
  - intros (table & Hfind & Hwidth & Hlabels & Hnumeric).
    exists (length (heap w)).
    exact (extract_table_manually_returns _ w table Hfind Hwidth Hlabels Hnumeric).
Qed.

Lemma traverse_length {A B} (f : A -> result B) (l : list A) (l' : list B) :
  traverse f l = OK l' -> length l' = length l.
Proof.
  revert l'. induction l as [| a l IH]; intros l' H; cbn [traverse] in H.
  - injection H as <-. reflexivity.
  - destruct (f a); [| discriminate].
    destruct (traverse f l) as [bs |]; [| discriminate].
    injection H as <-. cbn. f_equal. apply IH. reflexivity.
Qed.

Lemma zip_with_set_cells_shape (cols : list string) (c : string)
  (vals : list (value num)) (rs : list (list (value num))) :
  length vals = length rs ->
  map length (zip_with (set_cells cols c) vals rs) = map length rs.
Proof.
  revert rs. induction vals as [| v vals IH]; intros [| r rs] H; try discriminate H.
  - reflexivity.
  - cbn. rewrite length_set_cells, IH by (cbn in H; lia). reflexivity.
Qed.

(** One turn of the loop keeps the number of rows and their lengths. *)
Lemma clean_step_shape (d d' : DataFrame num) (c : string) :
  clean_step d c = OK d' -> map length (rows d') = map length (rows d).
Proof.
  unfold clean_step, frame_getitem.
  destruct (String.eqb c "State"); [intros H; injection H as <-; reflexivity |].
  destruct (count_label c (columns d)) as [| [| n]] eqn:Hcount; try discriminate.
  cbn [str_accessor].
  destruct (existsb is_num _ && negb (existsb is_str _)); [discriminate |].
  destruct (astype_float _) as [floats |] eqn:Hfl; [| discriminate].
  intros H. injection H as <-.
  assert (Hl : has_label c (columns d) = true) by (apply has_label_count; lia).
  unfold frame_setitem. rewrite Hl. cbn [rows].
  apply zip_with_set_cells_shape.
  apply traverse_length in Hfl. rewrite Hfl.
  unfold str_map, column. rewrite !length_map. reflexivity.
Qed.

Lemma clean_all_shape (cols : list string) :
  forall d d' : DataFrame num,
    clean_all d cols = OK d' -> map length (rows d') = map length (rows d).
Proof.
  induction cols as [| c cs IH]; intros d d' H; cbn [clean_all] in H.
  - injection H as <-. reflexivity.
  - destruct (clean_step d c) as [d1 |] eqn:Hstep; [| discriminate].
    rewrite (IH d1 d' H). exact (clean_step_shape _ _ _ Hstep).
Qed.

Lemma length_le_max_width {A} (rs : list (list A)) (r : list A) :
  In r rs -> length r <= max_width rs.
Proof.
  induction rs as [| r0 rs IH]; [intros [] |].
  cbn [max_width foldr]. intros [-> | H]; [lia |].
  specialize (IH H). unfold max_width in IH. lia.
Qed.

(** The frame that [pd.DataFrame] builds has one row per row of strings
    and one cell per label in every row. *)
Lemma frame_of_rows_shape (rs : list (list string)) (headers : list string)
  (d : DataFrame num) :
  frame_of_rows rs headers = OK d ->
  map length (rows d) = map (fun _ => length headers) rs.
Proof.
  unfold frame_of_rows. destruct rs as [| r0 rs'].
  - intros H. injection H as <-. reflexivity.
  - destruct (Nat.eqb _ _) eqn:E; [| discriminate]. apply Nat.eqb_eq in E.
    intros H. injection H as <-.
    change (map length
              (map (fun r => map VStr r
                             ++ replicate (max_width (r0 :: rs') - length r) (@VNone num))
                   (r0 :: rs'))
            = map (fun _ => length headers) (r0 :: rs')).
    rewrite map_map. apply map_ext_in. intros r Hr.
    rewrite length_app, length_map, length_replicate.
    apply length_le_max_width in Hr. lia.
Qed.

Lemma manual_rows_from (trs : list node) (acc : list (list string)) :
  foldl (fun rows tr =>
           let cells := find_all ["td"; "th"] tr in
           match cells with
           | [] => rows
           | _ => rows ++ [map (fun cell => strip (get_text cell)) cells]
           end)
        acc trs
  = acc ++ map (fun tr => map (fun cell => strip (get_text cell))
                              (find_all ["td"; "th"] tr))
               (List.filter has_cells trs).
Proof.
  revert acc. induction trs as [| tr trs IH]; intros acc; cbn [foldl List.filter map].
  - rewrite app_nil_r. reflexivity.
  - rewrite IH. unfold has_cells at 2. cbv zeta.
    destruct (find_all ["td"; "th"] tr) as [| c cs] eqn:E; [reflexivity |].
    cbn [map]. rewrite <- app_assoc. cbn [app]. rewrite E. reflexivity.
Qed.

(** The data rows of the manual path: every [<tr>] after the first that
    has cells gives one. *)
Lemma manual_rows_spec (table : node) :
  manual_rows table
  = map (fun tr => map (fun cell => strip (get_text cell)) (find_all ["td"; "th"] tr))
        (List.filter has_cells (drop 1 (find_all ["tr"] table))).
Proof. unfold manual_rows. exact (manual_rows_from _ []). Qed.

(** X11.  The table of the manual parser.  When [extract_table_manually]
    returns, its table has one row for every [<tr>] below the first
    [<table>], the first [<tr>] apart, that has a [<td>] or [<th>] below
    it; every row has one cell per label; and the cells under "State" are
    the trimmed texts of the page, kept as strings. *)
Theorem extract_table_manually_shape (html_text : string) (w w' : world num)
  (df : loc) (table : node) :
  extract_table_manually html_text w = (OK df, w') ->
  find "table" (BeautifulSoup html_text) = Some table ->
  exists d,
    heap w' !! df = Some d
    /\ length (rows d)
       = length (List.filter has_cells (drop 1 (find_all ["tr"] table)))
    /\ well_formed d
    /\ forall i j raw s,
         manual_rows table !! i = Some raw -> raw !! j = Some s ->
         manual_headers table !! j = Some "State" ->
         cell_at d i j = Some (VStr s).
Proof.
  intros Hrun Hfind.
  apply extract_table_manually_inv in Hrun
    as (table' & d0 & d & Hfind' & Hd0 & Hclean & -> & Hheap).
  rewrite Hfind in Hfind'. injection Hfind' as <-.
  exists d. split; [rewrite Hheap; apply lookup_snoc_new |].
  pose proof (clean_all_shape _ _ _ Hclean) as Hshape.
  rewrite (frame_of_rows_shape _ _ _ Hd0) in Hshape.
  destruct (frame_of_rows_spec _ _ _ Hd0) as (Hcols0 & Hcells0).
  destruct (clean_all_spec (columns d0) d0 d (count_label_le_refl _) Hclean)
    as (Hcols & Hcells).
  split; [| split].
  - rewrite <- (length_map length (rows d)), Hshape, length_map.
    rewrite manual_rows_spec, length_map. reflexivity.
  - unfold well_formed. rewrite Hcols, Hcols0.
    apply Forall_forall. intros r Hr.
    assert (Hin : In (length r) (map length (rows d)))
      by (apply in_map, list_elem_of_In, Hr).
    rewrite Hshape in Hin. apply in_map_iff in Hin as (x & <- & _). reflexivity.
  - intros i j raw s Hraw Hs Hstate.
    rewrite <- Hcols0 in Hstate.
    destruct (Hcells i j (VStr s) "State" (Hcells0 i j raw s Hraw Hs) Hstate)
      as (v' & Hv' & Hrel).
    rewrite String.eqb_refl, andb_false_r in Hrel. subst v'. exact Hv'.
Qed.

(** X12.  A page without a table.  When [pd.read_html] finds no table in
    the text (it raises, or gives none) and the parse tree has no
    [<table>], [extract_table_data] raises the [ValueError] of the manual
    path, "No table found in HTML"; it has printed the two lines of the
    fallback and created no table. *)
Theorem extract_table_data_without_table (response_text : string) (w : world num) :
  (forall t ts, read_html response_text <> OK (t :: ts)) ->
  find "table" (BeautifulSoup response_text) = None ->
  result_of (extract_table_data response_text) w
  = Raise (ValueError "No table found in HTML")
  /\ heap (world_after (extract_table_data response_text) w) = heap w
  /\ exists e,
       new_events (extract_table_data response_text) w
       = [EvPrint [Lit "Error reading table with pandas: "; PExn e];
          EvPrint [Lit "Using manual table extraction..."]].
Proof.
  intros Hread Hfind.
  unfold new_events, result_of, world_after.
  unfold extract_table_data, try_except, extract_table_data_try.
  unfold bind at 1, lift.
  destruct (read_html response_text) as [[| t ts] | e] eqn:E.
  - unfold raise, extract_table_manually, bind, print, emit. rewrite Hfind.
    cbn [fst snd heap out raise]. repeat rewrite <- app_assoc.
    rewrite drop_app_length. eauto.
  - destruct (Hread t ts eq_refl).
  - unfold extract_table_manually, bind, print, emit. rewrite Hfind.
    cbn [fst snd heap out raise]. repeat rewrite <- app_assoc.
    rewrite drop_app_length. eauto.
Qed.

(** *** The EV scraper: the column "Cost/kWh" *)

Lemma bind_OK_inv {A B} (m : M num A) (k : A -> M num B) (w w' : world num) (b : B) :
  bind m k w = (OK b, w') ->
  exists a w1, m w = (OK a, w1) /\ k a w1 = (OK b, w').
Proof.
  unfold bind. destruct (m w) as [[a | e] w1]; [eauto | discriminate].
Qed.

Lemma print_table_found_heap (df : loc) (w : world num) :
  heap (snd (print_table_found df w)) = heap w.
Proof.
  unfold print_table_found, bind, load, print, emit.
  destruct (heap w !! df); reflexivity.
Qed.

(** What comes before in a sequence does not matter to what the sequence
    returns. *)
Lemma returning_bind {A B} (m : M num A) (k : A -> M num B)
  (P : B -> world num -> Prop) :
  (forall a, returning (k a) P) -> returning (bind m k) P.
Proof.
  intros Hk w b w' Hrun.
  apply bind_OK_inv in Hrun as (a & w1 & _ & Hrun).
  exact (Hk a w1 b w' Hrun).
Qed.

(** The end of [scrape_aaa_ev_prices], from the table of
    [extract_table_data] on. *)
Lemma coerce_cost_returning (df0 : loc) :
  returning
    (cols <- frame_columns df0 ;;
     (if has_label "Cost/kWh" cols
      then sel <- getitem df0 "Cost/kWh" ;;
           vals <- lift (to_numeric_coerce sel) ;;
           setitem df0 "Cost/kWh" vals
      else ret tt) ;;
     print_table_found df0 ;;
     ret df0)
    cost_coerced.
Proof.
  intros w6 df w' Hrun.
  apply bind_OK_inv in Hrun as (cols & w7 & Hcols & Hrun).
  apply bind_OK_inv in Hrun as ([] & w8 & Hco & Hrun).
  apply bind_OK_inv in Hrun as ([] & w9 & Hp & Hrun).
  unfold ret in Hrun. injection Hrun as <- <-.
  unfold frame_columns, bind, load, ret in Hcols.
  destruct (heap w6 !! df0) as [d0 |] eqn:Hd0; [| discriminate].
  injection Hcols as <- <-.
  apply (f_equal snd) in Hp. cbn [snd] in Hp.
  unfold cost_coerced. rewrite <- Hp, print_table_found_heap.
  clear Hp w9.
  destruct (has_label "Cost/kWh" (columns d0)) eqn:Hl.
  - unfold getitem, setitem, bind, load, store, lift, frame_getitem in Hco.
    rewrite Hd0 in Hco.
    destruct (count_label "Cost/kWh" (columns d0)) as [| [| n]] eqn:Hc;
      cbn [to_numeric_coerce] in Hco; try discriminate.
    rewrite Hd0 in Hco. injection Hco as <-. cbn [heap].
    eexists. split; [apply list_lookup_insert_eq; eapply lookup_lt_Some, Hd0 |].
    unfold frame_setitem. rewrite Hl. cbn [columns]. intros _. split; [exact Hc |].
    intros i v. unfold cell_at. cbn [rows]. rewrite lookup_zip_with.
    unfold column. rewrite !lookup_map.
    destruct (rows d0 !! i) as [r |]; [| discriminate]. cbn [option_map mbind option_bind].
    rewrite lookup_set_cells, index_of_lookup by lia. rewrite String.eqb_refl.
    destruct (r !! index_of "Cost/kWh" (columns d0)); [| discriminate].
    intros H. injection H as <-.
    destruct (cell _ r) as [t | y | |]; [destruct (to_numeric t) | | |]; cbn; auto.
  - unfold ret in Hco. injection Hco as <-.
    exists d0. split; [exact Hd0 |]. congruence.
Qed.

(** X13.  The column "Cost/kWh" of the EV table.  When
    [scrape_aaa_ev_prices] returns a table that has a column "Cost/kWh",
    the table has it once (a duplicated label makes [pd.to_numeric] raise),
    and every cell under it is a number or NaN: what was not numeric has
    become NaN instead of failing the run. *)
Theorem scrape_aaa_ev_prices_coerces (url : string) (w w' : world num) (df : loc) :
  scrape_aaa_ev_prices url w = (OK df, w') ->
  exists d,
    heap w' !! df = Some d
    /\ (has_label "Cost/kWh" (columns d) = true ->
        count_label "Cost/kWh" (columns d) = 1
        /\ forall i v,
             cell_at d i (index_of "Cost/kWh" (columns d)) = Some v ->
             is_num v = true \/ v = VNaN).
Proof.
  intros Hrun. revert w df w' Hrun.
  change (returning (scrape_aaa_ev_prices url) cost_coerced).
  unfold scrape_aaa_ev_prices.
  do 6 (apply returning_bind; intros ?).
  apply coerce_cost_returning.
Qed.

(** *** Trimming twice *)

Lemma lstrip_skip (s : string) :
  lstrip s = match skip_space s with Some r => lstrip r | None => s end.
Proof.
  destruct s as [| c1 [| c2 [| c3 s3]]]; cbn [lstrip skip_space]; try reflexivity.
  - destruct (isspace c1); reflexivity.
  - destruct (isspace c1); [reflexivity |]. destruct (isspace2 c1 c2); reflexivity.
  - destruct (isspace c1); [reflexivity |]. destruct (isspace2 c1 c2); [reflexivity |].
    destruct (isspace3 c1 c2 c3); reflexivity.
Qed.

Lemma skip_space_shorter (s r : string) :
  skip_space s = Some r -> String.length r < String.length s.
Proof.
  destruct s as [| c1 [| c2 [| c3 s3]]]; cbn [skip_space]; try discriminate.
  - destruct (isspace c1); [| discriminate]. intros H. injection H as <-. cbn. lia.
  - destruct (isspace c1); [intros H; injection H as <-; cbn; lia |].
    destruct (isspace2 c1 c2); [| discriminate]. intros H. injection H as <-. cbn. lia.
  - destruct (isspace c1); [intros H; injection H as <-; cbn; lia |].
    destruct (isspace2 c1 c2); [intros H; injection H as <-; cbn; lia |].
    destruct (isspace3 c1 c2 c3); [| discriminate]. intros H. injection H as <-. cbn. lia.
Qed.

Lemma append_cons (c : ascii) (s t : string) :
  String c s +:+ t = String c (s +:+ t).
Proof. reflexivity. Qed.

Lemma append_nil (t : string) : EmptyString +:+ t = t.
Proof. reflexivity. Qed.

(** White space at the head of a string is white space at the head of
    every string that starts with it. *)
Lemma skip_space_app (s r t : string) :
  skip_space s = Some r -> skip_space (s +:+ t) = Some (r +:+ t).
Proof.
  destruct s as [| c1 [| c2 [| c3 s3]]];
    rewrite ?append_cons, ?append_nil; cbn [skip_space]; try discriminate.
  - destruct (isspace c1); [| discriminate]. intros H. injection H as <-. reflexivity.
  - destruct (isspace c1); [intros H; injection H as <-; reflexivity |].
    destruct (isspace2 c1 c2); [| discriminate]. intros H. injection H as <-. reflexivity.
  - destruct (isspace c1); [intros H; injection H as <-; reflexivity |].
    destruct (isspace2 c1 c2); [intros H; injection H as <-; reflexivity |].
    destruct (isspace3 c1 c2 c3); [| discriminate]. intros H. injection H as <-. reflexivity.
Qed.

(** Induction along the characters of white space at the head. *)
Lemma skip_space_ind (P : string -> Prop) :
  (forall s, skip_space s = None -> P s) ->
  (forall s r, skip_space s = Some r -> P r -> P s) ->
  forall s, P s.
Proof.
  intros Hnone Hsome s.
  remember (String.length s) as n eqn:Hn. revert s Hn.
  induction n as [n IH] using lt_wf_ind. intros s ->.
  destruct (skip_space s) as [r |] eqn:E; [| apply Hnone, E].
  apply (Hsome s r E), (IH (String.length r)); [| reflexivity].
  apply skip_space_shorter, E.
Qed.

Lemma lstrip_no_space (s : string) : skip_space (lstrip s) = None.
Proof.
  induction s as [s E | s r E IH] using skip_space_ind;
    rewrite lstrip_skip, E; assumption.
Qed.

Lemma lstrip_fixed (s : string) : skip_space s = None -> lstrip s = s.
Proof. intros E. rewrite lstrip_skip, E. reflexivity. Qed.

(** Behind a string of white space, [lstrip] goes on. *)
Lemma lstrip_app (a b : string) :
  lstrip a = EmptyString -> lstrip (a +:+ b) = lstrip b.
Proof.
  induction a as [a E | a r E IH] using skip_space_ind.
  - rewrite (lstrip_fixed a E). intros ->. reflexivity.
  - rewrite lstrip_skip, E. intros H.
    rewrite lstrip_skip, (skip_space_app a r b E). exact (IH H).
Qed.

(** What [rstrip] removes is white space. *)
Lemma rstrip_split (s : string) :
  exists w, s = rstrip s +:+ w /\ lstrip w = EmptyString.
Proof.
  induction s as [| c s IH]; [exists EmptyString; auto |].
  cbn [rstrip]. destruct (lstrip (String c s)) eqn:E.
  - exists (String c s). auto.
  - destruct IH as (w & Hs & Hw). exists w. split; [| exact Hw].
    rewrite append_cons, <- Hs. reflexivity.
Qed.

Lemma rstrip_blank (s : string) :
  lstrip (rstrip s) = EmptyString -> lstrip s = EmptyString.
Proof.
  intros H. destruct (rstrip_split s) as (w & Hs & Hw).
  rewrite Hs, (lstrip_app _ _ H). exact Hw.
Qed.

Lemma rstrip_rstrip (s : string) : rstrip (rstrip s) = rstrip s.
Proof.
  induction s as [| c s IH]; [reflexivity |].
  assert (Hr : lstrip (String c s) <> EmptyString ->
               rstrip (String c s) = String c (rstrip s)).
  { cbn [rstrip]. destruct (lstrip (String c s)); [congruence | reflexivity]. }
  destruct (lstrip (String c s)) as [| c' t] eqn:E.
  - cbn [rstrip]. rewrite E. reflexivity.
  - rewrite Hr by discriminate.
    cbn [rstrip]. rewrite IH.
    destruct (lstrip (String c (rstrip s))) eqn:E2; [| reflexivity].
    rewrite <- Hr in E2 by discriminate.
    apply rstrip_blank in E2. congruence.
Qed.

Lemma skip_space_prefix (p w : string) :
  skip_space (p +:+ w) = None -> skip_space p = None.
Proof.
  intros H. destruct (skip_space p) as [r |] eqn:E; [| reflexivity].
  rewrite (skip_space_app p r w E) in H. discriminate.
Qed.

Lemma lstrip_rstrip_fixed (t : string) :
  skip_space t = None -> lstrip (rstrip t) = rstrip t.
Proof.
  intros H. destruct (rstrip_split t) as (w & Ht & _).
  apply lstrip_fixed, (skip_space_prefix _ w). rewrite <- Ht. exact H.
Qed.

(** [s.strip().strip()] is [s.strip()]. *)
Lemma strip_strip (s : string) : strip (strip s) = strip s.
Proof.
  unfold strip.
  rewrite (lstrip_rstrip_fixed (lstrip s)) by apply lstrip_no_space.
  apply rstrip_rstrip.
Qed.

Lemma set_cells_twice (cols : list string) (name : string) (v : value num)
  (r : list (value num)) :
  set_cells cols name v (set_cells cols name v r) = set_cells cols name v r.
Proof.
  revert r. induction cols as [| c cs IH]; intros [| x xs]; cbn [set_cells]; auto.
  rewrite IH. destruct (String.eqb c name); reflexivity.
Qed.

Lemma trimmed_key_of_trimmed (d : DataFrame num) (r : list (value num)) :
  0 < count_label "State" (columns d) ->
  trimmed_key (trimmed d) (trimmed_row d r) = trimmed_key d r.
Proof.
  intros Hc. unfold trimmed_key at 1. cbn [trimmed columns].
  rewrite (trimmed_row_key d r Hc). unfold trimmed_key.
  destruct (cell _ r); cbn [str_cell]; try reflexivity.
  rewrite strip_strip. reflexivity.
Qed.

(** A trimmed table is not changed by trimming it. *)
Lemma trimmed_trimmed (d : DataFrame num) :
  0 < count_label "State" (columns d) -> trimmed (trimmed d) = trimmed d.
Proof.
  intros Hc. unfold trimmed at 1.
  change (columns (trimmed d)) with (columns d).
  change (rows (trimmed d)) with (map (trimmed_row d) (rows d)).
  transitivity (Frame (columns d) (map (trimmed_row d) (rows d))); [| reflexivity].
  f_equal. rewrite map_map. apply map_ext. intros r.
  unfold trimmed_row at 1. change (columns (trimmed d)) with (columns d).
  rewrite (trimmed_key_of_trimmed d r Hc).
  apply set_cells_twice.
Qed.

(** The column "State" of a trimmed table holds no number. *)
Lemma trimmed_column_textual (d : DataFrame num) :
  0 < count_label "State" (columns d) ->
  existsb is_num (column (index_of "State" (columns d)) (trimmed d)) = false.
Proof.
  intros Hc. unfold column. cbn [trimmed rows]. rewrite map_map.
  apply existsb_false_lookup. intros i x. rewrite lookup_map.
  destruct (rows d !! i) as [r |]; [| discriminate]. cbn.
  intros H. injection H as <-. rewrite (trimmed_row_key d r Hc).
  unfold trimmed_key. destruct (cell _ r); reflexivity.
Qed.

(** Writing back the object that is there changes nothing. *)
Lemma store_same (h : list (DataFrame num)) (l : loc) (d : DataFrame num) :
  h !! l = Some d -> <[l := d]> h = h.
Proof. apply list_insert_id. Qed.

(** X14.  Merging again.  After [merge_data] has returned for two
    different tables, a second call on the same two tables returns again;
    it leaves both tables and every other object as the first call left
    them, and its merged table, one more new object, is equal to the
    first one: trimming what is trimmed changes nothing. *)
Theorem merge_data_again (gas_df ev_df : loc) (w w' : world num) (m : loc)
  (gd ed : DataFrame num) :
  merge_data gas_df ev_df w = (OK m, w') ->
  gas_df <> ev_df ->
  heap w !! gas_df = Some gd ->
  heap w !! ev_df = Some ed ->
  exists merged,
    heap w' !! m = Some merged
    /\ merge_data gas_df ev_df w' = (OK (S m), World (heap w' ++ [merged]) (out w')).
Proof.
  intros Hrun Hne Hgd Hed.
  destruct (merge_data_distinct_inv _ _ _ _ _ _ _ Hrun Hne Hgd Hed)
    as (merged & Hcg & Hce & Hm & -> & ->).
  exists merged. split; [apply merged_object |].
  pose proof (lookup_lt_Some _ _ _ Hgd) as Hlg.
  pose proof (lookup_lt_Some _ _ _ Hed) as Hle.
  set (h1 := <[ev_df := trimmed ed]> (<[gas_df := trimmed gd]> (heap w))).
  assert (Hg1 : h1 !! gas_df = Some (trimmed gd)).
  { subst h1. rewrite list_lookup_insert_ne by auto.
    apply list_lookup_insert_eq, Hlg. }
  assert (He1 : h1 !! ev_df = Some (trimmed ed)).
  { subst h1. apply list_lookup_insert_eq. rewrite length_insert. exact Hle. }
  assert (Hlen : length h1 = length (heap w)) by (subst h1; rewrite !length_insert; reflexivity).
  set (w1 := World (h1 ++ [merged]) (out w)).
  assert (Hg2 : heap w1 !! gas_df = Some (trimmed gd)).
  { subst w1. cbn [heap]. rewrite lookup_app_l by lia. exact Hg1. }
  assert (He2 : heap w1 !! ev_df = Some (trimmed ed)).
  { subst w1. cbn [heap]. rewrite lookup_app_l by lia. exact He1. }
  unfold merge_data. unfold bind at 1.
  rewrite (strip_state_run gas_df w1 (trimmed gd) Hg2);
    [| exact Hcg | apply (trimmed_column_textual gd); lia].
  rewrite trimmed_trimmed by lia. rewrite (store_same _ _ _ Hg2).
  unfold bind at 1.
  rewrite (strip_state_run ev_df _ (trimmed ed));
    [| exact He2 | exact Hce | apply (trimmed_column_textual ed); lia].
  cbn [heap out]. rewrite trimmed_trimmed by lia. rewrite (store_same _ _ _ He2).
  unfold bind, pd_merge_left, bind, load, lift, alloc, ret. cbn [heap out].
  rewrite Hg2. cbn [heap out]. rewrite He2, Hm. cbn [heap out].
  subst w1. cbn [heap out]. rewrite length_app, Hlen. cbn [length].
  replace (length (heap w) + 1) with (S (length (heap w))) by lia. reflexivity.
Qed.

(** *** The orchestrator: the report of a complete run *)

Lemma plain_print (line : list (piece num)) :
  is_complete_line line = false -> only is_plain (print line).
Proof. intros H w. exists [EvPrint line]. cbn. rewrite H. auto. Qed.

Lemma plain_http_get (url : string) (headers : http_headers) :
  only is_plain (http_get url headers).
Proof. intros w. eexists. split; reflexivity. Qed.

Ltac plain_auto :=
  repeat match goal with
  | |- only _ (bind _ _) => apply only_bind; [| intros ?]
  | |- only _ (try_except _ _) => apply only_try_except; [| intros ?]
  | |- only _ (for_each _ _) => apply only_for_each; intros ?
  | |- only _ (print _) => apply plain_print; reflexivity
  | |- only _ (sleep _) => apply only_sleep; reflexivity
  | |- only _ (http_get _ _) => apply plain_http_get
  | |- only _ (load _) => apply only_load
  | |- only _ (len _) => apply only_len
  | |- only _ (frame_columns _) => apply only_frame_columns
  | |- only _ (getitem _ _) => apply only_getitem
  | |- only _ (setitem _ _ _) => apply only_setitem
  | |- only _ (clean_state _) => apply only_clean_state
  | |- only _ (merge_data _ _) => apply only_merge_data
  | |- only _ (ret _) => apply only_silent; reflexivity
  | |- only _ (raise _) => apply only_silent; reflexivity
  | |- only _ (lift _) => apply only_silent; reflexivity
  | |- only _ history => apply only_silent; reflexivity
  | |- only _ (alloc _) => apply only_silent; reflexivity
  | |- only _ (store _ _) => apply only_silent; reflexivity
  | |- only _ (if ?b then _ else _) => destruct b
  | |- only _ (match ?x with _ => _ end) => destruct x
  | |- only _ (let _ := _ in _) => cbv zeta
  end.

Lemma plain_extract_table_manually html : only is_plain (extract_table_manually html).
Proof. unfold extract_table_manually, pd_DataFrame, clean_numeric. plain_auto. Qed.

Lemma plain_extract_table_data html : only is_plain (extract_table_data html).
Proof.
  unfold extract_table_data, extract_table_data_try, set_columns, rename.
  repeat first
    [ progress plain_auto
    | match goal with
      | |- only _ (extract_table_manually _) => apply plain_extract_table_manually
      end ].
Qed.

Lemma plain_print_table_found df : only is_plain (print_table_found df).
Proof. unfold print_table_found. plain_auto. Qed.

Lemma plain_make_respectful_request url : only is_plain (make_respectful_request url).
Proof. unfold make_respectful_request, raise_for_status. plain_auto. Qed.

Ltac plain_calls :=
  repeat first
    [ progress plain_auto
    | match goal with
      | |- only _ (make_respectful_request _) => apply plain_make_respectful_request
      | |- only _ (extract_table_data _) => apply plain_extract_table_data
      | |- only _ (print_table_found _) => apply plain_print_table_found
      end ].

Lemma plain_scrape_aaa_gas_prices url : only is_plain (scrape_aaa_gas_prices url).
Proof. unfold scrape_aaa_gas_prices. plain_calls. Qed.

Lemma plain_scrape_aaa_ev_prices url : only is_plain (scrape_aaa_ev_prices url).
Proof. unfold scrape_aaa_ev_prices. plain_calls. Qed.

Lemma plain_main_except e : only is_plain (main_except e).
Proof. unfold main_except. plain_auto. Qed.

Lemma success_plain (s : bool) (e : event num) :
  is_plain e = true -> success_step s e = Some s.
Proof.
  destruct e; cbn; try congruence.
  destruct s; [reflexivity |]. destruct (is_complete_line line); [discriminate | reflexivity].
Qed.

Lemma success_only_plain {A} (s : bool) (m : M num A) :
  only is_plain m -> tracks success_step s (fun _ s' => s' = s) m.
Proof. apply tracks_only. intros e. apply success_plain. Qed.

(** Once a PATCH has been accepted, every line is. *)
Lemma success_only_print {A} (m : M num A) :
  only is_print m -> tracks success_step true (fun _ s' => s' = true) m.
Proof. apply tracks_only. intros [] H; try discriminate H. reflexivity. Qed.

(** The publisher on a reference without an object. *)
Lemma update_github_gist_dangling (df : loc) (token : option string)
  (gist_id : string) (w : world num) :
  heap w !! df = None ->
  update_github_gist df token gist_id w
  = (Raise (OtherException "dangling reference"),
     World (heap w) (out w ++ [EvPrint [Lit nl; Lit "--- Updating GitHub Gist ---"]])).
Proof.
  intros Hd. unfold update_github_gist.
  unfold bind at 1, print at 1, emit at 1. unfold bind at 1, load at 1.
  cbn [heap out]. rewrite Hd. reflexivity.
Qed.

Lemma published_accepted (a : patch_outcome) (raw : string) :
  published a = OK (Some raw) -> String.eqb raw "" = false -> accepted a = true.
Proof.
  destruct a as [r [[[h |] [u |]] |] | e]; cbn [published accepted html_url raw_url].
  - destruct (status_code r =? 200)%Z; [| discriminate].
    intros H. injection H as <-. intros ->. reflexivity.
  - destruct (status_code r =? 200)%Z; discriminate.
  - destruct (status_code r =? 200)%Z; discriminate.
  - destruct (status_code r =? 200)%Z; discriminate.
  - destruct (status_code r =? 200)%Z; discriminate.
  - destruct (is_RequestException e); discriminate.
Qed.

(** The publisher returns a URL that is not empty only after its PATCH
    has been accepted. *)
Lemma success_update_github_gist (df : loc) (token : option string) (gist_id : string) :
  tracks success_step false
    (fun r s' => forall raw, r = OK (Some raw) -> String.eqb raw "" = false -> s' = true)
    (update_github_gist df token gist_id).
Proof.
  intros w. destruct (heap w !! df) as [d |] eqn:Hd.
  - destruct (update_github_gist_run df token gist_id w d Hd)
      as (lines & Hrun & _ & Hplain).
    cbv zeta in Hrun. rewrite Hrun. cbn [fst snd out].
    eexists. split; [reflexivity |].
    cbn [monitor success_step is_complete_line orb].
    eexists. split; [apply (monitor_steady _ is_plain); [| exact Hplain] |].
    + intros e. apply success_plain.
    + apply published_accepted.
  - rewrite (update_github_gist_dangling _ _ _ _ Hd). cbn [fst snd out].
    eexists. split; [reflexivity |]. exists false. split; [reflexivity |].
    discriminate.
Qed.

Ltac success_plain_then :=
  eapply tracks_bind;
  [ apply (success_only_plain false);
    repeat first
      [ progress plain_auto
      | match goal with
        | |- only _ (scrape_aaa_gas_prices _) => apply plain_scrape_aaa_gas_prices
        | |- only _ (scrape_aaa_ev_prices _) => apply plain_scrape_aaa_ev_prices
        end ]
  | intros ? ? E; cbn beta in E; subst
  | intros; exact I ].

Lemma success_main : tracks success_step false (fun _ _ => True) main.
Proof.
  unfold main.
  eapply (tracks_try_except _ _ (fun _ _ => True)); [| auto |].
  - unfold main_try.
    do 17 success_plain_then.
    eapply tracks_bind;
      [ apply success_update_github_gist | intros raw_url s1 Hs1 | intros; exact I ].
    destruct raw_url as [raw |]; unfold truthy, falsy.
    + destruct (String.eqb raw "") eqn:Eraw; cbn [negb].
      * eapply tracks_weaken; [apply (success_only_plain s1); plain_auto | auto].
      * rewrite (Hs1 raw eq_refl Eraw).
        eapply tracks_weaken; [apply success_only_print; only_closed | auto].
    + cbn [negb].
      eapply tracks_weaken; [apply (success_only_plain s1); plain_auto | auto].
  - intros e s1 _.
    eapply tracks_weaken; [apply (success_only_plain s1), plain_main_except | auto].
Qed.

Lemma success_monitor (l : list (event num)) :
  forall s s' line,
    monitor success_step s l = Some s' ->
    In (EvPrint line) l ->
    is_complete_line line = true ->
    s = true
    \/ exists url headers body a, In (EvPatch url headers body a) l /\ accepted a = true.
Proof.
  induction l as [| e l IH]; intros s s' line Hm Hin Hline; [destruct Hin |].
  cbn [monitor] in Hm.
  destruct (success_step s e) as [s1 |] eqn:Hstep; [| discriminate].
  destruct Hin as [-> | Hin].
  - cbn [success_step] in Hstep. destruct s; [auto |].
    rewrite Hline in Hstep. discriminate.
  - destruct (IH s1 s' line Hm Hin Hline) as [-> | (u & h & b & a & Ha & Hacc)].
    + destruct e as [line' | n | u h a | u h b a]; cbn [success_step] in Hstep.
      * destruct s; [auto |]. destruct (is_complete_line line'); discriminate.
      * injection Hstep as ->. auto.
      * injection Hstep as ->. auto.
      * injection Hstep as Hor. apply orb_true_iff in Hor as [-> | Hacc]; [auto |].
        right. exists u, h, b, a. split; [left; reflexivity | exact Hacc].
    + right. exists u, h, b, a. split; [right; exact Ha | exact Hacc].
Qed.

(** X15.  The report of a complete run.  In every run of [main], the line
    "SCRAPING PROCESS COMPLETE!" is printed only if the run holds a PATCH
    that the store answered with the status 200 and a document that has an
    [html_url] and a raw URL that is not empty: a failed fetch, a failed
    parse, a failed merge, a refused or failed update never end in that
    line. *)
Theorem main_reports_success_after_publish (w : world num) :
  In (EvPrint [Lit "SCRAPING PROCESS COMPLETE!"]) (new_events main w) ->
  exists url headers body r html raw,
    In (EvPatch url headers body
          (PatchAnswered r (Some (GistReply (Some html) (Some raw)))))
       (new_events main w)
    /\ status_code r = 200%Z
    /\ raw <> "".
Proof.
  unfold new_events, world_after.
  destruct (success_main w) as (l & Hl & s' & Hs' & _).
  rewrite Hl, drop_app_length. intros Hin.
  destruct (success_monitor l false s' _ Hs' Hin eq_refl)
    as [H | (u & h & b & a & Ha & Hacc)]; [discriminate |].
  destruct a as [r [[[html |] [raw |]] |] | e]; try discriminate Hacc.
  cbn [accepted] in Hacc. apply andb_true_iff in Hacc as [H200 Hraw].
  apply Z.eqb_eq in H200. apply negb_true_iff, String.eqb_neq in Hraw.
  exists u, h, b, r, html, raw. auto.
Qed.

Lemma report_plain (s : option bool) (e : event num) :
  is_plain e = true -> report_step s e = Some s.
Proof.
  destruct e; cbn; try congruence.
  destruct (is_complete_line line); [discriminate | reflexivity].
Qed.

Lemma report_only_plain {A} (s : option bool) (m : M num A) :
  only is_plain m -> tracks report_step s (fun _ s' => s' = s) m.
Proof. apply tracks_only. intros e. apply report_plain. Qed.

(** After the line of the complete run, every line is accepted. *)
Lemma report_only_print {A} (m : M num A) :
  only is_print m -> tracks report_step (Some true) (fun _ s' => s' = Some true) m.
Proof.
  apply tracks_only. intros [] H; try discriminate H.
  cbn. destruct (is_complete_line line); reflexivity.
Qed.

Lemma published_owed (a : patch_outcome) :
  match published a with
  | OK (Some raw) => accepted a = negb (String.eqb raw "")
  | _ => accepted a = false
  end.
Proof.
  destruct a as [r [[[h |] [u |]] |] | e]; cbn [published accepted html_url raw_url];
    try (destruct (status_code r =? 200)%Z; reflexivity).
  destruct (is_RequestException e); reflexivity.
Qed.

(** The publisher leaves the report owed exactly when it returns a URL
    that is not empty. *)
Lemma report_update_github_gist (df : loc) (token : option string) (gist_id : string) :
  tracks report_step None
    (fun r s' =>
       match r with
       | OK (Some raw) => s' = if String.eqb raw "" then None else Some false
       | _ => s' = None
       end)
    (update_github_gist df token gist_id).
Proof.
  intros w. destruct (heap w !! df) as [d |] eqn:Hd.
  - destruct (update_github_gist_run df token gist_id w d Hd)
      as (lines & Hrun & _ & Hplain).
    cbv zeta in Hrun. rewrite Hrun. cbn [fst snd out].
    eexists. split; [reflexivity |].
    cbn [monitor report_step is_complete_line].
    eexists. split; [apply (monitor_steady _ is_plain); [| exact Hplain] |].
    + intros e. apply report_plain.
    + match goal with
      | |- match published ?a with _ => _ end => pose proof (published_owed a) as H
      end.
      destruct (published _) as [[raw |] | e]; rewrite H; [| reflexivity | reflexivity].
      destruct (String.eqb raw ""); reflexivity.
  - rewrite (update_github_gist_dangling _ _ _ _ Hd). cbn [fst snd out].
    eexists. split; [reflexivity |]. exists None. split; reflexivity.
Qed.

Ltac report_plain_then :=
  eapply tracks_bind;
  [ apply (report_only_plain (@None bool));
    repeat first
      [ progress plain_auto
      | match goal with
        | |- only _ (scrape_aaa_gas_prices _) => apply plain_scrape_aaa_gas_prices
        | |- only _ (scrape_aaa_ev_prices _) => apply plain_scrape_aaa_ev_prices
        end ]
  | intros ? ? E; cbn beta in E; subst
  | intros ? ? E; cbn beta in E; subst; discriminate ].

Lemma report_main : tracks report_step None (fun _ s' => s' <> Some false) main.
Proof.
  unfold main.
  eapply (tracks_try_except _ _ (fun _ s' => s' <> Some false)); [| auto |].
  - unfold main_try.
    do 17 report_plain_then.
    eapply tracks_bind;
      [ apply report_update_github_gist
      | intros raw_url s1 Hs1
      | intros e s1 Hs1; cbn beta iota in Hs1; subst; discriminate ].
    cbn beta iota in Hs1.
    destruct raw_url as [raw |]; unfold truthy, falsy.
    + destruct (String.eqb raw "") eqn:Eraw; cbn [negb]; subst s1.
      * eapply tracks_weaken; [apply (report_only_plain None); plain_auto |].
        cbn beta. intros _ s' ->. discriminate.
      * eapply tracks_bind;
          [ apply tracks_print; reflexivity
          | intros ? ? [_ ->]
          | intros ? ? [E _]; discriminate E ].
        eapply (tracks_bind _ _ (fun _ s' => s' = Some true));
          [ intros w; exists [EvPrint [Lit "SCRAPING PROCESS COMPLETE!"]];
            split; [reflexivity |]; exists (Some true); split; reflexivity
          | intros ? ? E; cbn beta in E; subst
          | intros ? ? E; cbn beta in E; subst; discriminate ].
        eapply tracks_weaken; [apply report_only_print; only_closed |].
        cbn beta. intros _ s' ->. discriminate.
    + cbn [negb]. subst s1.
      eapply tracks_weaken; [apply (report_only_plain None); plain_auto |].
      cbn beta. intros _ s' ->. discriminate.
  - intros e s1 Hs1.
    eapply tracks_weaken; [apply (report_only_plain s1), plain_main_except |].
    cbn beta. intros _ s' ->. exact Hs1.
Qed.

Lemma report_monitor_paid (l : list (event num)) :
  forall b s',
    monitor report_step (Some b) l = Some s' ->
    exists b',
      s' = Some b'
      /\ (b' = true ->
          b = true
          \/ exists line, In (EvPrint line) l /\ is_complete_line line = true).
Proof.
  induction l as [| e l IH]; intros b s' Hm; cbn [monitor] in Hm.
  - injection Hm as <-. exists b. auto.
  - assert (Hstep : exists b1,
               report_step (Some b) e = Some (Some b1)
               /\ (b1 = true ->
                   b = true
                   \/ exists line, e = EvPrint line /\ is_complete_line line = true)).
    { destruct e as [line | n | u h a | u h body a]; cbn [report_step option_map].
      - destruct (is_complete_line line) eqn:E; eauto 6.
      - eauto.
      - eauto.
      - destruct (accepted a); [exists false; split; [reflexivity | discriminate] | eauto]. }
    destruct Hstep as (b1 & Hstep & Hb1). rewrite Hstep in Hm.
    destruct (IH b1 s' Hm) as (b' & -> & Hb'). exists b'. split; [reflexivity |].
    intros Ht. destruct (Hb' Ht) as [-> | (line & Hin & Hline)].
    + destruct (Hb1 eq_refl) as [-> | (line & -> & Hline)]; [auto |].
      right. exists line. split; [left; reflexivity | exact Hline].
    + right. exists line. split; [right; exact Hin | exact Hline].
Qed.

Lemma report_monitor (l : list (event num)) :
  forall s s' url headers body a,
    monitor report_step s l = Some s' ->
    In (EvPatch url headers body a) l ->
    accepted a = true ->
    exists b',
      s' = Some b'
      /\ (b' = true ->
          exists line, In (EvPrint line) l /\ is_complete_line line = true).
Proof.
  induction l as [| e l IH]; intros s s' url headers body a Hm Hin Ha; [destruct Hin |].
  cbn [monitor] in Hm. destruct Hin as [-> | Hin].
  - cbn [report_step] in Hm. rewrite Ha in Hm.
    destruct (report_monitor_paid l false s' Hm) as (b' & -> & Hb').
    exists b'. split; [reflexivity |]. intros Ht.
    destruct (Hb' Ht) as [H | (line & Hl & Hline)]; [discriminate |].
    exists line. split; [right; exact Hl | exact Hline].
  - destruct (report_step s e) as [s1 |]; [| discriminate].
    destruct (IH s1 s' url headers body a Hm Hin Ha) as (b' & -> & Hb').
    exists b'. split; [reflexivity |]. intros Ht.
    destruct (Hb' Ht) as (line & Hl & Hline).
    exists line. split; [right; exact Hl | exact Hline].
Qed.

Lemma is_complete_line_inv (line : list (piece num)) :
  is_complete_line line = true -> line = [Lit "SCRAPING PROCESS COMPLETE!"].
Proof.
  destruct line as [| [s | | | | |] [| p l]]; cbn; try discriminate.
  intros H. apply String.eqb_eq in H. subst. reflexivity.
Qed.

(** X16.  Every accepted update is reported.  In every run of [main], a
    PATCH that the store answers with the status 200 and a document that
    has an [html_url] and a raw URL that is not empty is followed by the
    line "SCRAPING PROCESS COMPLETE!": with X15, the line is in the output
    exactly when the update went through. *)
Theorem main_reports_every_accepted_update (w : world num) (url : string)
  (headers : http_headers) (body : payload num) (r : response) (html raw : string) :
  In (EvPatch url headers body
        (PatchAnswered r (Some (GistReply (Some html) (Some raw)))))
     (new_events main w) ->
  status_code r = 200%Z ->
  raw <> "" ->
  In (EvPrint [Lit "SCRAPING PROCESS COMPLETE!"]) (new_events main w).
Proof.
  unfold new_events, world_after.
  destruct (report_main w) as (l & Hl & s' & Hs' & Hpaid).
  rewrite Hl, drop_app_length. intros Hin H200 Hraw.
  destruct (report_monitor l None s' _ _ _ _ Hs' Hin) as (b' & -> & Hb').
  { cbn [accepted]. apply Z.eqb_eq in H200. apply String.eqb_neq in Hraw.
    rewrite H200, Hraw. reflexivity. }
  destruct b'; [| congruence].
  destruct (Hb' eq_refl) as (line & Hline & Hcomplete).
  apply is_complete_line_inv in Hcomplete. subst line. exact Hline.
Qed.

End Proofs.

(** ** The statements on concrete inputs *)

Import Demo Examples.

(** *** C1 *)

(** C1: the environment has no token, the table exists, and the PATCH is
    sent. *)
Lemma update_github_gist_patches_without_token_witness :
  exists body answer,
    List.filter is_request
      (new_events (R := rt_publish) (update_github_gist 0 None GIST_ID)
                  (World [gas_TX] []))
    = [EvPatch ("https://api.github.com/gists/" +:+ GIST_ID)
         [("Authorization", "token None"); ("Accept", "application/vnd.github+json")]
         body answer].
Proof.
  apply (update_github_gist_patches_without_token (R := rt_publish)
           0 None GIST_ID (World [gas_TX] []) gas_TX); reflexivity.
Defined.

(** And when the store accepts the request, the call returns the URL. *)
Lemma update_github_gist_without_token_returns_url :
  result_of (R := rt_publish) (update_github_gist 0 None GIST_ID) (World [gas_TX] [])
  = OK (Some "https://gist.githubusercontent.com/x/raw").
Proof. reflexivity. Qed.

(** *** C2 *)



(** *** C3 *)

(** The left table has [CA] (followed by a no-break space) and [TX], the
    right table [NY] and [CA]: the row [TX] is there with NaN, and no
    merged row is a row of [NY]. *)
Lemma merge_data_left_join_witness :
  let w := World [gas_CA_TX; ev_NY_CA] [] in
  exists merged,
    heap (world_after (R := rt_plain) (merge_data 0 1) w) !! 2 = Some merged
    /\ In [VStr "TX"; VNum (Dec 310 2); VNaN] (rows merged)
    /\ forall o, In o (rows merged) -> cell (R := rt_plain) 0 o <> VStr "NY".
Proof.
  intros w.
  destruct (merge_data_left_join (R := rt_plain) 0 1 w
              (world_after (R := rt_plain) (merge_data 0 1) w) 2 gas_CA_TX ev_NY_CA)
    as (merged & Hm & _ & _ & Hleft & Hright);
    [reflexivity | lia | reflexivity | reflexivity | repeat constructor |].
  exists merged. split; [exact Hm |]. split.
  - apply (Hleft [VStr "TX"; VNum (Dec 310 2)]); [right; left; reflexivity | reflexivity].
  - intros o Ho E. destruct (Hright o Ho) as (r & Hr & Hcell).
    change (cell (R := rt_plain) 0 o = trimmed_key (R := rt_plain) gas_CA_TX r) in Hcell.
    rewrite E in Hcell.
    destruct Hr as [<- | [<- | []]]; vm_compute in Hcell; discriminate Hcell.
Defined.

(** *** C4 *)

(** C4, as stated, fails here: a response 304 is not a 2xx response, and
    the fetcher returns it. *)
Lemma make_respectful_request_returns_304 :
  result_of (R := rt_status 304) (make_respectful_request "https://example.org/")
            empty_world
  = OK (Response 304 "").
Proof. reflexivity. Qed.

(** *** C5 *)

Lemma extract_table_manually_converts_prices_witness :
  exists d,
    heap (world_after (R := rt_soup priced_table) (extract_table_manually page)
                      empty_world) !! 0 = Some d
    /\ cell_at d 0 1 = Some (VNum (Dec 3459 3)).
Proof.
  apply (extract_table_manually_converts_prices (R := rt_soup priced_table)
           page empty_world _ 0 (Tag "table" [tr [th "State"; th "Regular"];
                                              tr [td "TX"; td "$3.459"]])
           0 1 ["TX"; "$3.459"] "Regular" "3.459" (Dec 3459 3));
    reflexivity.
Defined.

(** *** C6 *)

(** C6, as stated, fails here: the row [TX] is well formed, the row [CA]
    is not, and no table comes back, the row [TX] included. *)
Lemma extract_table_manually_drops_good_rows :
  result_of (R := rt_soup garbage_table) (extract_table_manually page) empty_world
  = Raise (ValueError "could not convert string to float: 'n/a'")
  /\ parse_float (str_remove dollar "$3.10") = Some (Dec 310 2).
Proof. split; reflexivity. Qed.

Lemma extract_table_manually_garbage_is_fatal_witness :
  exists e,
    result_of (R := rt_soup garbage_table) (extract_table_manually page) empty_world
    = Raise e.
Proof.
  apply (extract_table_manually_garbage_is_fatal (R := rt_soup garbage_table)
           page empty_world
           (Tag "table" [tr [th "State"; th "Regular"];
                         tr [td "TX"; td "$3.10"];
                         tr [td "CA"; td "n/a"]])
           1 1 ["CA"; "n/a"] "Regular" "n/a");
    reflexivity.
Defined.

(** *** C7 *)


(** *** C8 *)

(** C8, as stated, fails here: the left table goes in with " CA " and
    comes out with "CA". *)
Lemma merge_data_changes_its_input :
  let w := World [gas_CA_untrimmed; ev_empty] [] in
  heap w !! 0 = Some (Frame ["State"; "Regular"] [[VStr " CA "; VNum (Dec 450 2)]])
  /\ heap (world_after (R := rt_plain) (merge_data 0 1) w) !! 0
     = Some (Frame ["State"; "Regular"] [[VStr "CA"; VNum (Dec 450 2)]]).
Proof. split; reflexivity. Qed.

Lemma merge_data_trims_inputs_in_place_witness :
  let w := World [gas_CA_untrimmed; ev_CA_twice] [] in
  heap (world_after (R := rt_plain) (merge_data 0 1) w) !! 0
  = Some (trimmed (R := rt_plain) gas_CA_untrimmed).
Proof.
  intros w.
  apply (merge_data_trims_inputs_in_place (R := rt_plain) 0 1 w
           (world_after (R := rt_plain) (merge_data 0 1) w) 2
           gas_CA_untrimmed ev_CA_twice);
    [reflexivity | lia | reflexivity | reflexivity].
Defined.

(** *** C9 *)

(** The site answers 403 to the first request. *)
Lemma main_403_aborts_before_publish_witness :
  existsb is_patch (new_events (R := rt_status 403) main empty_world) = false
  /\ In (EvPrint [Lit "The website is blocking the request."])
        (new_events (R := rt_status 403) main empty_world).
Proof.
  apply (main_403_aborts_before_publish (R := rt_status 403) empty_world).
  reflexivity.
Defined.

(** *** C10 *)

(** C10, as stated, fails here: two [<th>] cells, a data row of one cell,
    and a table comes back, the short row filled. *)
Lemma extract_table_manually_accepts_short_rows :
  result_of (R := rt_soup ragged_table) (extract_table_manually page) empty_world = OK 0
  /\ heap (world_after (R := rt_soup ragged_table) (extract_table_manually page)
                       empty_world) !! 0
     = Some (Frame ["State"; "Regular"]
               [[VStr "TX"; VNum (Dec 310 2)]; [VStr "CA"; VNaN]])
  /\ manual_headers (Tag "table" [tr [th "State"; th "Regular"];
                                  tr [td "TX"; td "$3.10"];
                                  tr [td "CA"]]) = ["State"; "Regular"]
  /\ manual_rows (Tag "table" [tr [th "State"; th "Regular"];
                               tr [td "TX"; td "$3.10"];
                               tr [td "CA"]]) = [["TX"; "$3.10"]; ["CA"]].
Proof. repeat split. Qed.

(** A [<th>] in a data row is one more label: three labels for rows of
    two cells, and the parser raises. *)
Lemma extract_table_manually_header_count_witness :
  exists msg,
    result_of (R := rt_soup row_header_table) (extract_table_manually page) empty_world
    = Raise (ValueError msg).
Proof.
  apply (extract_table_manually_header_count (R := rt_soup row_header_table)
           page empty_world
           (Tag "table" [tr [th "State"; th "Regular"];
                         tr [th "TX"; td "$3.10"]]));
    [reflexivity | discriminate | vm_compute; lia].
Defined.

(** *** Further properties *)

(** X2, on the complete run: the events between its two GETs hold ten
    seconds of sleep. *)
Lemma main_waits_between_fetches_witness :
  slept (R := rt_full)
        (take 27 (drop 7 (new_events (R := rt_full) main empty_world))) = 10.
Proof.
  apply (main_waits_between_fetches (R := rt_full) empty_world
           (take 6 (new_events (R := rt_full) main empty_world))
           (take 27 (drop 7 (new_events (R := rt_full) main empty_world)))
           (drop 35 (new_events (R := rt_full) main empty_world))
           (TARGET_URLS "gas_prices") (TARGET_URLS "ev_prices") HEADERS HEADERS
           (Answered (Response 200 gas_page)) (Answered (Response 200 ev_page)));
    reflexivity.
Defined.

(** X4, on a table with the label "Regular" twice: the record of the
    row holds the cell of the second of the two columns. *)
Lemma update_github_gist_outcome_witness :
  exists body answer record,
    List.filter is_request
      (new_events (R := rt_publish) (update_github_gist 0 (Some "ghp_example") GIST_ID)
                  (World [gas_repeated] []))
    = [EvPatch ("https://api.github.com/gists/" +:+ GIST_ID)
         [("Authorization", "token ghp_example");
          ("Accept", "application/vnd.github+json")]
         body answer]
    /\ data body !! 0 = Some record
    /\ dict_get (R := rt_publish) "Regular" record = Some (VNum (Dec 320 2)).
Proof.
  destruct (update_github_gist_outcome (R := rt_publish) 0 (Some "ghp_example") GIST_ID
              (World [gas_repeated] []) gas_repeated)
    as (body & answer & Hcall & _ & Hdata & _); [reflexivity |].
  destruct (Hdata 0 [VStr "TX"; VNum (Dec 310 2); VNum (Dec 320 2)] eq_refl)
    as (record & Hrecord & Hget).
  exists body, answer, record. split; [exact Hcall |]. split; [exact Hrecord |].
  rewrite Hget. reflexivity.
Defined.

(** X5, on a left table whose region column is called "Region": nothing
    has changed. *)
Lemma merge_data_left_without_state_witness :
  merge_data (R := rt_plain) 0 1 (World [ev_by_region; ev_CA] [])
  = (Raise (KeyError "State"), World [ev_by_region; ev_CA] []).
Proof.
  apply (merge_data_left_without_state (R := rt_plain) 0 1
           (World [ev_by_region; ev_CA] []) ev_by_region); reflexivity.
Defined.


(** X7, on the scenario of the region [CA] on both sides. *)
Lemma merge_data_rows_witness :
  let w := World [gas_CA_untrimmed; ev_CA] [] in
  exists merged,
    heap (world_after (R := rt_plain) (merge_data 0 1) w) !! 2 = Some merged
    /\ In [VStr "CA"; VNum (Dec 450 2); VNum (Dec 30 2)] (rows merged).
Proof.
  intros w.
  destruct (merge_data_rows (R := rt_plain) 0 1 w
              (world_after (R := rt_plain) (merge_data 0 1) w) 2 gas_CA_untrimmed ev_CA)
    as (merged & Hm & Hrows); [reflexivity | lia | reflexivity | reflexivity |].
  exists merged. split; [exact Hm |].
  apply Hrows. exists [VStr " CA "; VNum (Dec 450 2)]. split; [left; reflexivity |].
  right. exists [VStr "CA"; VNum (Dec 30 2)].
  split; [left; reflexivity |]. split; reflexivity.
Defined.

(** X8, on a right table in the other order. *)
Lemma merge_data_keeps_left_order_witness :
  let w := World [gas_CA_TX; ev_TX_CA] [] in
  exists merged,
    heap (world_after (R := rt_plain) (merge_data 0 1) w) !! 2 = Some merged
    /\ column (R := rt_plain) 0 merged = [VStr "CA"; VStr "TX"].
Proof.
  intros w.
  apply (merge_data_keeps_left_order (R := rt_plain) 0 1 w
           (world_after (R := rt_plain) (merge_data 0 1) w) 2 gas_CA_TX ev_TX_CA);
    [reflexivity | lia | reflexivity | reflexivity | repeat constructor | reflexivity].
Defined.

(** X9, on a right table with two rows for the region of the left row. *)
Lemma merge_data_keeps_left_rows_witness :
  let w := World [gas_CA_untrimmed; ev_CA_twice] [] in
  exists merged,
    heap (world_after (R := rt_plain) (merge_data 0 1) w) !! 2 = Some merged
    /\ length (rows gas_CA_untrimmed) <= length (rows merged).
Proof.
  intros w.
  apply (merge_data_keeps_left_rows (R := rt_plain) 0 1 w
           (world_after (R := rt_plain) (merge_data 0 1) w) 2
           gas_CA_untrimmed ev_CA_twice);
    [reflexivity | lia | reflexivity | reflexivity].
Defined.

(** X11, on a page whose header "State" and whose region cell "TX" are
    followed by a no-break space: the column is the region column, and
    the cell is trimmed. *)
Lemma extract_table_manually_shape_witness :
  exists d,
    heap (world_after (R := rt_soup padded_table) (extract_table_manually page)
                      empty_world) !! 0 = Some d
    /\ length (rows d) = 1
    /\ cell_at d 0 0 = Some (VStr "TX").
Proof.
  destruct (extract_table_manually_shape (R := rt_soup padded_table)
              page empty_world
              (world_after (R := rt_soup padded_table) (extract_table_manually page)
                           empty_world)
              0 (Tag "table" [tr [th ("State" +:+ nbsp); th "Regular"];
                              tr [td ("TX" +:+ nbsp); td "$3.459"]]))
    as (d & Hd & Hrows & _ & Hstate); [reflexivity | reflexivity |].
  exists d. split; [exact Hd |]. split; [exact Hrows |].
  apply (Hstate 0 0 ["TX"; "$3.459"] "TX"); reflexivity.
Defined.

(** X12, on a page that holds a paragraph only. *)
Lemma extract_table_data_without_table_witness :
  result_of (R := rt_soup denied_page) (extract_table_data page) empty_world
  = Raise (ValueError "No table found in HTML").
Proof.
  apply (extract_table_data_without_table (R := rt_soup denied_page) page empty_world);
    [discriminate | reflexivity].
Defined.

(** X13, on the complete run: the cell "n/a" of the EV page has become
    NaN, and the cell "0.30" a number. *)
Lemma scrape_aaa_ev_prices_coerces_witness :
  exists d,
    heap (world_after (R := rt_full) (scrape_aaa_ev_prices (TARGET_URLS "ev_prices"))
                      empty_world) !! 0 = Some d
    /\ count_label "Cost/kWh" (columns d) = 1
    /\ cell_at d 1 1 = Some VNaN.
Proof.
  destruct (scrape_aaa_ev_prices_coerces (R := rt_full) (TARGET_URLS "ev_prices")
              empty_world
              (world_after (R := rt_full) (scrape_aaa_ev_prices (TARGET_URLS "ev_prices"))
                           empty_world) 0)
    as (d & Hd & Hcost); [reflexivity |].
  exists d. split; [exact Hd |].
  vm_compute in Hd. injection Hd as <-. split; reflexivity.
Defined.

(** X14, on the tables of the counterexample of C8. *)
Lemma merge_data_again_witness :
  let w := World [gas_CA_untrimmed; ev_CA] [] in
  exists merged,
    heap (world_after (R := rt_plain) (merge_data 0 1) w) !! 2 = Some merged
    /\ result_of (R := rt_plain) (merge_data 0 1)
         (world_after (R := rt_plain) (merge_data 0 1) w) = OK 3.
Proof.
  intros w.
  destruct (merge_data_again (R := rt_plain) 0 1 w
              (world_after (R := rt_plain) (merge_data 0 1) w) 2 gas_CA_untrimmed ev_CA)
    as (merged & Hm & Hagain); [reflexivity | lia | reflexivity | reflexivity |].
  exists merged. split; [exact Hm |].
  unfold result_of. rewrite Hagain. reflexivity.
Defined.

(** X15, on the complete run: the line is printed, and the run holds the
    PATCH that the store accepted. *)
Lemma main_reports_success_after_publish_witness :
  exists url headers body r html raw,
    In (EvPatch url headers body
          (PatchAnswered r (Some (GistReply (Some html) (Some raw)))))
       (new_events (R := rt_full) main empty_world)
    /\ status_code r = 200%Z
    /\ raw <> "".
Proof.
  apply (main_reports_success_after_publish (R := rt_full) empty_world).
  vm_compute. repeat (first [left; reflexivity | right]).
Defined.

(** X16, on the complete run. *)
Lemma main_reports_every_accepted_update_witness :
  In (EvPrint [Lit "SCRAPING PROCESS COMPLETE!"])
     (new_events (R := rt_full) main empty_world).
Proof.
  apply (main_reports_every_accepted_update (R := rt_full) empty_world
           ("https://api.github.com/gists/" +:+ GIST_ID)
           [("Authorization", "token ghp_example");
            ("Accept", "application/vnd.github+json")]
           (Payload "AAA Fuel & EV Price Data - Updated 2024-01-01 00:00:00"
                    "2024-01-01 00:00:00"
                    [[("State", VStr "CA"); ("Regular", VNum (Dec 450 2));
                      ("Cost/kWh", VNum (Dec 30 2))];
                     [("State", VStr "TX"); ("Regular", VNum (Dec 310 2));
                      ("Cost/kWh", VNaN)]])
           (Response 200 "{}") "https://gist.github.com/x"
           "https://gist.githubusercontent.com/x/raw").
  - vm_compute. repeat (first [left; reflexivity | right]).
  - reflexivity.
  - discriminate.
Defined.
